(** * labelimg_data_converter: a shallow embedding and its properties

    The program (one Python 3 module, [labelimg_data_converter.py]) has three
    stages: [ImageData] flattens [movie<N>/frame<F>.{xml,jpg}] pairs into one
    directory, [MetaData.convert] turns a LabelImg XML annotation into a Yolo
    text file, and [TrainingData.split] assigns every converted image to a
    train or a test manifest.

    Conventions of the embedding.
    - A Python [str] is a [string]; a character is a code point below 256.
    - A Python [int] is a [Z]; a Python [float] is an IEEE 754 binary64 value,
      [spec_float] with precision 53 and maximal exponent 1024.
    - A raised exception is the [Raise] outcome of [result]; nothing in the
      program catches exceptions, so [Raise] ends the run.
    - Paths follow [posixpath]. The file system is a map from paths to
      files; directories are taken to exist, and [glob.iglob] is a function
      of the files that the stages take as a parameter. *)

From Stdlib Require Import ZArith Ascii String List Bool Lia DecimalString.
From Stdlib Require Import SpecFloat.
From stdpp Require Import base tactics option list gmap strings.

Local Open Scope Z_scope.
Set Warnings "-register-all".

(** ** Exceptions *)

Inductive exn : Set :=
  | AssertionError
  | AttributeError
  | TypeError
  | ValueError
  | OverflowError
  | ZeroDivisionError
  | IndexError
  | FileNotFoundError
  | SameFileError
  | ParseError
  | SystemExit.

Inductive result (A : Type) : Type :=
  | Ok (a : A)
  | Raise (e : exn).
Arguments Ok {A} a.
Arguments Raise {A} e.

Definition rbind {A B : Type} (r : result A) (k : A -> result B) : result B :=
  match r with
  | Ok a => k a
  | Raise e => Raise e
  end.

Definition raises {A : Type} (r : result A) : Prop :=
  match r with
  | Ok _ => False
  | Raise _ => True
  end.

(** [assert(b)] *)
Definition assert (b : bool) : result unit :=
  if b then Ok tt else Raise AssertionError.

Declare Scope result_scope.
Delimit Scope result_scope with result.
Notation "x <- r ;; k" := (rbind r (fun x => k))
  (at level 100, r at next level, right associativity) : result_scope.
Notation "r ;;; k" := (rbind r (fun _ => k))
  (at level 100, right associativity) : result_scope.

(** ** Strings *)

Module Str.

(** [s[n:]] *)
Fixpoint drop (n : nat) (s : string) : string :=
  match n, s with
  | O, _ => s
  | S _, EmptyString => EmptyString
  | S n', String _ s' => drop n' s'
  end.

(** [s[:n]] *)
Fixpoint take (n : nat) (s : string) : string :=
  match n, s with
  | O, _ => EmptyString
  | S _, EmptyString => EmptyString
  | S n', String c s' => String c (take n' s')
  end.

(** [s[-n:]] for [n > 0] *)
Definition last_chars (n : nat) (s : string) : string :=
  drop (String.length s - n) s.

(** [s.split(sep)[0]]: the part of [s] before the first occurrence of
    [sep], all of [s] when there is none. *)
Fixpoint split_0 (sep s : string) : string :=
  if String.prefix sep s then EmptyString
  else match s with
       | EmptyString => EmptyString
       | String c s' => String c (split_0 sep s')
       end.

(** What follows the first occurrence of [sep] in [s]. *)
Fixpoint after (sep s : string) : option string :=
  if String.prefix sep s then Some (drop (String.length sep) s)
  else match s with
       | EmptyString => None
       | String _ s' => after sep s'
       end.

(** [s.split(sep)[1]]; an [IndexError] when [sep] does not occur. *)
Definition split_1 (sep s : string) : result string :=
  match after sep s with
  | Some rest => Ok (split_0 sep rest)
  | None => Raise IndexError
  end.

Fixpoint all (p : ascii -> bool) (s : string) : bool :=
  match s with
  | EmptyString => true
  | String c s' => p c && all p s'
  end.

(** [str.isdigit] of one character: the decimal digits and, among the
    code points below 256, the superscripts two, three and one. *)
Definition isdigit_char (c : ascii) : bool :=
  let n := N_of_ascii c in
  ((48 <=? n) && (n <=? 57) || (n =? 178) || (n =? 179) || (n =? 185))%N.

(** [s.isdigit()]: false on the empty string. *)
Definition isdigit (s : string) : bool :=
  match s with
  | EmptyString => false
  | _ => all isdigit_char s
  end.

(** A decimal digit, [0] to [9]. *)
Definition is_decimal (c : ascii) : bool :=
  let n := N_of_ascii c in ((48 <=? n) && (n <=? 57))%N.

(** A character of the ASCII range. *)
Definition is_ascii (c : ascii) : bool := (N_of_ascii c <? 128)%N.

End Str.

(** ** Python built-ins *)

Module Py.
Import Str.

Definition newline : string := String "010" "".
Definition dquote : string := String "034" "".

(** *** [int] *)

(** The characters [int()] strips: tab to carriage return, space, and the
    two other white-space code points below 256. *)
Definition int_space (c : ascii) : bool :=
  let n := N_of_ascii c in
  ((9 <=? n) && (n <=? 13) || (n =? 32) || (n =? 133) || (n =? 160))%N.

Fixpoint lstrip (s : string) : string :=
  match s with
  | EmptyString => EmptyString
  | String c s' => if int_space c then lstrip s' else s
  end.

Definition strip (s : string) : string :=
  String.rev (lstrip (String.rev (lstrip s))).

Definition digit_value (c : ascii) : Z := Z.of_N (N_of_ascii c) - 48.

(** Decimal digits, single underscores allowed between two digits. *)
Fixpoint int_digits (acc : Z) (after_digit : bool) (s : string) : option Z :=
  match s with
  | EmptyString => if after_digit then Some acc else None
  | String c s' =>
      if is_decimal c then int_digits (10 * acc + digit_value c) true s'
      else if Ascii.eqb c "_" && after_digit then int_digits acc false s'
      else None
  end.

(** [int(s)] for a string [s]: white space around, a sign, the digits. The
    limit that recent versions of Python put on the number of digits is
    left out. *)
Definition int_of_str (s : string) : result Z :=
  let s := strip s in
  let '(negative, body) :=
    match s with
    | String "-" r => (true, r)
    | String "+" r => (false, r)
    | _ => (false, s)
    end in
  match int_digits 0 false body with
  | Some n => Ok (if negative then - n else n)
  | None => Raise ValueError
  end.

(** [int(t)] for the [text] of an element, which is [None] when empty *)
Definition int_of_text (t : option string) : result Z :=
  match t with
  | None => Raise TypeError
  | Some s => int_of_str s
  end.

(** [str(n)] for an [int] *)
Definition str_of_int (z : Z) : string := NilZero.string_of_int (Z.to_int z).

(** *** [float] *)

Definition prec : Z := 53.
Definition emax : Z := 1024.

Definition float_0 : spec_float := S754_zero false.
Definition float_1 : spec_float := S754_finite false 4503599627370496 (-52).
(** The literal [0.1] *)
Definition float_0_1 : spec_float := S754_finite false 7205759403792794 (-56).

(** [float(n)], also the conversion of the [int] operand of a mixed
    operation: round to nearest even, [OverflowError] beyond the range. *)
Definition float_of_int (z : Z) : result spec_float :=
  match binary_normalize prec emax z 0 false with
  | S754_infinity _ => Raise OverflowError
  | f => Ok f
  end.

(** [x + n] for a float [x] and an int [n] *)
Definition add_float_int (x : spec_float) (n : Z) : result spec_float :=
  (y <- float_of_int n ;; Ok (SFadd prec emax x y))%result.

(** [x / n] for a float [x] and an int [n] *)
Definition div_float_int (x : spec_float) (n : Z) : result spec_float :=
  (y <- float_of_int n ;;
   match y with
   | S754_zero _ => Raise ZeroDivisionError
   | _ => Ok (SFdiv prec emax x y)
   end)%result.

Definition float_lt (x y : spec_float) : bool := SFltb x y.
Definition float_le (x y : spec_float) : bool := SFleb x y.

(** *** [str] of a float: [repr], the shortest decimal string that reads
    back as the same float. *)

(** [x < 10^p] for the rational [x = num / den] *)
Definition lt_pow10 (num den p : Z) : bool :=
  if 0 <=? p then num <? 10 ^ p * den else num * 10 ^ (- p) <? den.

(** The decimal point of [x = num / den > 0], the [p] with
    [10^(p-1) <= x < 10^p], counted up from an estimate that the number
    [bits] of binary digits of [x] gives. *)
Definition decimal_point (num den bits : Z) : Z :=
  let est := bits * 30103 / 100000 - 2 in
  est + Z.of_nat (List.length
    (List.filter (fun j => negb (lt_pow10 num den (est + j))) [0; 1; 2; 3; 4; 5])).

(** The decimals [d * 10^k] next to [x] that lie in the rounding interval
    from [lo] to [hi] of [x] (its ends included when [closed]): the nearer
    one if both do, the even one on a tie. [x], [lo] and [hi] are
    numerators over [den]. *)
Definition candidate (x lo hi den : Z) (closed : bool) (k : Z) : option Z :=
  let scale_n := if 0 <=? k then 1 else 10 ^ (- k) in
  let scale_d := if 0 <=? k then 10 ^ k * den else den in
  let down := (x * scale_n) / scale_d in
  let exact := (x * scale_n) mod scale_d =? 0 in
  let up := if exact then down else down + 1 in
  let inside d :=
    if closed
    then (lo * scale_n <=? d * scale_d) && (d * scale_d <=? hi * scale_n)
    else (lo * scale_n <? d * scale_d) && (d * scale_d <? hi * scale_n) in
  match inside down && (0 <? down), inside up with
  | true, true =>
      let dd := x * scale_n - down * scale_d in
      let du := up * scale_d - x * scale_n in
      Some (if dd <? du then down else if du <? dd then up
            else if Z.even down then down else up)
  | true, false => Some down
  | false, true => Some up
  | false, false => None
  end.

(** Try [n], [n + 1], ... significant digits, [more] times more;
    seventeen digits identify every binary64 value. *)
Fixpoint shortest (x lo hi den : Z) (closed : bool) (p : Z) (n more : nat)
  : Z * Z :=
  match candidate x lo hi den closed (p - Z.of_nat n) with
  | Some d => (d, p - Z.of_nat n)
  | None =>
      match more with
      | O => (x / den, 0)
      | S more' => shortest x lo hi den closed p (S n) more'
      end
  end.

(** Rounding up to a power of ten leaves zeros at the end. *)
Fixpoint strip_zeros (n : nat) (d k : Z) : Z * Z :=
  match n with
  | O => (d, k)
  | S n' =>
      if (d mod 10 =? 0) && negb (d =? 0)
      then strip_zeros n' (d / 10) (k + 1) else (d, k)
  end.

Definition digits_of (d : Z) : string :=
  NilZero.string_of_uint (N.to_uint (Z.to_N d)).

Fixpoint zeros (n : nat) : string :=
  match n with
  | O => EmptyString
  | S n' => String "0" (zeros n')
  end.

(** The digits [0.d1d2... * 10^decpt] in the layout of [repr]: an exponent
    below [1e-4] and from [1e16] on. *)
Definition format_short (digits : string) (decpt : Z) : string :=
  let n := Z.of_nat (String.length digits) in
  if (decpt <=? -4) || (16 <? decpt) then
    let e := decpt - 1 in
    let mant :=
      match digits with
      | String c EmptyString => String c EmptyString
      | String c rest => String c ("." +:+ rest)
      | EmptyString => EmptyString
      end in
    let ea := digits_of (Z.abs e) in
    mant +:+ "e" +:+ (if e <? 0 then "-" else "+") +:+
      (if Z.abs e <? 10 then "0" +:+ ea else ea)
  else if decpt <=? 0 then "0." +:+ zeros (Z.to_nat (- decpt)) +:+ digits
  else if decpt <? n
    then take (Z.to_nat decpt) digits +:+ "." +:+ drop (Z.to_nat decpt) digits
  else digits +:+ zeros (Z.to_nat (decpt - n)) +:+ ".0".

(** [str(x)] for a float [x = m * 2^e]; the rounding interval reaches half
    way to the neighbours, which are [2^e] away, the lower one half of
    that at the bottom of a binade. *)
Definition str_of_float (f : spec_float) : string :=
  match f with
  | S754_nan => "nan"
  | S754_infinity s => if s then "-inf" else "inf"
  | S754_zero s => if s then "-0.0" else "0.0"
  | S754_finite s m e =>
      let mz := Z.pos m in
      let bottom := (mz =? 2 ^ (prec - 1)) && (emin prec emax <? e) in
      let lo4 := if bottom then 4 * mz - 1 else 4 * mz - 2 in
      let hi4 := 4 * mz + 2 in
      let e2 := e - 2 in
      let pw := if 0 <=? e2 then 2 ^ e2 else 1 in
      let den := if 0 <=? e2 then 1 else 2 ^ (- e2) in
      let x := 4 * mz * pw in
      let p := decimal_point x den (Z.pos (digits2_pos m) + e) in
      let '(d, k) := shortest x (lo4 * pw) (hi4 * pw) den (Z.even mz) p 1 17 in
      let '(d, k) := strip_zeros 20 d k in
      let digits := digits_of d in
      (if s then "-" else "") +:+
        format_short digits (k + Z.of_nat (String.length digits))
  end.

(** [str(x)] of [None] or a string, as [format] prints it *)
Definition str_of_opt (t : option string) : string :=
  match t with
  | None => "None"
  | Some s => s
  end.

End Py.

(** ** [posixpath] *)

Module Path.
Import Str.

Fixpoint rfind_from (c : ascii) (s : string) (i found : Z) : Z :=
  match s with
  | EmptyString => found
  | String a s' => rfind_from c s' (i + 1) (if Ascii.eqb a c then i else found)
  end.

(** [s.rfind(c)]: the index of the last [c], [-1] without one *)
Definition rfind (c : ascii) (s : string) : Z := rfind_from c s 0 (-1).

(** [os.path.splitext(p)]: the extension starts at the last dot of the
    last component, unless only dots precede it there. *)
Definition splitext (p : string) : string * string :=
  let sepIndex := rfind "/" p in
  let dotIndex := rfind "." p in
  if sepIndex <? dotIndex then
    let filenameIndex := sepIndex + 1 in
    let leading := take (Z.to_nat (dotIndex - filenameIndex))
                        (drop (Z.to_nat filenameIndex) p) in
    if all (fun c => Ascii.eqb c ".") leading then (p, EmptyString)
    else (take (Z.to_nat dotIndex) p, drop (Z.to_nat dotIndex) p)
  else (p, EmptyString).

(** [os.path.split(p)[1]] *)
Definition basename (p : string) : string :=
  drop (Z.to_nat (rfind "/" p + 1)) p.

(** [os.path.join(a, b)] *)
Definition join (a b : string) : string :=
  if String.prefix "/" b then b
  else if (a =? "")%string || (last_chars 1 a =? "/")%string then a +:+ b
  else a +:+ "/" +:+ b.

End Path.

(** ** XML element trees, as [xml.etree.ElementTree] builds them *)

Inductive Element : Type :=
  | Elem (tag : string) (text : option string) (children : list Element).

Definition tag (e : Element) : string := let 'Elem t _ _ := e in t.
Definition text (e : Element) : option string := let 'Elem _ t _ := e in t.
Definition children (e : Element) : list Element := let 'Elem _ _ c := e in c.

(** The element and all below it, in document order *)
Fixpoint iter_all (e : Element) : list Element :=
  match e with
  | Elem _ _ cs => e :: flat_map iter_all cs
  end.

(** [e.iter(t)] *)
Definition iter (t : string) (e : Element) : list Element :=
  List.filter (fun x => (tag x =? t)%string) (iter_all e).

(** [e.find(t)]: the first child with tag [t] *)
Definition find (t : string) (e : Element) : option Element :=
  List.find (fun x => (tag x =? t)%string) (children e).

(** [int(e.find(t).text)] *)
Definition int_field (e : Element) (t : string) : result Z :=
  match find t e with
  | None => Raise AttributeError
  | Some c => Py.int_of_text (text c)
  end.

(** ** The world: files, standard output and the random source *)

(** A file holds a well-formed XML document, given by its tree, or
    other data. *)
Inductive File : Type :=
  | XmlFile (root : Element)
  | DataFile (data : string).

Record World : Type := mkWorld {
  files : gmap string File;
  stdout : list string;
  (** what the calls of [random()] return, and how many were made *)
  random_values : nat -> spec_float;
  random_calls : nat;
}.

Definition M (A : Type) : Type := World -> result A * World.

Definition ret {A : Type} (a : A) : M A := fun w => (Ok a, w).

Definition bind {A B : Type} (m : M A) (k : A -> M B) : M B :=
  fun w =>
    match m w with
    | (Ok a, w') => k a w'
    | (Raise e, w') => (Raise e, w')
    end.

Definition lift {A : Type} (r : result A) : M A := fun w => (r, w).

Declare Scope M_scope.
Delimit Scope M_scope with M.
Notation "x <- m ;; k" := (bind m (fun x => k))
  (at level 100, m at next level, right associativity) : M_scope.
Notation "m ;;; k" := (bind m (fun _ => k))
  (at level 100, right associativity) : M_scope.

(** The world after some lines were printed *)
Definition log (w : World) (lines : list string) : World :=
  mkWorld (files w) (stdout w ++ lines) (random_values w) (random_calls w).

(** The world after [data] was written to the file [path] *)
Definition store (w : World) (path : string) (f : File) : World :=
  mkWorld (<[path := f]> (files w)) (stdout w) (random_values w) (random_calls w).

(** [print(line)] *)
Definition print (line : string) : M unit := fun w => (Ok tt, log w [line]).

(** [os.path.exists(path)] *)
Definition path_exists (path : string) : M bool :=
  fun w => (Ok (bool_decide (is_Some (files w !! path))), w).

(** [open(path, 'w')], [write(data)], [close()] *)
Definition write_file (path data : string) : M unit :=
  fun w => (Ok tt, store w path (DataFile data)).

(** [shutil.copyfile(src, dst)]; two paths are the same file when they are
    the same string. *)
Definition copyfile (src dst : string) : M unit :=
  fun w =>
    if (src =? dst)%string then (Raise SameFileError, w)
    else match files w !! src with
         | None => (Raise FileNotFoundError, w)
         | Some f => (Ok tt, store w dst f)
         end.

(** [ET.parse(path).getroot()] *)
Definition ET_parse (path : string) : M Element :=
  fun w =>
    match files w !! path with
    | None => (Raise FileNotFoundError, w)
    | Some (DataFile _) => (Raise ParseError, w)
    | Some (XmlFile root) => (Ok root, w)
    end.

(** [random()] *)
Definition random : M spec_float :=
  fun w => (Ok (random_values w (random_calls w)),
            mkWorld (files w) (stdout w) (random_values w) (S (random_calls w))).

(** [for x in l: s = body(s, x)] *)
Fixpoint for_each {S A : Type} (body : S -> A -> result S) (s : S) (l : list A)
  : result S :=
  match l with
  | [] => Ok s
  | x :: l' => (s' <- body s x ;; for_each body s' l')%result
  end.

Fixpoint for_each_M {S A : Type} (body : S -> A -> M S) (s : S) (l : list A)
  : M S :=
  match l with
  | [] => ret s
  | x :: l' => (s' <- body s x ;; for_each_M body s' l')%M
  end.

(** ** The Flattener: [ImageData.sanitize_id] *)

(** [[
    xml_id = xml[-8:].split('.xml')[0]
    if not xml_id.isdigit():
      xml_id = '0' + xml_id[1:]
    assert(xml_id.isdigit())
    assert(len(xml_id) == 4)
    return xml_id
    ]] *)
Definition sanitize_id (xml : string) : result string :=
  let xml_id := Str.split_0 ".xml" (Str.last_chars 8 xml) in
  let xml_id :=
    if negb (Str.isdigit xml_id) then "0" +:+ Str.drop 1 xml_id else xml_id in
  (assert (Str.isdigit xml_id) ;;;
   assert (String.length xml_id =? 4)%nat ;;;
   Ok xml_id)%result.

(** [sanitize], the body of the inner loop for one annotation file. The
    running count is [self.copied_pairs_count]. *)
Record ImageData : Type := mkImageData {
  id_input_dir : string;
  id_output_dir : string;
  id_file_header : string;
  existence_check_when_copying : bool;
}.

Definition sanitize_xml (self : ImageData) (proper_file_name_head : string)
    (copied_pairs_count : Z) (xml : string) : M Z :=
  (let jpg_path := Str.split_0 ".xml" xml +:+ ".jpg" in
   jpg_exists <- path_exists jpg_path ;;
   if negb jpg_exists then
     print ("***** JPG is missing: " +:+ jpg_path) ;;;
     ret copied_pairs_count
   else
     let xml_name := Path.basename xml in
     xml_id <- lift (sanitize_id xml_name) ;;
     let proper_xml_name := proper_file_name_head +:+ xml_id +:+ ".xml" in
     xml_there <- path_exists (Path.join (id_output_dir self) proper_xml_name) ;;
     (if existence_check_when_copying self && xml_there
      then print ("***** already exists: " +:+ proper_xml_name +:+
                  " where src: " +:+ xml)
      else ret tt) ;;;
     let proper_jpg_name := proper_file_name_head +:+ xml_id +:+ ".jpg" in
     jpg_there <- path_exists (Path.join (id_output_dir self) proper_jpg_name) ;;
     (if existence_check_when_copying self && jpg_there
      then print ("***** already exists: " +:+ proper_jpg_name +:+
                  " where src: " +:+ jpg_path)
      else ret tt) ;;;
     let dst_html := Path.join (id_output_dir self) proper_xml_name in
     copyfile xml dst_html ;;;
     let dst_jpg := Path.join (id_output_dir self) proper_jpg_name in
     copyfile jpg_path dst_jpg ;;;
     ret (copied_pairs_count + 1))%M.

(** ** The Annotation Converter: [MetaData.convert] *)

(** The body of [for size in root.iter('size')]; the state is
    [(img_width, img_height)], [None] until assigned. *)
Definition convert_size (st : option Z * option Z) (size : Element)
  : result (option Z * option Z) :=
  (let '(img_width, img_height) := st in
   depth <- int_field size "depth" ;;
   assert (depth =? 3) ;;;
   assert (bool_decide (img_width = None)) ;;;
   w <- int_field size "width" ;;
   assert (bool_decide (img_height = None)) ;;;
   h <- int_field size "height" ;;
   Ok (Some w, Some h))%result.

(** [assert(v > 0)] for a variable that may still be [None]: comparing
    [None] with an [int] is a [TypeError]. *)
Definition assert_positive (v : option Z) : result Z :=
  match v with
  | None => Raise TypeError
  | Some z => (assert (0 <? z) ;;; Ok z)%result
  end.

(** The body of [for bndbox in obj.iter('bndbox')]: the line it appends
    to [obj_data]. *)
Definition convert_bndbox (class_id img_width img_height : Z) (bndbox : Element)
  : result string :=
  (xmin <- int_field bndbox "xmin" ;;
   assert (0 <? xmin) ;;;
   xmax <- int_field bndbox "xmax" ;;
   assert (0 <? xmax) ;;;
   ymin <- int_field bndbox "ymin" ;;
   assert (0 <? ymin) ;;;
   ymax <- int_field bndbox "ymax" ;;
   assert (0 <? ymax) ;;;
   abs_width <- Py.float_of_int (xmax - xmin) ;;
   abs_height <- Py.float_of_int (ymax - ymin) ;;
   half_width <- Py.div_float_int abs_width 2 ;;
   left <- Py.add_float_int half_width xmin ;;
   xcenter <- Py.div_float_int left img_width ;;
   half_height <- Py.div_float_int abs_height 2 ;;
   top <- Py.add_float_int half_height ymin ;;
   ycenter <- Py.div_float_int top img_height ;;
   rel_width <- Py.div_float_int abs_width img_width ;;
   rel_height <- Py.div_float_int abs_height img_height ;;
   Ok ((Py.str_of_int class_id +:+ " " +:+ Py.str_of_float xcenter +:+ " " +:+
        Py.str_of_float ycenter +:+ " " +:+ Py.str_of_float rel_width +:+ " " +:+
        Py.str_of_float rel_height) +:+ Py.newline))%result.

(** [obj.find('name').text] *)
Definition object_name (obj : Element) : result (option string) :=
  match find "name" obj with
  | None => Raise AttributeError
  | Some n => Ok (text n)
  end.

(** [self.classes[name]] when [name in self.classes] *)
Definition class_of (classes : gmap string Z) (name : option string) : option Z :=
  match name with
  | None => None
  | Some n => classes !! n
  end.

(** The message for a class name that is not in the class map: the name
    between one double quote and two, then the path. *)
Definition wrong_class_message (name : option string) (xml : string) : string :=
  "***** " +:+ Py.dquote +:+ Py.str_of_opt name +:+ Py.dquote +:+ Py.dquote +:+
  " is wrong class in " +:+ xml.

(** The body of [for obj in root.iter('object')]; the state is [obj_data]. *)
Definition convert_object (classes : gmap string Z) (xml : string)
    (img_width img_height : Z) (obj_data : string) (obj : Element) : M string :=
  (name <- lift (object_name obj) ;;
   match class_of classes name with
   | None =>
       print (wrong_class_message name xml) ;;;
       ret obj_data
   | Some class_id =>
       lift (for_each
               (fun obj_data bndbox =>
                  (line <- convert_bndbox class_id img_width img_height bndbox ;;
                   Ok (obj_data +:+ line))%result)
               obj_data (iter "bndbox" obj))
   end)%M.

(** The message for a file without a line *)
Definition empty_message (xml : string) : string :=
  "----- object is empty: " +:+ xml.

Definition convert (classes : gmap string Z) (xml : string) : M bool :=
  (let '(txt_path, ext) := Path.splitext xml in
   lift (assert (ext =? ".xml")%string) ;;;
   lift (assert (negb (txt_path =? "")%string)) ;;;
   let txt_path := txt_path +:+ ".txt" in
   root <- ET_parse xml ;;
   lift (assert (tag root =? "annotation")%string) ;;;
   size <- lift (for_each convert_size (None, None) (iter "size" root)) ;;
   img_width <- lift (assert_positive (fst size)) ;;
   img_height <- lift (assert_positive (snd size)) ;;
   obj_data <- for_each_M (convert_object classes xml img_width img_height)
                          "" (iter "object" root) ;;
   if (obj_data =? "")%string then
     print (empty_message xml) ;;;
     ret false
   else
     write_file txt_path obj_data ;;;
     ret true)%M.

(** ** The annotation schema and the conversion in the specification's words *)

(** One [size] block, of depth 3, gives the image dimensions. *)
Definition size_of (root : Element) (image_width image_height : Z) : Prop :=
  exists size,
    iter "size" root = [size] /\
    int_field size "depth" = Ok 3 /\
    int_field size "width" = Ok image_width /\
    int_field size "height" = Ok image_height.

(** The integers that a float holds exactly stay below this bound. *)
Definition exact_bound : Z := 2 ^ 53.

(** A bounding box with four integer fields, [0 < xmin < xmax] and
    [0 < ymin < ymax] *)
Definition valid_box (bndbox : Element) : Prop :=
  exists xmin xmax ymin ymax,
    int_field bndbox "xmin" = Ok xmin /\ int_field bndbox "xmax" = Ok xmax /\
    int_field bndbox "ymin" = Ok ymin /\ int_field bndbox "ymax" = Ok ymax /\
    0 < xmin /\ xmin < xmax /\ xmax < exact_bound /\
    0 < ymin /\ ymin < ymax /\ ymax < exact_bound.

(** An object has a name and, when the name is in the class map, one
    bounding box, which is valid. *)
Definition valid_object (classes : gmap string Z) (obj : Element) : Prop :=
  exists name,
    object_name obj = Ok name /\
    (is_Some (class_of classes name) ->
     exists bndbox, iter "bndbox" obj = [bndbox] /\ valid_box bndbox).

(** An annotation file that follows the schema *)
Definition valid_annotation (classes : gmap string Z) (root : Element)
    (image_width image_height : Z) : Prop :=
  tag root = "annotation" /\
  size_of root image_width image_height /\
  0 < image_width < exact_bound /\ 0 < image_height < exact_bound /\
  Forall (valid_object classes) (iter "object" root).

(** An object is recognized when its class name is in the class map. *)
Definition recognized (classes : gmap string Z) (obj : Element) : bool :=
  match object_name obj with
  | Ok name => bool_decide (is_Some (class_of classes name))
  | Raise _ => false
  end.

(** The objects of a file that are recognized, in document order *)
Definition recognized_objects (classes : gmap string Z) (root : Element)
  : list Element :=
  List.filter (recognized classes) (iter "object" root).

(** What is printed for the objects that are not recognized *)
Definition wrong_class_messages (classes : gmap string Z) (xml : string)
    (objs : list Element) : list string :=
  flat_map
    (fun obj =>
       match object_name obj with
       | Ok name =>
           match class_of classes name with
           | None => [wrong_class_message name xml]
           | Some _ => []
           end
       | Raise _ => []
       end) objs.

(** [line] is the line of the recognized object [obj], which has one
    bounding box. *)
Definition object_line (classes : gmap string Z) (image_width image_height : Z)
    (obj : Element) (line : string) : Prop :=
  exists name class_id bndbox,
    object_name obj = Ok name /\
    class_of classes name = Some class_id /\
    iter "bndbox" obj = [bndbox] /\
    convert_bndbox class_id image_width image_height bndbox = Ok line.

(** [n + x] for an int [n] and a float [x] *)
Definition add_int_float (n : Z) (x : spec_float) : result spec_float :=
  (y <- Py.float_of_int n ;; Ok (SFadd Py.prec Py.emax y x))%result.

(** The line of a box as the specification gives it: width and height as
    floats, then x-center = (xmin + width/2) / image_width, y-center =
    (ymin + height/2) / image_height, rel_width = width / image_width and
    rel_height = height / image_height, after the class id, separated by
    spaces. *)
Definition spec_line (class_id xmin xmax ymin ymax image_width image_height : Z)
  : result string :=
  (width <- Py.float_of_int (xmax - xmin) ;;
   height <- Py.float_of_int (ymax - ymin) ;;
   half_width <- Py.div_float_int width 2 ;;
   left <- add_int_float xmin half_width ;;
   x_center <- Py.div_float_int left image_width ;;
   half_height <- Py.div_float_int height 2 ;;
   top <- add_int_float ymin half_height ;;
   y_center <- Py.div_float_int top image_height ;;
   rel_width <- Py.div_float_int width image_width ;;
   rel_height <- Py.div_float_int height image_height ;;
   Ok (String.concat " "
         [Py.str_of_int class_id; Py.str_of_float x_center;
          Py.str_of_float y_center; Py.str_of_float rel_width;
          Py.str_of_float rel_height] +:+ Py.newline))%result.

(** The number of line ends in a text *)
Fixpoint count_newlines (s : string) : nat :=
  match s with
  | EmptyString => O
  | String c s' => (if Ascii.eqb c "010" then 1 else 0) + count_newlines s'
  end.

(** ** The Splitter: [TrainingData] *)

Record TrainingData : Type := mkTrainingData {
  td_input_dir : string;
  td_output_dir : string;
  td_file_header : string;
  td_classes : gmap string Z;
  td_percentage_test : spec_float;
}.

(** [TrainingData.__init__] *)
Definition TrainingData_init (input_dir output_dir file_header : string)
    (classes : gmap string Z) (percentage_test : spec_float)
  : result TrainingData :=
  (assert (Py.float_lt Py.float_0 percentage_test &&
           Py.float_lt percentage_test Py.float_1) ;;;
   Ok (mkTrainingData input_dir output_dir file_header classes
                      percentage_test))%result.

(** The state of the loop of [split]: what has been written to the two
    open manifest files, one entry for each [write], and the two counters. *)
Record SplitState : Type := mkSplitState {
  file_train : list string;
  file_test : list string;
  detected_pairs_count : Z;
  processed_count : Z;
}.

(** [xml.split('.xml')[0] + '.jpg'] *)
Definition jpg_path_of (xml : string) : string :=
  Str.split_0 ".xml" xml +:+ ".jpg".

(** The line for the manifest *)
Definition jpg_file_name_of (input_dir xml : string) : string :=
  Path.join input_dir (Str.split_0 ".xml" (Path.basename xml) +:+ ".jpg")
    +:+ Py.newline.

(** The paths of the two manifests *)
Definition train_path (self : TrainingData) : string :=
  Path.join (td_output_dir self) (td_file_header self +:+ "-train.txt").

Definition test_path (self : TrainingData) : string :=
  Path.join (td_output_dir self) (td_file_header self +:+ "-test.txt").

(** The world once both manifests are opened for writing, so truncated *)
Definition opened (self : TrainingData) (w : World) : World :=
  store (store w (train_path self) (DataFile "")) (test_path self) (DataFile "").

(** The body of [for xml in glob.iglob(...)] in [split] *)
Definition split_xml (self : TrainingData) (st : SplitState) (xml : string)
  : M SplitState :=
  (let jpg_path := jpg_path_of xml in
   let jpg_file_name := jpg_file_name_of (td_input_dir self) xml in
   jpg_exists <- path_exists jpg_path ;;
   if jpg_exists then
     let st := mkSplitState (file_train st) (file_test st)
                 (detected_pairs_count st + 1) (processed_count st) in
     processed <- convert (td_classes self) xml ;;
     if processed then
       r <- random ;;
       let st :=
         if Py.float_lt r (td_percentage_test self)
         then mkSplitState (file_train st) (file_test st ++ [jpg_file_name])
                (detected_pairs_count st) (processed_count st)
         else mkSplitState (file_train st ++ [jpg_file_name]) (file_test st)
                (detected_pairs_count st) (processed_count st) in
       ret (mkSplitState (file_train st) (file_test st)
              (detected_pairs_count st) (processed_count st + 1))
     else ret st
   else
     print ("***** JPG is missing: " +:+ jpg_path) ;;;
     ret st)%M.

(** The annotation files of a listing that have their image and that
    [convert] turns into a text file, in the world [w]. *)
Definition converts (classes : gmap string Z) (w : World) (xml : string) : bool :=
  match fst (convert classes xml w) with
  | Ok true => true
  | _ => false
  end.

Definition paired (w : World) (xml : string) : bool :=
  bool_decide (is_Some (files w !! jpg_path_of xml)).

Definition converted_pairs (classes : gmap string Z) (w : World)
    (xmls : list string) : list string :=
  List.filter (fun xml => paired w xml && converts classes w xml) xmls.

(** Two file systems that differ in text files only *)
Definition same_but_txt (fs1 fs2 : gmap string File) : Prop :=
  forall path, (forall stem, path <> stem +:+ ".txt") -> fs1 !! path = fs2 !! path.

(** *** The manifests in the specification's words *)




(** ** Command line *)

Record Range : Type := mkRange { range_start : spec_float; range_end : spec_float }.

(** [Range.__eq__]: [self.start <= other <= self.end] *)
Definition Range_eq (self : Range) (other : spec_float) : bool :=
  Py.float_le (range_start self) other && Py.float_le other (range_end self).

(** The arguments as [argparse] sees them: the positional class list and
    the options, [None] when not given; [-p] is given as the float its
    text converts to. *)
Record Argv : Type := mkArgv {
  arg_classes : option string;
  arg_src : option string;
  arg_dest : option string;
  arg_subdir : option string;
  arg_header : option string;
  arg_percent : option spec_float;
}.

(** The module-level configuration that [parse_args] sets *)
Record Config : Type := mkConfig {
  classes : gmap string Z;
  source_dir : string;
  destination_dir : string;
  dest_subdir : string;
  dest_file_name_header : string;
  percentage_test : spec_float;
}.

(** What [\s] matches below 256 *)
Definition re_space (c : ascii) : bool :=
  let n := N_of_ascii c in
  ((9 <=? n) && (n <=? 13) || (28 <=? n) && (n <=? 32) || (n =? 133) || (n =? 160))%N.

(** [re.sub('[\s+]', '', s)]: the class holds the white space and the plus
    sign. *)
Fixpoint remove_space_plus (s : string) : string :=
  match s with
  | EmptyString => EmptyString
  | String c s' =>
      if re_space c || Ascii.eqb c "+" then remove_space_plus s'
      else String c (remove_space_plus s')
  end.

(** [s.split(',')], the pieces after the one being read in [cur] *)
Fixpoint split_comma_from (cur : string) (s : string) : list string :=
  match s with
  | EmptyString => [String.rev cur]
  | String c s' =>
      if Ascii.eqb c "," then String.rev cur :: split_comma_from EmptyString s'
      else split_comma_from (String c cur) s'
  end.

Definition split_comma (s : string) : list string :=
  split_comma_from EmptyString s.

(** [for i, v in enumerate(l): classes[v] = i], from index [i] on *)
Fixpoint enumerate_into (classes : gmap string Z) (i : Z) (l : list string)
  : gmap string Z :=
  match l with
  | [] => classes
  | v :: l' => enumerate_into (<[v := i]> classes) (i + 1) l'
  end.

(** [parser.parse_args()] ends the process with [SystemExit] when the
    positional argument is missing or a value is none of the [choices]. *)
Definition parse_args (argv : Argv) : result Config :=
  match arg_classes argv with
  | None => Raise SystemExit
  | Some args_classes =>
      (percent <-
         match arg_percent argv with
         | None => Ok Py.float_0_1
         | Some v =>
             if existsb (fun choice => Range_eq choice v)
                        [mkRange Py.float_0 Py.float_1]
             then Ok v else Raise SystemExit
         end ;;
       let args_classes := remove_space_plus args_classes in
       Ok (mkConfig
             (enumerate_into ∅ 0 (split_comma args_classes))
             (default "source" (arg_src argv))
             (default "destination" (arg_dest argv))
             (default "data" (arg_subdir argv))
             (default "sample" (arg_header argv))
             percent))%result
  end.

(** ** The three stages, over a directory listing *)

Section Program.

(** [glob.iglob(pattern)]: the paths that match, in the order the system
    lists them, for the files as they are when the loop starts. *)
Variable iglob : gmap string File -> string -> list string.

(** [os.path.abspath('./')] *)
Variable current_dir : string.

(** [ImageData.sanitize]; returns [copied_pairs_count]. *)
Definition sanitize (self : ImageData) : M Z :=
  fun w =>
    for_each_M
      (fun copied_pairs_count movie_dir =>
         (let movie_dir_name := Path.basename movie_dir in
          movie_dir_id <- lift (Str.split_1 "movie" movie_dir_name) ;;
          let proper_file_name_head :=
            id_file_header self +:+ movie_dir_id +:+ "_" +:+ "frame" in
          fun w' =>
            for_each_M (sanitize_xml self proper_file_name_head)
              copied_pairs_count
              (iglob (files w') (Path.join movie_dir "*.xml")) w')%M)
      0 (iglob (files w) (Path.join (id_input_dir self) "movie*")) w.

(** The annotation files that the loop of [split] goes through *)
Definition annotation_files (self : TrainingData) (w : World) : list string :=
  iglob (files (opened self w)) (Path.join (td_input_dir self) "*.xml").

(** [TrainingData.split]; both manifests are opened, so truncated, before
    the loop and get their contents when closed after it. *)
Definition split (self : TrainingData) : M SplitState :=
  (write_file (train_path self) "" ;;;
   write_file (test_path self) "" ;;;
   fun w =>
     (st <- for_each_M (split_xml self) (mkSplitState [] [] 0 0)
              (iglob (files w) (Path.join (td_input_dir self) "*.xml")) ;;
      write_file (train_path self) (String.concat "" (file_train st)) ;;;
      write_file (test_path self) (String.concat "" (file_test st)) ;;;
      ret st) w)%M.

Definition main (cfg : Config) : M unit :=
  (let input_dir := Path.join current_dir (source_dir cfg) in
   let output_dir :=
     Path.join current_dir (Path.join (destination_dir cfg) (dest_subdir cfg)) in
   let imageData :=
     mkImageData input_dir output_dir (dest_file_name_header cfg) false in
   copied_pairs_count <- sanitize imageData ;;
   print ("_____ " +:+ Py.str_of_int copied_pairs_count +:+
          " xml/jpg pairs have been copied.") ;;;
   let input_dir := output_dir in
   let output_dir := Path.join current_dir (destination_dir cfg) in
   trainData <- lift (TrainingData_init input_dir output_dir (dest_subdir cfg)
                        (classes cfg) (percentage_test cfg)) ;;
   st <- split trainData ;;
   print ("_____ " +:+ Py.str_of_int (detected_pairs_count st) +:+
          " JPG/XML pairs were detected in " +:+ Py.dquote +:+
          source_dir cfg +:+ Py.dquote +:+ ".") ;;;
   (if copied_pairs_count =? detected_pairs_count st
    then print "_____ All the JPG/XML pairs were examined."
    else print "***** Some JPG/XML pairs were missing.") ;;;
   print ("_____ " +:+ Py.str_of_int (processed_count st) +:+
          " valid JPG/XML/TXT trios were generated in " +:+ Py.dquote +:+
          destination_dir cfg +:+ "/" +:+ dest_subdir cfg +:+ Py.dquote +:+ "."))%M.

(** [parse_args(); main()] *)
Definition program (argv : Argv) : M unit :=
  (cfg <- lift (parse_args argv) ;; main cfg)%M.

End Program.

(** ** Sample inputs *)

Module Sample.

Definition leaf (t s : string) : Element := Elem t (Some s) [].

Definition bndbox (xmin ymin xmax ymax : string) : Element :=
  Elem "bndbox" None
    [leaf "xmin" xmin; leaf "ymin" ymin; leaf "xmax" xmax; leaf "ymax" ymax].

Definition object (name : string) (box : Element) : Element :=
  Elem "object" None [leaf "name" name; leaf "pose" "Unspecified"; box].

Definition size (width height depth : string) : Element :=
  Elem "size" None
    [leaf "width" width; leaf "height" height; leaf "depth" depth].

Definition annotation (sz : Element) (objs : list Element) : Element :=
  Elem "annotation" None (leaf "folder" "movie1" :: sz :: objs).

(** The class map of [cat,dog] *)
Definition cat_dog : gmap string Z := {[ "cat" := 0; "dog" := 1 ]}.

Definition cat_box : Element := bndbox "10" "20" "50" "60".
Definition dog_box : Element := bndbox "1" "1" "100" "51".
Definition edge_box : Element := bndbox "0" "20" "50" "60".

(** A cat in a 100 by 100 image *)
Definition cat_doc : Element :=
  annotation (size "100" "100" "3") [object "cat" cat_box].

(** A bird, which is no class of the map, between a cat and a dog *)
Definition cat_bird_dog_doc : Element :=
  annotation (size "100" "100" "3")
    [object "cat" cat_box; object "bird" edge_box; object "dog" dog_box].

(** A bird alone, its box at the left edge, [xmin = 0] *)
Definition bird_doc : Element :=
  annotation (size "100" "100" "3") [object "bird" edge_box].

Definition jpg : File := DataFile "JFIF".

(** A world with the given files, nothing printed, and the given values
    for [random()] *)
Definition world (fs : list (string * File)) (values : nat -> spec_float)
  : World :=
  mkWorld (list_to_map fs) [] values 0.

Definition no_random (n : nat) : spec_float := Py.float_0.

(** The two lines of [cat_bird_dog_doc] *)
Definition cat_line : string := "0 0.3 0.4 0.4 0.4" +:+ Py.newline.
Definition dog_line : string := "1 0.505 0.26 0.99 0.5" +:+ Py.newline.

(** A flattened directory: a cat with its image, a cat without, and a
    bird with its image. *)
Definition flat_files : list (string * File) :=
  [("out/data/a.xml", XmlFile cat_doc); ("out/data/a.jpg", jpg);
   ("out/data/b.xml", XmlFile cat_doc);
   ("out/data/c.xml", XmlFile bird_doc); ("out/data/c.jpg", jpg)].

Definition flat_listing (fs : gmap string File) (pattern : string) : list string :=
  ["out/data/a.xml"; "out/data/b.xml"; "out/data/c.xml"].

Definition trainer : TrainingData :=
  mkTrainingData "out/data" "out" "data" cat_dog Py.float_0_1.

(** A source directory with one pair, and what [glob] lists in it *)
Definition source_files : list (string * File) :=
  [("/w/source/movie1/frame001.xml", XmlFile cat_doc);
   ("/w/source/movie1/frame001.jpg", jpg)].

Definition source_listing (fs : gmap string File) (pattern : string) : list string :=
  if (pattern =? "/w/source/movie*")%string then ["/w/source/movie1"]
  else if (pattern =? "/w/source/movie1/*.xml")%string
  then ["/w/source/movie1/frame001.xml"]
  else if (pattern =? "/w/destination/data/*.xml")%string
  then ["/w/destination/data/sample1_frame0001.xml"]
  else [].

End Sample.

(** ** Further notions *)

(** The paths that the Flattener writes: a canonical name in the output
    directory. *)
Definition proper_path (self : ImageData) (path : string) : Prop :=
  exists movie_dir_id xml_id ext,
    Str.isdigit xml_id = true /\ String.length xml_id = 4%nat /\
    (ext = ".xml" \/ ext = ".jpg") /\
    path = Path.join (id_output_dir self)
             ((id_file_header self +:+ movie_dir_id +:+ "_" +:+ "frame") +:+
              xml_id +:+ ext).

(** What a run of the Flattener may do to the file system: it writes
    files with a canonical name only, and it removes none. *)
Definition flattened_into (self : ImageData) (fs1 fs2 : gmap string File)
  : Prop :=
  (forall path, ~ proper_path self path -> fs2 !! path = fs1 !! path) /\
  (forall path, is_Some (fs1 !! path) -> is_Some (fs2 !! path)).

(** What the Flattener prints for an annotation file without its image *)
Definition jpg_missing_message (xml : string) : string :=
  "***** JPG is missing: " +:+ jpg_path_of xml.

(** [lines] are the lines of the recognized object [obj], one for each
    of its bounding boxes. *)
Definition object_lines (classes : gmap string Z) (image_width image_height : Z)
    (obj : Element) (lines : list string) : Prop :=
  exists name class_id,
    object_name obj = Ok name /\
    class_of classes name = Some class_id /\
    Forall2 (fun bndbox line =>
               convert_bndbox class_id image_width image_height bndbox = Ok line)
      (iter "bndbox" obj) lines.

(** [s.count(c)] for a character [c] *)
Fixpoint count_char (c : ascii) (s : string) : nat :=
  match s with
  | EmptyString => O
  | String a s' => (if Ascii.eqb a c then 1 else 0) + count_char c s'
  end.


(** The characters that [parse_args] takes out of the class list or
    cuts it at: white space, the plus sign and the comma *)
Definition class_list_char (c : ascii) : bool :=
  re_space c || Ascii.eqb c "+" || Ascii.eqb c ",".

(** ** More sample inputs *)

Module Corner.

(** A source directory with an annotation file that has no image *)
Definition lonely_files : list (string * File) :=
  [("/w/source/movie1/frame001.xml", XmlFile Sample.cat_doc)].

Definition flattener : ImageData :=
  mkImageData "/w/source" "/w/destination/data" "sample" true.

(** An annotation without a size block *)
Definition no_size_doc : Element :=
  Elem "annotation" None [Sample.object "cat" Sample.cat_box].

(** A cat in an image of height 0 *)
Definition flat_doc : Element :=
  Sample.annotation (Sample.size "100" "0" "3")
    [Sample.object "cat" Sample.cat_box].

(** A world with these two annotation files *)
Definition odd_world : World :=
  Sample.world [("data/n.xml", XmlFile no_size_doc);
                ("data/f.xml", XmlFile flat_doc)] Sample.no_random.

(** A cat with two boxes and a dog with none *)
Definition two_boxes : Element :=
  Elem "object" None [Sample.leaf "name" "cat"; Sample.cat_box; Sample.dog_box].

Definition no_box : Element := Elem "object" None [Sample.leaf "name" "dog"].

Definition boxes_doc : Element :=
  Sample.annotation (Sample.size "100" "100" "3") [two_boxes; no_box].

Definition cat_dog_box_line : string := "0 0.505 0.26 0.99 0.5" +:+ Py.newline.

(** A box with [xmax] below [xmin] *)
Definition reversed_box : Element := Sample.bndbox "50" "20" "10" "60".



(** The command line [cat, dog, c++, cat] *)
Definition four_names : Argv :=
  mkArgv (Some "cat, dog, c++, cat") None None None None None.

(** The command line [cat,dog -p 0.0] *)
Definition fraction_zero : Argv :=
  mkArgv (Some "cat,dog") None None None None (Some Py.float_0).

(** The configuration that [parse_args] makes of it *)
Definition fraction_zero_cfg : Config :=
  mkConfig (enumerate_into ∅ 0 ["cat"; "dog"]) "source" "destination" "data"
    "sample" Py.float_0.

(** The configuration of [cat,dog] and the defaults *)
Definition defaults_cfg : Config :=
  mkConfig (enumerate_into ∅ 0 ["cat"; "dog"]) "source" "destination" "data"
    "sample" Py.float_0_1.

(** The source directory of [Sample.source_files], before and after the
    Flattener has run *)
Definition source_world : World :=
  Sample.world Sample.source_files Sample.no_random.

Definition flattened_world : World :=
  snd (sanitize Sample.source_listing
         (mkImageData "/w/source" "/w/destination/data" "sample" false)
         source_world).

End Corner.

(** * Properties *)

(** ** Strings *)

Module StrFacts.
Import Str.

Lemma app_cons (c : ascii) (s t : string) :
  String c s +:+ t = String c (s +:+ t).
Proof. reflexivity. Qed.

Lemma app_nil_r (s : string) : s +:+ "" = s.
Proof. induction s as [|c s IH]; [reflexivity|]. by rewrite app_cons, IH. Qed.

Lemma app_assoc (s t u : string) : (s +:+ t) +:+ u = s +:+ t +:+ u.
Proof. induction s as [|c s IH]; [reflexivity|]. by rewrite !app_cons, IH. Qed.

Lemma length_app (s t : string) :
  String.length (s +:+ t) = (String.length s + String.length t)%nat.
Proof.
  induction s as [|c s IH]; [reflexivity|].
  rewrite app_cons. simpl. by rewrite IH.
Qed.

Lemma drop_length_app (a b : string) : drop (String.length a) (a +:+ b) = b.
Proof. induction a as [|c a IH]; [reflexivity|]. by rewrite app_cons. Qed.

Lemma last_chars_app (a b : string) :
  last_chars (String.length b) (a +:+ b) = b.
Proof.
  unfold last_chars. rewrite length_app.
  replace (String.length a + String.length b - String.length b)%nat
    with (String.length a) by lia.
  apply drop_length_app.
Qed.

Lemma all_app (p : ascii -> bool) (s t : string) :
  all p (s +:+ t) = all p s && all p t.
Proof.
  induction s as [|c s IH]; [reflexivity|].
  rewrite app_cons. simpl. by rewrite IH, andb_assoc.
Qed.

Lemma all_impl (p q : ascii -> bool) (s : string) :
  (forall c, p c = true -> q c = true) -> all p s = true -> all q s = true.
Proof.
  intros Hpq. induction s as [|c s IH]; [done|]. simpl.
  intros [Hc Hs]%andb_true_iff. by rewrite (Hpq c Hc), (IH Hs).
Qed.

Lemma all_drop (p : ascii -> bool) (n : nat) (s : string) :
  all p s = true -> all p (drop n s) = true.
Proof.
  revert s. induction n as [|n IH]; intros [|c s]; simpl; try done.
  intros [_ Hs]%andb_true_iff. by apply IH.
Qed.

Lemma all_split_0 (p : ascii -> bool) (sep s : string) :
  all p s = true -> all p (split_0 sep s) = true.
Proof.
  induction s as [|c s IH].
  - by destruct sep.
  - intros [Hc Hs]%andb_true_iff. unfold split_0; fold split_0.
    destruct (String.prefix sep (String c s)); [done|].
    simpl. by rewrite Hc, (IH Hs).
Qed.

Lemma isdigit_all (s : string) : isdigit s = true -> all isdigit_char s = true.
Proof. by destruct s. Qed.

Lemma isdigit_cons (c : ascii) (s : string) :
  isdigit (String c s) = isdigit_char c && all isdigit_char s.
Proof. reflexivity. Qed.

Lemma isdigit_ascii_decimal (c : ascii) :
  isdigit_char c = true -> is_ascii c = true -> is_decimal c = true.
Proof.
  unfold isdigit_char, is_ascii, is_decimal.
  rewrite !orb_true_iff, !andb_true_iff, !N.leb_le, !N.eqb_eq, N.ltb_lt. lia.
Qed.

Lemma isdigit_char_not_dot (c : ascii) : isdigit_char c = true -> c <> "."%char.
Proof. intros H ->. discriminate H. Qed.

(** A string without a dot is what comes before the first [.xml]. *)
Lemma split_0_app_xml (d : string) :
  all (fun c => negb (Ascii.eqb c ".")) d = true ->
  split_0 ".xml" (d +:+ ".xml") = d.
Proof.
  induction d as [|c d IH]; [reflexivity|].
  intros H. simpl in H. apply andb_true_iff in H as [Hc Hd].
  rewrite app_cons. unfold split_0; fold split_0.
  unfold String.prefix.
  destruct (ascii_dec "." c) as [<-|_]; [discriminate Hc|].
  by rewrite (IH Hd).
Qed.

Lemma split_0_digits_xml (d : string) :
  all isdigit_char d = true -> split_0 ".xml" (d +:+ ".xml") = d.
Proof.
  intros H. apply split_0_app_xml. revert H. apply all_impl.
  intros c Hc. apply negb_true_iff, Ascii.eqb_neq.
  by apply isdigit_char_not_dot.
Qed.

(** [s.split(sep)[0]] is a prefix of [s]. *)
Lemma split_0_prefix (sep s : string) : exists rest, s = split_0 sep s +:+ rest.
Proof.
  induction s as [|c s [rest IH]].
  - exists "". by destruct sep.
  - unfold split_0; fold split_0.
    destruct (String.prefix sep (String c s)).
    + by exists (String c s).
    + exists rest. by rewrite app_cons, <- IH.
Qed.

Lemma prefix_refl (s : string) : String.prefix s s = true.
Proof.
  induction s as [|c s IH]; [done|]. simpl.
  by destruct (ascii_dec c c).
Qed.

(** With [sep] at the end, the first piece is no longer than what
    precedes it. *)
Lemma split_0_app_sep_length (sep t : string) :
  (String.length (split_0 sep (t +:+ sep)) <= String.length t)%nat.
Proof.
  induction t as [|c t IH].
  - change ("" +:+ sep) with sep. destruct sep as [|a sep]; [done|].
    unfold split_0. rewrite prefix_refl. simpl. lia.
  - rewrite app_cons. unfold split_0; fold split_0.
    destruct (String.prefix sep (String c (t +:+ sep))); simpl; lia.
Qed.

Lemma app_inv_length (a b c d : string) :
  a +:+ b = c +:+ d -> String.length a = String.length c -> a = c.
Proof.
  revert c. induction a as [|x a IH]; intros [|y c]; try done.
  rewrite !app_cons. intros [= -> H] [= Hl]. f_equal. by apply IH.
Qed.

Lemma length_drop (n : nat) (s : string) :
  String.length (drop n s) = (String.length s - n)%nat.
Proof. revert s. induction n as [|n IH]; intros [|c s]; simpl; auto. Qed.

Lemma take_drop (n : nat) (s : string) : take n s +:+ drop n s = s.
Proof.
  revert s. induction n as [|n IH]; intros [|c s]; try done.
  simpl. by rewrite app_cons, IH.
Qed.

Lemma length_last_chars (n : nat) (s : string) :
  (n <= String.length s)%nat -> String.length (last_chars n s) = n.
Proof. intros H. unfold last_chars. rewrite length_drop. lia. Qed.

Lemma isdigit_pad (t : string) :
  isdigit t = true -> isdigit ("0" +:+ drop 1 t) = true.
Proof.
  destruct t as [|c t]; [done|].
  rewrite isdigit_cons. intros [_ Ht]%andb_true_iff. exact Ht.
Qed.

End StrFacts.

(** ** Frame-id canonicalization *)

Example sanitize_id_frame1425 : sanitize_id "frame1425.xml" = Ok "1425".
Proof. reflexivity. Qed.

Example sanitize_id_frame023 : sanitize_id "frame023.xml" = Ok "0023".
Proof. reflexivity. Qed.

Example sanitize_id_frame23 : sanitize_id "frame23.xml" = Raise AssertionError.
Proof. reflexivity. Qed.

Example sanitize_id_frame12345 : sanitize_id "frame12345.xml" = Ok "2345".
Proof. reflexivity. Qed.

Section SanitizeId.
Import Str StrFacts.

(** The two assertions as one test on the padded window. *)
Lemma sanitize_id_eq (xml : string) :
  sanitize_id xml =
  let x0 := split_0 ".xml" (last_chars 8 xml) in
  let x := if isdigit x0 then x0 else "0" +:+ drop 1 x0 in
  if isdigit x && (String.length x =? 4)%nat then Ok x else Raise AssertionError.
Proof.
  unfold sanitize_id, assert, rbind. cbv zeta.
  destruct (isdigit (split_0 ".xml" (last_chars 8 xml))) eqn:H0; cbv [negb].
  - rewrite H0. cbv [andb].
    by destruct (String.length _ =? 4)%nat.
  - destruct (isdigit ("0" +:+ _)); cbv [andb]; [|done].
    by destruct (String.length _ =? 4)%nat.
Qed.

Lemma last_chars_8 (pre w : string) :
  String.length w = 8%nat -> last_chars 8 (pre +:+ w) = w.
Proof. intros Hw. rewrite <- Hw. apply last_chars_app. Qed.

(** Four digits before [.xml] are returned as they are. *)
Lemma sanitize_id_digits4 (pre d : string) :
  String.length d = 4%nat -> isdigit d = true ->
  sanitize_id (pre +:+ d +:+ ".xml") = Ok d.
Proof.
  intros Hl Hd. rewrite sanitize_id_eq, last_chars_8.
  2:{ rewrite length_app, Hl. reflexivity. }
  rewrite split_0_digits_xml by by apply isdigit_all.
  cbv zeta. by rewrite !Hd, Hl.
Qed.

(** Three digits after a character that is no digit get one [0] in front. *)
Lemma sanitize_id_digits3 (pre : string) (c : ascii) (d : string) :
  isdigit_char c = false -> c <> "."%char ->
  String.length d = 3%nat -> isdigit d = true ->
  sanitize_id (pre +:+ String c d +:+ ".xml") = Ok ("0" +:+ d).
Proof.
  intros Hc Hdot Hl Hd. rewrite sanitize_id_eq, last_chars_8.
  2:{ rewrite length_app. cbn [String.length]. by rewrite Hl. }
  rewrite split_0_app_xml.
  2:{ cbn [all]. apply andb_true_iff. split.
      - by apply negb_true_iff, Ascii.eqb_neq.
      - eapply all_impl; [|by apply isdigit_all].
        intros a Ha. apply negb_true_iff, Ascii.eqb_neq.
        by apply isdigit_char_not_dot. }
  cbv zeta. rewrite isdigit_cons, Hc. cbn [andb drop].
  change ("0" +:+ d) with (String "0" d).
  rewrite isdigit_cons, (isdigit_all _ Hd). cbn [String.length].
  by rewrite Hl.
Qed.

(** Whatever is returned has passed both assertions. *)
Lemma sanitize_id_ok (xml r : string) :
  sanitize_id xml = Ok r -> isdigit r = true /\ String.length r = 4%nat.
Proof.
  rewrite sanitize_id_eq. cbv zeta.
  set (x := if isdigit _ then _ else _).
  destruct (isdigit x) eqn:Hx; [|done].
  destruct (String.length x =? 4)%nat eqn:Hl; [|done].
  intros [= <-]. split; [done|]. by apply Nat.eqb_eq.
Qed.

Lemma sanitize_id_ascii (xml r : string) :
  sanitize_id xml = Ok r -> all is_ascii xml = true -> all is_ascii r = true.
Proof.
  rewrite sanitize_id_eq. cbv zeta.
  set (x0 := split_0 ".xml" (last_chars 8 xml)).
  intros H Hxml.
  assert (all is_ascii x0 = true) as Hx0.
  { apply all_split_0. unfold last_chars. by apply all_drop. }
  destruct (isdigit x0).
  - destruct (_ && _); [|done]. by injection H as <-.
  - destruct (_ && _); [|done]. injection H as <-.
    change ("0" +:+ drop 1 x0) with (String "0" (drop 1 x0)).
    exact (all_drop is_ascii 1 x0 Hx0).
Qed.

(** Padding a window that is still no digit string ends in an assertion
    failure, whatever the window. *)
Lemma sanitize_id_padded_not_digits (pre t : string) :
  String.length t = 4%nat ->
  isdigit ("0" +:+ drop 1 t) = false ->
  sanitize_id (pre +:+ t +:+ ".xml") = Raise AssertionError.
Proof.
  intros Hl Hpad. rewrite sanitize_id_eq, last_chars_8.
  2:{ rewrite length_app, Hl. reflexivity. }
  pose proof (split_0_app_sep_length ".xml" t) as Hle.
  destruct (split_0_prefix ".xml" (t +:+ ".xml")) as [rest Hrest].
  cbv zeta. set (u := split_0 ".xml" (t +:+ ".xml")) in *.
  destruct (decide (String.length u = 4%nat)) as [Hu|Hu].
  - assert (u = t) as ->.
    { symmetry. eapply app_inv_length; [exact Hrest|congruence]. }
    destruct (isdigit t) eqn:Ht.
    + by rewrite (isdigit_pad _ Ht) in Hpad.
    + by rewrite Hpad.
  - assert (String.length u < 4)%nat as Hlt by lia.
    destruct (isdigit u) eqn:Hd.
    + rewrite Hd.
      by replace (String.length u =? 4)%nat with false
        by (symmetry; apply Nat.eqb_neq; lia).
    + replace (String.length ("0" +:+ drop 1 u) =? 4)%nat with false.
      { by rewrite andb_false_r. }
      symmetry. apply Nat.eqb_neq.
      change ("0" +:+ drop 1 u) with (String "0" (drop 1 u)).
      cbn [String.length]. rewrite length_drop. lia.
Qed.

End SanitizeId.

(** ** The monads *)

Section Monads.

Lemma rbind_ok {A B : Type} (r : result A) (k : A -> result B) (b : B) :
  rbind r k = Ok b -> exists a, r = Ok a /\ k a = Ok b.
Proof. destruct r as [a|e]; [|done]. intros H. by exists a. Qed.

Lemma raises_rbind_l {A B : Type} (r : result A) (k : A -> result B) :
  raises r -> raises (rbind r k).
Proof. by destruct r. Qed.

Lemma raises_rbind_r {A B : Type} (r : result A) (k : A -> result B) :
  (forall a, raises (k a)) -> raises (rbind r k).
Proof. intros H. destruct r as [a|e]; [apply H|done]. Qed.

Lemma bind_eq {A B : Type} (m : M A) (k : A -> M B) (w : World) :
  bind m k w =
  match m w with
  | (Ok a, w') => k a w'
  | (Raise e, w') => (Raise e, w')
  end.
Proof. reflexivity. Qed.

Lemma bind_lift_ok {A B : Type} (a : A) (k : A -> M B) (w : World) :
  bind (lift (Ok a)) k w = k a w.
Proof. reflexivity. Qed.

Lemma bind_lift_raise {A B : Type} (e : exn) (k : A -> M B) (w : World) :
  bind (lift (Raise e)) k w = (Raise e, w).
Proof. reflexivity. Qed.

Lemma raises_bind_l {A B : Type} (m : M A) (k : A -> M B) (w : World) :
  raises (fst (m w)) -> raises (fst (bind m k w)).
Proof. unfold bind. by destruct (m w) as [[a|e] w']. Qed.

Lemma raises_bind_r {A B : Type} (m : M A) (k : A -> M B) (w : World) :
  (forall a w', raises (fst (k a w'))) -> raises (fst (bind m k w)).
Proof. intros H. unfold bind. destruct (m w) as [[a|e] w']; [apply H|done]. Qed.


(** An exception in the body ends the loop. *)
Lemma for_each_raises {S A : Type} (body : S -> A -> result S) (s : S)
    (l : list A) (x : A) :
  In x l -> (forall s', raises (body s' x)) -> raises (for_each body s l).
Proof.
  revert s. induction l as [|y l IH]; intros s; [done|].
  intros [->|Hin] Hx; simpl.
  - by apply raises_rbind_l.
  - apply raises_rbind_r. intros s'. by apply IH.
Qed.

Lemma log_log (w : World) (l1 l2 : list string) :
  log (log w l1) l2 = log w (l1 ++ l2).
Proof. unfold log. simpl. by rewrite <- app_assoc. Qed.

Lemma log_nil (w : World) : log w [] = w.
Proof. destruct w. unfold log. simpl. by rewrite app_nil_r. Qed.

End Monads.

(** ** The Annotation Converter *)

Section Converter.
Import Str StrFacts.

Variable classes : gmap string Z.
Variable xml : string.

Lemma concat_cons (x : string) (xs : list string) :
  String.concat "" (x :: xs) = x +:+ String.concat "" xs.
Proof. destruct xs as [|y xs]; [|done]. simpl. by rewrite app_nil_r. Qed.

(** An object whose class is not in the map adds a line to the log only. *)
Lemma convert_object_skip (W H : Z) (d : string) (o : Element)
    (name : option string) (w : World) :
  object_name o = Ok name -> class_of classes name = None ->
  convert_object classes xml W H d o w =
  (Ok d, log w [wrong_class_message name xml]).
Proof.
  intros Hn Hc. unfold convert_object. rewrite Hn, bind_lift_ok, Hc.
  reflexivity.
Qed.

(** A recognized object with one box adds the line of the box. *)
Lemma convert_object_line (W H : Z) (d : string) (o : Element)
    (line : string) (w : World) :
  object_line classes W H o line ->
  convert_object classes xml W H d o w = (Ok (d +:+ line), w).
Proof.
  intros (name & c & b & Hn & Hc & Hb & Hl). unfold convert_object.
  rewrite Hn, bind_lift_ok, Hc, Hb. cbn [for_each]. by rewrite Hl.
Qed.

Lemma recognized_false (o : Element) (name : option string) :
  object_name o = Ok name -> recognized classes o = false ->
  class_of classes name = None.
Proof.
  unfold recognized. intros -> H%bool_decide_eq_false.
  destruct (class_of classes name) as [c|]; [|done].
  destruct H. by exists c.
Qed.

(** The loop over the objects: the lines of the recognized ones, in
    order, and a message for each of the others. *)
Lemma convert_objects (W H : Z) (objs : list Element) (lines : list string)
    (d : string) (w : World) :
  Forall (fun o => exists name, object_name o = Ok name) objs ->
  Forall2 (object_line classes W H) (List.filter (recognized classes) objs) lines ->
  for_each_M (convert_object classes xml W H) d objs w =
  (Ok (d +:+ String.concat "" lines),
   log w (wrong_class_messages classes xml objs)).
Proof.
  revert lines d w. induction objs as [|o objs IH]; intros lines d w Hnamed Hlines.
  - apply Forall2_nil_inv_l in Hlines as ->.
    cbn. by rewrite app_nil_r, log_nil.
  - apply Forall_cons in Hnamed as [[name Hname] Hnamed].
    cbn [for_each_M List.filter wrong_class_messages flat_map] in *.
    rewrite bind_eq, Hname.
    destruct (recognized classes o) eqn:Hrec.
    + apply Forall2_cons_inv_l in Hlines as (line & lines' & Hline & Hlines & ->).
      rewrite (convert_object_line _ _ _ _ _ _ Hline).
      rewrite (IH _ _ _ Hnamed Hlines).
      destruct Hline as (name' & c & b & Hn & Hc & _).
      assert (name' = name) as -> by congruence. rewrite Hc.
      by rewrite concat_cons, app_assoc.
    + pose proof (recognized_false _ _ Hname Hrec) as Hc.
      rewrite (convert_object_skip _ _ _ _ _ _ Hname Hc), Hc.
      rewrite (IH _ _ _ Hnamed Hlines). by rewrite log_log.
Qed.

Lemma convert_size_of (root : Element) (W H : Z) :
  size_of root W H ->
  for_each convert_size (None, None) (iter "size" root) = Ok (Some W, Some H).
Proof.
  intros (sz & -> & Hd & Hw & Hh). cbn [for_each].
  unfold convert_size. by rewrite Hd, Hw, Hh.
Qed.

(** A line ends with a line end. *)
Lemma convert_bndbox_newline (c W H : Z) (b : Element) (line : string) :
  convert_bndbox c W H b = Ok line -> exists body, line = body +:+ Py.newline.
Proof.
  unfold convert_bndbox. intros E.
  repeat (apply rbind_ok in E as (? & _ & E)).
  injection E as <-. eauto.
Qed.

Lemma object_line_not_empty (W H : Z) (o : Element) (line rest : string) :
  object_line classes W H o line -> ((line +:+ rest) =? "")%string = false.
Proof.
  intros (_ & c & b & _ & _ & _ & [body ->]%convert_bndbox_newline).
  apply String.eqb_neq. intros E%(f_equal String.length).
  rewrite !length_app in E. cbn in E. lia.
Qed.

(** What [splitext] splits, it splits in two; a suffix leaves a stem. *)
Lemma splitext_app (p stem ext : string) :
  Path.splitext p = (stem, ext) -> p = stem +:+ ext.
Proof.
  unfold Path.splitext.
  destruct (_ <? _); [destruct (all _ _)|]; intros [= <- <-];
    by rewrite ?app_nil_r, ?take_drop.
Qed.

Lemma rfind_from_ge (c : ascii) (s : string) (i found : Z) :
  0 <= i -> -1 <= found -> -1 <= Path.rfind_from c s i found.
Proof.
  revert i found. induction s as [|a s IH]; intros i found Hi Hf; [done|].
  cbn [Path.rfind_from]. apply IH; [lia|]. destruct (Ascii.eqb a c); lia.
Qed.

Lemma rfind_ge (c : ascii) (s : string) : -1 <= Path.rfind c s.
Proof. by apply rfind_from_ge. Qed.

Lemma splitext_stem (p stem ext : string) :
  Path.splitext p = (stem, ext) -> ext <> "" -> stem <> "".
Proof.
  unfold Path.splitext.
  destruct (_ <? _); [|by intros [= <- <-]].
  destruct (all _ _) eqn:Hall; [by intros [= <- <-]|].
  intros [= <- <-] _ Hstem.
  assert (Z.to_nat (Path.rfind "." p) = O \/ p = "") as [H0 | ->].
  { destruct (Z.to_nat (Path.rfind "." p)); [by left|].
    destruct p; [by right|done]. }
  - revert Hall. pose proof (rfind_ge "/" p).
    replace (Z.to_nat (Path.rfind "." p - (Path.rfind "/" p + 1)))
      with O by lia. done.
  - revert Hall.
    by destruct (Z.to_nat (Path.rfind "." "" - (Path.rfind "/" "" + 1))).
Qed.

(** A run of [convert] on a file that follows the schema. *)
Lemma convert_valid (w : World) (stem : string) (root : Element) (W H : Z)
    (lines : list string) :
  Path.splitext xml = (stem, ".xml") ->
  files w !! xml = Some (XmlFile root) ->
  tag root = "annotation" ->
  size_of root W H -> 0 < W -> 0 < H ->
  Forall (fun o => exists name, object_name o = Ok name) (iter "object" root) ->
  Forall2 (object_line classes W H) (recognized_objects classes root) lines ->
  convert classes xml w =
  let w' := log w (wrong_class_messages classes xml (iter "object" root)) in
  match lines with
  | [] => (Ok false, log w' [empty_message xml])
  | _ => (Ok true, store w' (stem +:+ ".txt") (DataFile (String.concat "" lines)))
  end.
Proof.
  intros Hext Hfile Htag Hsize HW HH Hnamed Hlines.
  unfold convert. rewrite Hext. cbn [String.eqb Ascii.eqb Bool.eqb assert].
  rewrite bind_lift_ok.
  replace (stem =? "")%string with false.
  2:{ symmetry. apply String.eqb_neq. by eapply splitext_stem. }
  cbn [negb assert]. rewrite bind_lift_ok.
  rewrite bind_eq. unfold ET_parse at 1. rewrite Hfile, Htag.
  cbn [String.eqb Ascii.eqb Bool.eqb assert]. rewrite bind_lift_ok.
  rewrite (convert_size_of _ _ _ Hsize), bind_lift_ok.
  cbn [fst snd assert_positive].
  apply Z.ltb_lt in HW as ->. apply Z.ltb_lt in HH as ->.
  cbn [assert rbind]. rewrite !bind_lift_ok.
  rewrite bind_eq, (convert_objects _ _ _ _ _ _ Hnamed Hlines).
  destruct lines as [|line lines]; [done|].
  apply Forall2_cons_inv_r in Hlines as (o & os & Hline & _ & _).
  rewrite concat_cons. change ("" +:+ (line +:+ ?x)) with (line +:+ x).
  by rewrite (object_line_not_empty _ _ _ _ _ Hline).
Qed.

End Converter.

(** The bird between the cat and the dog is skipped; the two lines keep
    their order. *)
Example convert_cat_bird_dog :
  let w := Sample.world [("data/f.xml", XmlFile Sample.cat_bird_dog_doc)]
             Sample.no_random in
  convert Sample.cat_dog "data/f.xml" w =
  (Ok true,
   store (log w [wrong_class_message (Some "bird") "data/f.xml"])
     "data/f.txt" (DataFile (Sample.cat_line +:+ Sample.dog_line))).
Proof. by vm_compute. Qed.

(** ** The texts of numbers hold no line end *)

Section Texts.
Import Str StrFacts.

Let plain (c : ascii) : bool := negb (Ascii.eqb c "010").

Lemma count_newlines_app (s t : string) :
  count_newlines (s +:+ t) = (count_newlines s + count_newlines t)%nat.
Proof.
  induction s as [|c s IH]; [done|].
  rewrite app_cons. cbn [count_newlines]. rewrite IH. lia.
Qed.

Lemma count_newlines_plain (s : string) :
  all plain s = true -> count_newlines s = O.
Proof.
  induction s as [|c s IH]; [done|]. cbn [all count_newlines].
  intros [Hc Hs]%andb_true_iff. rewrite (IH Hs).
  unfold plain in Hc. by destruct (Ascii.eqb c "010").
Qed.

Lemma all_take (p : ascii -> bool) (n : nat) (s : string) :
  all p s = true -> all p (take n s) = true.
Proof.
  revert s. induction n as [|n IH]; intros [|c s]; try done.
  cbn [all take]. intros [Hc Hs]%andb_true_iff. by rewrite Hc, (IH _ Hs).
Qed.

Lemma plain_uint (d : Decimal.uint) :
  all plain (NilEmpty.string_of_uint d) = true.
Proof. induction d; cbn; auto. Qed.

Lemma plain_uint0 (d : Decimal.uint) :
  all plain (NilZero.string_of_uint d) = true.
Proof. destruct d; try done; apply (plain_uint (_ d)). Qed.

Lemma plain_str_of_int (z : Z) : all plain (Py.str_of_int z) = true.
Proof.
  unfold Py.str_of_int, NilZero.string_of_int.
  destruct (Z.to_int z) as [d|d]; [apply plain_uint0|].
  cbn [all]. by rewrite plain_uint0.
Qed.

Lemma plain_zeros (n : nat) : all plain (Py.zeros n) = true.
Proof. induction n as [|n IH]; [done|]. cbn [Py.zeros all]. by rewrite IH. Qed.

Lemma plain_digits_of (d : Z) : all plain (Py.digits_of d) = true.
Proof. apply plain_uint0. Qed.

Lemma plain_format_short (digits : string) (decpt : Z) :
  all plain digits = true -> all plain (Py.format_short digits decpt) = true.
Proof.
  intros Hd. unfold Py.format_short.
  assert (all plain
            match digits with
            | String c "" => String c ""
            | String c rest => String c ("." +:+ rest)
            | "" => ""
            end = true) as Hmant.
  { destruct digits as [|c [|c' rest]]; [done|done|].
    change ("." +:+ String c' rest) with (String "." (String c' rest)).
    revert Hd. cbn [all]. rewrite !andb_true_iff. tauto. }
  repeat match goal with
         | |- context [if ?b then _ else _] => destruct b
         end;
    rewrite ?all_app, ?Hmant, ?plain_zeros, ?plain_digits_of, ?Hd,
      ?(all_take _ _ _ Hd), ?(all_drop _ _ _ Hd); done.
Qed.

Lemma plain_str_of_float (f : spec_float) : all plain (Py.str_of_float f) = true.
Proof.
  destruct f as [[]|[]| |s m e]; try done.
  unfold Py.str_of_float.
  destruct (Py.shortest _ _ _ _ _ _ _ _) as [d k].
  destruct (Py.strip_zeros _ _ _) as [d' k'].
  rewrite all_app, plain_format_short by apply plain_digits_of.
  by destruct s.
Qed.

(** A line of a box holds one line end, its last character. *)
Lemma convert_bndbox_one_line (c W H : Z) (b : Element) (line : string) :
  convert_bndbox c W H b = Ok line -> count_newlines line = 1%nat.
Proof.
  unfold convert_bndbox. intros E.
  repeat (apply rbind_ok in E as (? & _ & E)).
  injection E as <-.
  rewrite !count_newlines_app.
  rewrite (count_newlines_plain (Py.str_of_int _)) by apply plain_str_of_int.
  by rewrite !(count_newlines_plain (Py.str_of_float _))
    by apply plain_str_of_float.
Qed.

Lemma count_newlines_concat (lines : list string) :
  Forall (fun l => count_newlines l = 1%nat) lines ->
  count_newlines (String.concat "" lines) = List.length lines.
Proof.
  induction 1 as [|l lines Hl _ IH]; [done|].
  rewrite concat_cons, count_newlines_app, Hl, IH. done.
Qed.

End Texts.

(** ** Floats *)

Section Floats.

Lemma SFadd_comm (x y : spec_float) :
  SFadd Py.prec Py.emax x y = SFadd Py.prec Py.emax y x.
Proof.
  destruct x as [[]|[]| |sx mx ex], y as [[]|[]| |sy my ey]; try reflexivity.
  unfold SFadd. rewrite (Z.min_comm ey ex). f_equal. apply Z.add_comm.
Qed.

Lemma digits2_pos_lower (p : positive) :
  2 ^ (Z.pos (digits2_pos p) - 1) <= Z.pos p.
Proof.
  induction p as [p IH|p IH|]; cbn [digits2_pos]; [| |done].
  - rewrite Pos2Z.inj_succ.
    replace (Z.succ (Z.pos (digits2_pos p)) - 1)
      with (Z.succ (Z.pos (digits2_pos p) - 1)) by lia.
    rewrite Z.pow_succ_r by lia. lia.
  - rewrite Pos2Z.inj_succ.
    replace (Z.succ (Z.pos (digits2_pos p)) - 1)
      with (Z.succ (Z.pos (digits2_pos p) - 1)) by lia.
    rewrite Z.pow_succ_r by lia. lia.
Qed.

Lemma digits2_pos_small (p : positive) :
  Z.pos p < 2 ^ 53 -> Z.pos (digits2_pos p) <= 53.
Proof.
  intros Hp. pose proof (digits2_pos_lower p) as Hl.
  destruct (Z_le_gt_dec (Z.pos (digits2_pos p)) 53) as [|Hgt]; [done|].
  assert (2 ^ 53 <= 2 ^ (Z.pos (digits2_pos p) - 1)).
  { apply Z.pow_le_mono_r; lia. }
  lia.
Qed.

Lemma digits2_pos_iter (p k : positive) :
  digits2_pos (Pos.iter xO p k) = (digits2_pos p + k)%positive.
Proof.
  induction k as [|k IH] using Pos.peano_ind.
  - cbn. lia.
  - rewrite Pos.iter_succ. cbn [digits2_pos]. rewrite IH. lia.
Qed.

(** A mantissa of 53 bits with an exponent in range needs no rounding. *)
Lemma binary_round_aux_canonical (m : positive) (e : Z) :
  Z.pos (digits2_pos m) = 53 -> -1074 <= e <= 971 ->
  binary_round_aux Py.prec Py.emax false (Z.pos m) e loc_Exact =
  S754_finite false m e.
Proof.
  intros Hd He.
  assert (forall x, Zdigits2 x = 53 ->
            shr_fexp Py.prec Py.emax x e loc_Exact =
            (Build_shr_record x false false, e)) as Hshr.
  { intros x Hx. unfold shr_fexp, fexp, emin, Py.prec, Py.emax.
    rewrite Hx.
    replace (Z.max (53 + e - 53) (3 - 1024 - 53) - e) with 0 by lia.
    reflexivity. }
  unfold binary_round_aux.
  rewrite (Hshr (Z.pos m) Hd). cbn [shr_m loc_of_shr_record round_nearest_even].
  rewrite (Hshr (Z.pos m) Hd). cbn [shr_m].
  unfold Py.prec, Py.emax.
  by replace (e <=? 1024 - 53) with true by (symmetry; apply Z.leb_le; lia).
Qed.

(** A positive integer below [2^53] converts to a positive finite float. *)
Lemma float_of_int_small (z : Z) :
  0 < z < exact_bound ->
  exists m e, Py.float_of_int z = Ok (S754_finite false m e).
Proof.
  unfold exact_bound. intros [Hpos Hlt]. destruct z as [|p|p]; try lia.
  pose proof (digits2_pos_small p Hlt) as Hd.
  unfold Py.float_of_int, binary_normalize, binary_round.
  unfold fexp at 1. unfold emin, Py.prec at 1 2, Py.emax at 1.
  rewrite Z.add_0_r.
  replace (Z.max (Z.pos (digits2_pos p) - 53) (3 - 1024 - 53))
    with (Z.pos (digits2_pos p) - 53) by lia.
  unfold shl_align.
  destruct (Z.pos (digits2_pos p) - 53 - 0) as [|k|k] eqn:Ek; try lia.
  - rewrite binary_round_aux_canonical by lia. eauto.
  - rewrite binary_round_aux_canonical; [eauto| |lia].
    rewrite digits2_pos_iter. lia.
Qed.

Lemma div_float_int_small (x : spec_float) (n : Z) :
  0 < n < exact_bound -> exists y, Py.div_float_int x n = Ok y.
Proof.
  intros Hn. unfold Py.div_float_int.
  destruct (float_of_int_small n Hn) as (m & e & ->). cbn [rbind]. eauto.
Qed.

Lemma add_float_int_small (x : spec_float) (n : Z) :
  0 < n < exact_bound -> exists y, Py.add_float_int x n = Ok y.
Proof.
  intros Hn. unfold Py.add_float_int.
  destruct (float_of_int_small n Hn) as (m & e & ->). cbn [rbind]. eauto.
Qed.

Lemma add_float_int_comm (x : spec_float) (n : Z) :
  Py.add_float_int x n = add_int_float n x.
Proof.
  unfold Py.add_float_int, add_int_float.
  destruct (Py.float_of_int n) as [y|e]; [|done].
  cbn [rbind]. by rewrite SFadd_comm.
Qed.

End Floats.

(** ** The line of a box *)

Section Lines.

(** The loop body computes what the specification words. *)
Lemma convert_bndbox_spec (class_id W H : Z) (b : Element)
    (xmin xmax ymin ymax : Z) :
  int_field b "xmin" = Ok xmin -> int_field b "xmax" = Ok xmax ->
  int_field b "ymin" = Ok ymin -> int_field b "ymax" = Ok ymax ->
  0 < xmin -> xmin < xmax -> 0 < ymin -> ymin < ymax ->
  convert_bndbox class_id W H b = spec_line class_id xmin xmax ymin ymax W H.
Proof.
  intros Hx0 Hx1 Hy0 Hy1 ? ? ? ?. unfold convert_bndbox, spec_line.
  rewrite Hx0, Hx1, Hy0, Hy1. cbn [rbind].
  rewrite !(proj2 (Z.ltb_lt 0 _)) by lia. cbn [assert rbind].
  destruct (Py.float_of_int (xmax - xmin)) as [width|]; [|done].
  destruct (Py.float_of_int (ymax - ymin)) as [height|]; [|done].
  cbn [rbind].
  destruct (Py.div_float_int width 2) as [half_width|]; [|done].
  cbn [rbind]. rewrite add_float_int_comm.
  destruct (add_int_float xmin half_width) as [left|]; [|done].
  cbn [rbind].
  destruct (Py.div_float_int left W) as [x_center|]; [|done].
  destruct (Py.div_float_int height 2) as [half_height|]; [|done].
  cbn [rbind]. rewrite add_float_int_comm.
  destruct (add_int_float ymin half_height) as [top|]; [|done].
  cbn [rbind].
  destruct (Py.div_float_int top H) as [y_center|]; [|done].
  destruct (Py.div_float_int width W) as [rel_width|]; [|done].
  destruct (Py.div_float_int height H) as [rel_height|]; [|done].
  reflexivity.
Qed.

(** A valid box in an image of positive dimensions gives a line. *)
Lemma convert_bndbox_total (class_id W H : Z) (b : Element) :
  valid_box b -> 0 < W < exact_bound -> 0 < H < exact_bound ->
  exists line, convert_bndbox class_id W H b = Ok line.
Proof.
  intros (xmin & xmax & ymin & ymax & Hx0 & Hx1 & Hy0 & Hy1 & ?) HW HH.
  unfold convert_bndbox. rewrite Hx0, Hx1, Hy0, Hy1. cbn [rbind].
  rewrite !(proj2 (Z.ltb_lt 0 _)) by lia. cbn [assert rbind].
  assert (0 < 2 < exact_bound) as H2 by done.
  destruct (float_of_int_small (xmax - xmin)) as (mw & ew & ->); [lia|].
  destruct (float_of_int_small (ymax - ymin)) as (mh & eh & ->); [lia|].
  cbn [rbind].
  destruct (div_float_int_small (S754_finite false mw ew) 2 H2) as [hw ->].
  cbn [rbind].
  destruct (add_float_int_small hw xmin) as [lf ->]; [lia|]. cbn [rbind].
  destruct (div_float_int_small lf W HW) as [xc ->]. cbn [rbind].
  destruct (div_float_int_small (S754_finite false mh eh) 2 H2) as [hh ->].
  cbn [rbind].
  destruct (add_float_int_small hh ymin) as [tp ->]; [lia|]. cbn [rbind].
  destruct (div_float_int_small tp H HH) as [yc ->]. cbn [rbind].
  destruct (div_float_int_small (S754_finite false mw ew) W HW) as [rw ->].
  cbn [rbind].
  destruct (div_float_int_small (S754_finite false mh eh) H HH) as [rh ->].
  cbn [rbind]. eauto.
Qed.

(** Within the exact range the formula of the specification has a value. *)
Lemma spec_line_total (class_id xmin xmax ymin ymax W H : Z) :
  0 < xmin -> xmin < xmax -> xmax < exact_bound ->
  0 < ymin -> ymin < ymax -> ymax < exact_bound ->
  0 < W < exact_bound -> 0 < H < exact_bound ->
  exists line, spec_line class_id xmin xmax ymin ymax W H = Ok line.
Proof.
  intros ? ? ? ? ? ? HW HH. unfold spec_line.
  assert (0 < 2 < exact_bound) as Htwo by done.
  destruct (float_of_int_small (xmax - xmin)) as (mw & ew & ->); [lia|].
  destruct (float_of_int_small (ymax - ymin)) as (mh & eh & ->); [lia|].
  cbn [rbind].
  destruct (div_float_int_small (S754_finite false mw ew) 2 Htwo) as [hw ->].
  cbn [rbind]. rewrite <- add_float_int_comm.
  destruct (add_float_int_small hw xmin) as [lf ->]; [lia|]. cbn [rbind].
  destruct (div_float_int_small lf W HW) as [xc ->]. cbn [rbind].
  destruct (div_float_int_small (S754_finite false mh eh) 2 Htwo) as [hh ->].
  cbn [rbind]. rewrite <- add_float_int_comm.
  destruct (add_float_int_small hh ymin) as [tp ->]; [lia|]. cbn [rbind].
  destruct (div_float_int_small tp H HH) as [yc ->]. cbn [rbind].
  destruct (div_float_int_small (S754_finite false mw ew) W HW) as [rw ->].
  cbn [rbind].
  destruct (div_float_int_small (S754_finite false mh eh) H HH) as [rh ->].
  cbn [rbind]. eauto.
Qed.

(** The recognized objects of valid objects have their lines. *)
Lemma valid_objects_lines (classes : gmap string Z) (W H : Z)
    (objs : list Element) :
  0 < W < exact_bound -> 0 < H < exact_bound ->
  Forall (valid_object classes) objs ->
  Forall (fun o => exists name, object_name o = Ok name) objs /\
  exists lines,
    Forall2 (object_line classes W H) (List.filter (recognized classes) objs) lines.
Proof.
  intros HW HH. induction 1 as [|o objs (name & Hname & Hbox) _ [IH1 [lines IH2]]].
  - split; [constructor|]. exists []. constructor.
  - split; [constructor; eauto|]. cbn [List.filter].
    destruct (recognized classes o) eqn:Hrec; [|by exists lines].
    unfold recognized in Hrec. rewrite Hname in Hrec.
    apply bool_decide_eq_true in Hrec.
    destruct (Hbox Hrec) as (b & Hb & Hvalid). destruct Hrec as [c Hc].
    destruct (convert_bndbox_total c W H b Hvalid HW HH) as [line Hline].
    exists (line :: lines). constructor; [|done]. by exists name, c, b.
Qed.

End Lines.

(** ** Fatal input *)

Section Fatal.

Variable classes : gmap string Z.
Variable xml : string.

Lemma raises_bind_lift {A B : Type} (r : result A) (k : A -> M B) (w : World) :
  (forall a, r = Ok a -> raises (fst (k a w))) ->
  raises (fst (bind (lift r) k w)).
Proof. intros H. destruct r as [a|e]; [by apply H|done]. Qed.

Lemma for_each_M_raises {S A : Type} (body : S -> A -> M S) (s : S)
    (l : list A) (x : A) (w : World) :
  In x l -> (forall s' w', raises (fst (body s' x w'))) ->
  raises (fst (for_each_M body s l w)).
Proof.
  revert s w. induction l as [|y l IH]; intros s w; [done|].
  intros [->|Hin] Hx; cbn [for_each_M].
  - by apply raises_bind_l.
  - apply raises_bind_r. intros s' w'. by apply IH.
Qed.

(** A depth field that does not read as 3 stops at the first line of the
    loop. *)
Lemma convert_size_depth (st : option Z * option Z) (size : Element) :
  int_field size "depth" <> Ok 3 -> raises (convert_size st size).
Proof.
  intros Hne. unfold convert_size. destruct st as [iw ih].
  destruct (int_field size "depth") as [d|e]; [|done]. cbn [rbind].
  replace (d =? 3) with false; [done|].
  symmetry. apply Z.eqb_neq. congruence.
Qed.

Lemma convert_size_ok (st st1 : option Z * option Z) (size : Element) :
  convert_size st size = Ok st1 -> exists w h, st1 = (Some w, Some h).
Proof.
  unfold convert_size. destruct st as [iw ih]. intros E.
  repeat (apply rbind_ok in E as (? & _ & E)).
  injection E as <-. eauto.
Qed.

Lemma convert_size_assigned (w : Z) (ih : option Z) (size : Element) :
  raises (convert_size (Some w, ih) size).
Proof.
  unfold convert_size.
  destruct (int_field size "depth") as [d|]; [|done]. cbn [rbind].
  by destruct (d =? 3).
Qed.

(** A second [size] block finds [img_width] assigned. *)
Lemma convert_size_again (st : option Z * option Z) (s1 s2 : Element)
    (rest : list Element) :
  raises (for_each convert_size st (s1 :: s2 :: rest)).
Proof.
  cbn [for_each].
  destruct (convert_size st s1) as [st1|e] eqn:E1; [|done].
  apply convert_size_ok in E1 as (w & h & ->). cbn [rbind].
  apply raises_rbind_l, convert_size_assigned.
Qed.

(** A coordinate that is not positive stops at its assertion, unless a
    field before it has stopped the run already. *)
Lemma convert_bndbox_not_positive (c W H : Z) (b : Element) (f : string) (v : Z) :
  In f ["xmin"; "xmax"; "ymin"; "ymax"] ->
  int_field b f = Ok v -> v <= 0 -> raises (convert_bndbox c W H b).
Proof.
  intros Hf Hv Hle. unfold convert_bndbox.
  assert ((0 <? v) = false) as Hneg by (apply Z.ltb_ge; lia).
  cbn [In] in Hf. destruct Hf as [<-|[<-|[<-|[<-|[]]]]];
    repeat first
      [ rewrite Hv; cbn [rbind]; rewrite Hneg; exact I
      | match goal with
        | |- raises (rbind ?r _) =>
            let E := fresh in destruct r eqn:E; cbn [rbind]; [|exact I]
        end ].
Qed.

(** What stops the loop over the [size] blocks stops [convert]. *)
Lemma convert_raises_size (root : Element) (w : World) :
  files w !! xml = Some (XmlFile root) ->
  raises (for_each convert_size (None, None) (iter "size" root)) ->
  raises (fst (convert classes xml w)).
Proof.
  intros Hfile Hsize. unfold convert.
  destruct (Path.splitext xml) as [stem ext].
  apply raises_bind_lift. intros _ _.
  apply raises_bind_lift. intros _ _.
  rewrite bind_eq. unfold ET_parse at 1. rewrite Hfile.
  apply raises_bind_lift. intros _ _.
  by apply raises_bind_l.
Qed.

(** What stops the loop over the objects, in every state, stops [convert]. *)
Lemma convert_raises_objects (root : Element) (w : World) :
  files w !! xml = Some (XmlFile root) ->
  (forall W H d w',
     raises (fst (for_each_M (convert_object classes xml W H) d
                    (iter "object" root) w'))) ->
  raises (fst (convert classes xml w)).
Proof.
  intros Hfile Hobjs. unfold convert.
  destruct (Path.splitext xml) as [stem ext].
  apply raises_bind_lift. intros _ _.
  apply raises_bind_lift. intros _ _.
  rewrite bind_eq. unfold ET_parse at 1. rewrite Hfile.
  apply raises_bind_lift. intros _ _.
  apply raises_bind_lift. intros size _.
  apply raises_bind_lift. intros W _.
  apply raises_bind_lift. intros H _.
  by apply raises_bind_l.
Qed.

(** A recognized object stops the run when one of its boxes does. *)
Lemma convert_object_raises (W H : Z) (d : string) (o b : Element)
    (name : option string) (c : Z) (w : World) :
  object_name o = Ok name -> class_of classes name = Some c ->
  In b (iter "bndbox" o) ->
  (forall W H, raises (convert_bndbox c W H b)) ->
  raises (fst (convert_object classes xml W H d o w)).
Proof.
  intros Hn Hc Hin Hb. unfold convert_object.
  rewrite Hn, bind_lift_ok, Hc. cbn [lift fst].
  eapply for_each_raises; [exact Hin|].
  intros d'. apply raises_rbind_l, Hb.
Qed.

End Fatal.

(** ** What [convert] reads and writes *)

Section Footprint.
Import Str StrFacts.

Variable classes : gmap string Z.
Variable xml : string.

Lemma suffix_neq (a b s t : string) :
  String.length s = String.length t -> s <> t -> a +:+ s <> b +:+ t.
Proof.
  intros Hl Hne E. apply Hne.
  rewrite <- (last_chars_app a s), <- (last_chars_app b t), E. by rewrite Hl.
Qed.

(** The object loop does not look at the world and only prints. *)
Lemma convert_object_shape (W H : Z) (d : string) (o : Element) :
  exists r msgs, forall w,
    convert_object classes xml W H d o w = (r, log w msgs).
Proof.
  unfold convert_object.
  destruct (object_name o) as [name|e].
  - destruct (class_of classes name) as [c|] eqn:Hc.
    + eexists _, []. intros w. rewrite bind_lift_ok, Hc, log_nil. reflexivity.
    + eexists _, [_]. intros w. rewrite bind_lift_ok, Hc. reflexivity.
  - exists (Raise e), []. intros w. by rewrite bind_lift_raise, log_nil.
Qed.

Lemma convert_objects_shape (W H : Z) (d : string) (objs : list Element) :
  exists r msgs, forall w,
    for_each_M (convert_object classes xml W H) d objs w = (r, log w msgs).
Proof.
  revert d. induction objs as [|o objs IH]; intros d.
  - exists (Ok d), []. intros w. by rewrite log_nil.
  - destruct (convert_object_shape W H d o) as ([d'|e] & msgs & Ho).
    + destruct (IH d') as (r & msgs' & Hr).
      exists r, (msgs ++ msgs'). intros w.
      cbn [for_each_M]. by rewrite bind_eq, Ho, Hr, log_log.
    + exists (Raise e), msgs. intros w.
      cbn [for_each_M]. by rewrite bind_eq, Ho.
Qed.

(** The outcome of [convert] is a function of the annotation file; its
    effects are lines on the output and at most one text file. *)
Lemma convert_shape (file : option File) :
  exists r msgs (out : option (string * string)),
    (forall stem data, out = Some (stem, data) -> r = Ok true) /\
    forall w, files w !! xml = file ->
      convert classes xml w =
      (r, match out with
          | None => log w msgs
          | Some (stem, data) => store (log w msgs) (stem +:+ ".txt") (DataFile data)
          end).
Proof.
  unfold convert. destruct (Path.splitext xml) as [stem ext].
  destruct (ext =? ".xml")%string.
  2:{ exists (Raise AssertionError), [], None. split; [done|].
      intros w _. by rewrite log_nil. }
  cbn [assert].
  destruct (stem =? "")%string.
  { exists (Raise AssertionError), [], None. split; [done|].
    intros w _. by rewrite log_nil. }
  cbn [negb assert].
  destruct file as [[root|data]|].
  2:{ exists (Raise ParseError), [], None. split; [done|].
      intros w Hf. rewrite !bind_lift_ok, bind_eq. unfold ET_parse.
      by rewrite Hf, log_nil. }
  2:{ exists (Raise FileNotFoundError), [], None. split; [done|].
      intros w Hf. rewrite !bind_lift_ok, bind_eq. unfold ET_parse.
      by rewrite Hf, log_nil. }
  destruct (assert (tag root =? "annotation")%string) as [[]|e] eqn:Htag.
  2:{ exists (Raise e), [], None. split; [done|].
      intros w Hf. rewrite !bind_lift_ok, bind_eq. unfold ET_parse at 1.
      by rewrite Hf, Htag, bind_lift_raise, log_nil. }
  destruct (for_each convert_size (None, None) (iter "size" root))
    as [size|e] eqn:Hsize.
  2:{ exists (Raise e), [], None. split; [done|].
      intros w Hf. rewrite !bind_lift_ok, bind_eq. unfold ET_parse at 1.
      by rewrite Hf, Htag, bind_lift_ok, Hsize, bind_lift_raise, log_nil. }
  destruct (assert_positive size.1) as [W|e] eqn:HW.
  2:{ exists (Raise e), [], None. split; [done|].
      intros w Hf. rewrite !bind_lift_ok, bind_eq. unfold ET_parse at 1.
      by rewrite Hf, Htag, bind_lift_ok, Hsize, bind_lift_ok, HW,
        bind_lift_raise, log_nil. }
  destruct (assert_positive size.2) as [H|e] eqn:HH.
  2:{ exists (Raise e), [], None. split; [done|].
      intros w Hf. rewrite !bind_lift_ok, bind_eq. unfold ET_parse at 1.
      by rewrite Hf, Htag, bind_lift_ok, Hsize, bind_lift_ok, HW,
        bind_lift_ok, HH, bind_lift_raise, log_nil. }
  destruct (convert_objects_shape W H "" (iter "object" root))
    as ([obj_data|e] & msgs & Hobjs).
  2:{ exists (Raise e), msgs, None. split; [done|].
      intros w Hf. rewrite !bind_lift_ok, bind_eq. unfold ET_parse at 1.
      by rewrite Hf, Htag, bind_lift_ok, Hsize, bind_lift_ok, HW,
        bind_lift_ok, HH, bind_lift_ok, bind_eq, Hobjs. }
  destruct (obj_data =? "")%string eqn:Hdata.
  - exists (Ok false), (msgs ++ [empty_message xml]), None. split; [done|].
    intros w Hf. rewrite !bind_lift_ok, bind_eq. unfold ET_parse at 1.
    rewrite Hf, Htag, bind_lift_ok, Hsize, bind_lift_ok, HW,
      bind_lift_ok, HH, bind_lift_ok, bind_eq, Hobjs, Hdata.
    by rewrite <- log_log.
  - exists (Ok true), msgs, (Some (stem, obj_data)). split; [done|].
    intros w Hf. rewrite !bind_lift_ok, bind_eq. unfold ET_parse at 1.
    by rewrite Hf, Htag, bind_lift_ok, Hsize, bind_lift_ok, HW,
      bind_lift_ok, HH, bind_lift_ok, bind_eq, Hobjs, Hdata.
Qed.

End Footprint.

(** ** The Splitter *)

Section Splitter.
Import Str StrFacts.

Variable self : TrainingData.

Lemma same_but_txt_refl (fs : gmap string File) : same_but_txt fs fs.
Proof. by intros p _. Qed.

Lemma same_but_txt_trans (fs1 fs2 fs3 : gmap string File) :
  same_but_txt fs1 fs2 -> same_but_txt fs2 fs3 -> same_but_txt fs1 fs3.
Proof. intros H1 H2 p Hp. by rewrite H1, H2. Qed.

Lemma same_but_txt_insert (fs : gmap string File) (stem : string) (f : File) :
  same_but_txt fs (<[stem +:+ ".txt" := f]> fs).
Proof. intros p Hp. rewrite lookup_insert_ne; [done|]. intros E. by eapply Hp. Qed.

(** What [convert] leaves behind *)
Lemma convert_effect (classes : gmap string Z) (xml : string) (w : World) :
  same_but_txt (files w) (files (snd (convert classes xml w))) /\
  random_calls (snd (convert classes xml w)) = random_calls w /\
  random_values (snd (convert classes xml w)) = random_values w.
Proof.
  destruct (convert_shape classes xml (files w !! xml))
    as (r & msgs & out & _ & Hrun).
  rewrite (Hrun w eq_refl). destruct out as [[stem data]|]; cbn.
  - split; [apply same_but_txt_insert|done].
  - split; [apply same_but_txt_refl|done].
Qed.

Lemma convert_bad_ext (classes : gmap string Z) (xml stem ext : string)
    (w : World) :
  Path.splitext xml = (stem, ext) -> ext <> ".xml" ->
  fst (convert classes xml w) = Raise AssertionError.
Proof.
  intros E Hext. unfold convert. rewrite E.
  by replace (ext =? ".xml")%string with false
    by (symmetry; by apply String.eqb_neq).
Qed.

(** The outcome of [convert] is the same when only text files differ. *)
Lemma convert_same (classes : gmap string Z) (xml : string) (w0 w1 : World) :
  same_but_txt (files w0) (files w1) ->
  fst (convert classes xml w1) = fst (convert classes xml w0).
Proof.
  intros Hsame. destruct (Path.splitext xml) as [stem ext] eqn:E.
  destruct (decide (ext = ".xml")) as [->|Hext].
  - apply splitext_app in E.
    assert (files w0 !! xml = files w1 !! xml) as Hxml.
    { apply Hsame. intros a. rewrite E. by apply suffix_neq. }
    destruct (convert_shape classes xml (files w0 !! xml))
      as (r & msgs & out & _ & Hrun).
    by rewrite (Hrun w0 eq_refl), (Hrun w1 (eq_sym Hxml)).
  - by rewrite !(convert_bad_ext _ _ _ _ _ E Hext).
Qed.

Lemma paired_same (xml : string) (w0 w1 : World) :
  same_but_txt (files w0) (files w1) -> paired w1 xml = paired w0 xml.
Proof.
  intros Hsame. unfold paired. rewrite (Hsame (jpg_path_of xml)); [done|].
  intros a. unfold jpg_path_of. by apply suffix_neq.
Qed.

(** One pass of the loop of [split] that ends without an exception *)
Lemma split_xml_ok (w0 w1 w2 : World) (st st' : SplitState) (xml : string) :
  same_but_txt (files w0) (files w1) ->
  split_xml self st xml w1 = (Ok st', w2) ->
  let hit := paired w0 xml && converts (td_classes self) w0 xml in
  let line := jpg_file_name_of (td_input_dir self) xml in
  same_but_txt (files w0) (files w2) /\
  random_values w2 = random_values w1 /\
  random_calls w2 = (random_calls w1 + (if hit then 1 else 0))%nat /\
  processed_count st' = processed_count st + (if hit then 1 else 0) /\
  detected_pairs_count st' =
    detected_pairs_count st + (if paired w0 xml then 1 else 0) /\
  (if hit
   then (file_train st' = file_train st ++ [line] /\ file_test st' = file_test st) \/
        (file_train st' = file_train st /\ file_test st' = file_test st ++ [line])
   else file_train st' = file_train st /\ file_test st' = file_test st).
Proof.
  intros Hsame. unfold split_xml. rewrite bind_eq.
  unfold path_exists at 1. fold (paired w1 xml).
  rewrite (paired_same _ _ _ Hsame).
  destruct (paired w0 xml); cbn [andb].
  2:{ rewrite bind_eq. intros [= <- <-]. cbn.
      repeat split; try done; lia. }
  rewrite bind_eq. unfold converts.
  rewrite <- (convert_same (td_classes self) xml w0 w1 Hsame).
  destruct (convert_effect (td_classes self) xml w1) as (Hfs & Hcalls & Hvals).
  destruct (convert (td_classes self) xml w1) as [[[]|e] w1']; cbn [fst snd] in *.
  - rewrite bind_eq. unfold random at 1.
    destruct (Py.float_lt _ _); intros [= <- <-]; cbn;
      (repeat split; try done; try lia;
       [by eapply same_but_txt_trans|auto]).
  - intros [= <- <-]. cbn.
    repeat split; try done; try lia. by eapply same_but_txt_trans.
  - done.
Qed.

(** The loop of [split], when it ends without an exception: the counters
    and the manifests grow by the converted pairs of the listing. *)
Lemma split_loop_ok (w0 : World) (xmls : list string) (st st' : SplitState)
    (w1 w2 : World) :
  same_but_txt (files w0) (files w1) ->
  for_each_M (split_xml self) st xmls w1 = (Ok st', w2) ->
  let hits := converted_pairs (td_classes self) w0 xmls in
  same_but_txt (files w0) (files w2) /\
  random_values w2 = random_values w1 /\
  random_calls w2 = (random_calls w1 + List.length hits)%nat /\
  processed_count st' = processed_count st + Z.of_nat (List.length hits) /\
  detected_pairs_count st' =
    detected_pairs_count st + Z.of_nat (List.length (List.filter (paired w0) xmls)) /\
  file_train st' ++ file_test st' ≡ₚ
    file_train st ++ file_test st ++
    map (jpg_file_name_of (td_input_dir self)) hits.
Proof.
  revert st w1. induction xmls as [|xml xmls IH]; intros st w1 Hsame.
  - intros [= <- <-]. cbn. rewrite List.app_nil_r.
    repeat split; try done; lia.
  - cbn [for_each_M]. rewrite bind_eq.
    destruct (split_xml self st xml w1) as [[st1|e] w1'] eqn:Hstep; [|done].
    intros Hrest.
    destruct (split_xml_ok _ _ _ _ _ _ Hsame Hstep)
      as (Hsame1 & Hv1 & Hc1 & Hp1 & Hd1 & Hm1).
    destruct (IH _ _ Hsame1 Hrest) as (Hsame2 & Hv2 & Hc2 & Hp2 & Hd2 & Hm2).
    cbn zeta. unfold converted_pairs in *. cbn [List.filter].
    split; [done|]. split; [congruence|].
    destruct (paired w0 xml); cbn [andb] in *.
    + destruct (converts (td_classes self) w0 xml); cbn [List.length map].
      * repeat split; try lia.
        rewrite Hm2.
        destruct Hm1 as [[E1 E2]|[E1 E2]]; rewrite E1, E2; by solve_Permutation.
      * destruct Hm1 as [E1 E2]. rewrite E1, E2 in Hm2.
        repeat split; try done; lia.
    + destruct Hm1 as [E1 E2]. rewrite E1, E2 in Hm2.
      repeat split; try done; lia.
Qed.

Lemma join_suffix (a b : string) : exists pre, Path.join a b = pre +:+ b.
Proof.
  unfold Path.join. destruct (String.prefix "/" b); [by exists ""|].
  destruct (_ || _); [by exists a|].
  exists (a +:+ "/"). by rewrite app_assoc.
Qed.

Lemma manifest_txt (dir header kind : string) :
  exists stem, Path.join dir (header +:+ kind +:+ ".txt") = stem +:+ ".txt".
Proof.
  destruct (join_suffix dir (header +:+ kind +:+ ".txt")) as [pre ->].
  exists (pre +:+ header +:+ kind). by rewrite !app_assoc.
Qed.

Lemma manifests_differ (dir header : string) :
  Path.join dir (header +:+ "-train.txt") <> Path.join dir (header +:+ "-test.txt").
Proof.
  destruct (join_suffix dir (header +:+ "-train.txt")) as [pre1 ->].
  destruct (join_suffix dir (header +:+ "-test.txt")) as [pre2 ->].
  change (header +:+ "-train.txt") with (header +:+ "-" +:+ "train.txt").
  rewrite <- !app_assoc. by apply suffix_neq.
Qed.

Lemma converted_pairs_same (classes : gmap string Z) (w0 w1 : World)
    (xmls : list string) :
  same_but_txt (files w0) (files w1) ->
  converted_pairs classes w1 xmls = converted_pairs classes w0 xmls.
Proof.
  intros Hsame. unfold converted_pairs, converts.
  induction xmls as [|xml xmls IH]; [done|]. cbn [List.filter].
  by rewrite IH, (paired_same _ _ _ Hsame), (convert_same _ _ _ _ Hsame).
Qed.

(** An exception of [convert] is one of the pass. *)
Lemma split_xml_raises (w0 w1 : World) (st : SplitState) (xml : string) :
  same_but_txt (files w0) (files w1) ->
  paired w0 xml = true ->
  raises (fst (convert (td_classes self) xml w0)) ->
  raises (fst (split_xml self st xml w1)).
Proof.
  intros Hsame Hpaired Hraise. unfold split_xml. rewrite bind_eq.
  unfold path_exists at 1. fold (paired w1 xml).
  rewrite (paired_same _ _ _ Hsame), Hpaired.
  apply raises_bind_l. by rewrite (convert_same _ _ _ _ Hsame).
Qed.

(** ... and of the loop, which has no handler: the files after it in the
    listing are not reached. *)
Lemma split_loop_raises (w0 : World) (xmls : list string) (st : SplitState)
    (w1 : World) (xml : string) :
  same_but_txt (files w0) (files w1) ->
  In xml xmls -> paired w0 xml = true ->
  raises (fst (convert (td_classes self) xml w0)) ->
  raises (fst (for_each_M (split_xml self) st xmls w1)).
Proof.
  intros Hsame Hin Hpaired Hraise. revert st w1 Hsame Hin.
  induction xmls as [|y xmls IH]; intros st w1 Hsame Hin; [done|].
  cbn [for_each_M]. rewrite bind_eq.
  destruct (split_xml self st y w1) as [[st1|e] w1'] eqn:Hstep; [|done].
  destruct Hin as [->|Hin].
  - pose proof (split_xml_raises _ _ st _ Hsame Hpaired Hraise) as H.
    by rewrite Hstep in H.
  - apply IH; [|done].
    by destruct (split_xml_ok _ _ _ _ _ _ Hsame Hstep) as (? & _).
Qed.

Section Run.

Variable iglob : gmap string File -> string -> list string.

(** [split] as its loop, between the opening and the closing of the
    manifests *)
Lemma split_eq (w : World) :
  split iglob self w =
  match for_each_M (split_xml self) (mkSplitState [] [] 0 0)
          (annotation_files iglob self w) (opened self w) with
  | (Ok st, w2) =>
      (Ok st,
       store (store w2 (train_path self)
                (DataFile (String.concat "" (file_train st))))
         (test_path self) (DataFile (String.concat "" (file_test st))))
  | (Raise e, w2) => (Raise e, w2)
  end.
Proof.
  unfold split, annotation_files, opened.
  rewrite bind_eq. cbn [write_file]. rewrite bind_eq. cbn [write_file].
  rewrite bind_eq.
  by destruct (for_each_M _ _ _ _) as [[st|e] w2].
Qed.

Lemma opened_same (w : World) : same_but_txt (files w) (files (opened self w)).
Proof.
  destruct (manifest_txt (td_output_dir self) (td_file_header self) "-train")
    as [s1 E1].
  destruct (manifest_txt (td_output_dir self) (td_file_header self) "-test")
    as [s2 E2].
  unfold opened, train_path, test_path. cbn [store files].
  change (td_file_header self +:+ "-train.txt")
    with (td_file_header self +:+ "-train" +:+ ".txt").
  change (td_file_header self +:+ "-test.txt")
    with (td_file_header self +:+ "-test" +:+ ".txt").
  rewrite E1, E2.
  eapply same_but_txt_trans; apply same_but_txt_insert.
Qed.

(** A run of [split] that ends: the manifests hold, between them, one
    line for each converted pair of the listing. *)
Lemma split_ok (w w' : World) (st : SplitState) :
  split iglob self w = (Ok st, w') ->
  let xmls := annotation_files iglob self w in
  let hits := converted_pairs (td_classes self) w xmls in
  files w' !! train_path self =
    Some (DataFile (String.concat "" (file_train st))) /\
  files w' !! test_path self =
    Some (DataFile (String.concat "" (file_test st))) /\
  file_train st ++ file_test st ≡ₚ
    map (jpg_file_name_of (td_input_dir self)) hits /\
  processed_count st = Z.of_nat (List.length hits) /\
  detected_pairs_count st = Z.of_nat (List.length (List.filter (paired w) xmls)) /\
  random_calls w' = (random_calls w + List.length hits)%nat.
Proof.
  rewrite split_eq. cbn zeta.
  destruct (for_each_M _ _ _ _) as [[st2|e] w2] eqn:Hloop; [|done].
  intros [= <- <-].
  destruct (split_loop_ok (opened self w) _ _ _ _ _ (same_but_txt_refl _) Hloop)
    as (_ & _ & Hc & Hp & Hd & Hm).
  pose proof (opened_same w) as Hsame.
  rewrite (converted_pairs_same _ _ _ _ Hsame) in Hc, Hp, Hm.
  cbn [store files].
  split; [|split; [|split; [|split; [|split]]]].
  - rewrite lookup_insert_ne by (symmetry; apply manifests_differ).
    apply lookup_insert_eq.
  - apply lookup_insert_eq.
  - exact Hm.
  - rewrite Hp. cbn [processed_count]. lia.
  - rewrite Hd. cbn [detected_pairs_count]. rewrite Z.add_0_l.
    do 2 f_equal. apply List.filter_ext. intros xml. by apply paired_same.
  - exact Hc.
Qed.

(** A file that [convert] refuses ends the run of [split]. *)
Lemma split_raises (w : World) (xml : string) :
  In xml (annotation_files iglob self w) ->
  paired w xml = true ->
  raises (fst (convert (td_classes self) xml w)) ->
  raises (fst (split iglob self w)).
Proof.
  intros Hin Hpaired Hraise. rewrite split_eq.
  pose proof (opened_same w) as Hsame.
  assert (raises (fst (for_each_M (split_xml self) (mkSplitState [] [] 0 0)
            (annotation_files iglob self w) (opened self w)))) as H.
  { eapply split_loop_raises; [apply same_but_txt_refl|exact Hin| |].
    - by rewrite (paired_same _ _ _ Hsame).
    - by rewrite (convert_same _ _ _ _ Hsame). }
  by destruct (for_each_M _ _ _ _) as [[st|e] w2].
Qed.

End Run.

End Splitter.

(** ** The command line *)

Section CommandLine.

Lemma float_lt_not_le (x y : spec_float) :
  Py.float_lt x y = true -> Py.float_le y x = false.
Proof.
  unfold Py.float_lt, Py.float_le, SFltb, SFleb.
  destruct x as [[]|[]| |[] mx ex], y as [[]|[]| |[] my ey]; try done;
    cbn [SFcompare];
    rewrite (Z.compare_antisym ex ey);
    destruct (ex ?= ey) eqn:E; cbn [CompOpp]; try done;
    pose proof (Pos.compare_cont_antisym mx my Eq) as A; cbn [CompOpp] in A;
    rewrite <- A; by destruct (Pos.compare_cont Eq mx my).
Qed.

(** Outside the closed interval, [Range.__eq__] is false. *)
Lemma Range_eq_outside (v : spec_float) :
  Py.float_lt v Py.float_0 = true \/ Py.float_lt Py.float_1 v = true \/
  v = S754_nan ->
  Range_eq (mkRange Py.float_0 Py.float_1) v = false.
Proof.
  unfold Range_eq. cbn [range_start range_end].
  intros [H|[H| ->]]; [| |done].
  - by rewrite (float_lt_not_le _ _ H).
  - by rewrite (float_lt_not_le _ _ H), andb_false_r.
Qed.

(** Both ends of the interval pass: the comparison is not strict. *)
Lemma Range_eq_ends :
  Range_eq (mkRange Py.float_0 Py.float_1) Py.float_0 = true /\
  Range_eq (mkRange Py.float_0 Py.float_1) Py.float_1 = true.
Proof. by vm_compute. Qed.

Lemma parse_args_rejects (argv : Argv) :
  arg_classes argv = None \/
  (exists v, arg_percent argv = Some v /\
     (Py.float_lt v Py.float_0 = true \/ Py.float_lt Py.float_1 v = true \/
      v = S754_nan)) ->
  parse_args argv = Raise SystemExit.
Proof.
  unfold parse_args. intros [->|(v & -> & Hv)]; [done|].
  destruct (arg_classes argv); [|done].
  cbn [existsb]. by rewrite (Range_eq_outside _ Hv).
Qed.

(** A test fraction of 0.0 passes [parse_args]; the run copies the pairs
    and only then fails the assertion of [TrainingData.__init__]. *)
Example program_with_fraction_zero :
  let argv := mkArgv (Some "cat,dog") None None None None (Some Py.float_0) in
  let w := Sample.world Sample.source_files Sample.no_random in
  ~ raises (parse_args argv) /\
  fst (program Sample.source_listing "/w" argv w) = Raise AssertionError /\
  files (snd (program Sample.source_listing "/w" argv w))
    !! "/w/destination/data/sample1_frame0001.xml" = Some (XmlFile Sample.cat_doc).
Proof. cbn zeta. split; [|split]; by vm_compute. Qed.

(** The same run with the default fraction goes through the three stages. *)
Example program_with_defaults :
  let argv := mkArgv (Some "cat,dog") None None None None None in
  let w := Sample.world Sample.source_files (fun _ => Py.float_0_1) in
  fst (program Sample.source_listing "/w" argv w) = Ok tt /\
  files (snd (program Sample.source_listing "/w" argv w))
    !! "/w/destination/data/sample1_frame0001.txt" =
    Some (DataFile Sample.cat_line) /\
  files (snd (program Sample.source_listing "/w" argv w))
    !! "/w/destination/data-train.txt" =
    Some (DataFile ("/w/destination/data/sample1_frame0001.jpg" +:+ Py.newline)) /\
  files (snd (program Sample.source_listing "/w" argv w))
    !! "/w/destination/data-test.txt" = Some (DataFile "").
Proof. cbn zeta. repeat split; by vm_compute. Qed.

End CommandLine.

(** ** The Flattener *)

Section Flattener.
Import Str StrFacts.

(** A frame id that cannot be read stops the loop over the annotation
    files of a directory; nothing is copied for that file. *)
Lemma sanitize_xml_raises (self : ImageData) (head : string) (count : Z)
    (xml : string) (rest : list string) (e : exn) (w : World) :
  paired w xml = true ->
  sanitize_id (Path.basename xml) = Raise e ->
  for_each_M (sanitize_xml self head) count (xml :: rest) w = (Raise e, w).
Proof.
  intros Hpaired Hid. cbn [for_each_M]. rewrite bind_eq.
  unfold sanitize_xml. rewrite bind_eq.
  unfold path_exists at 1. fold (jpg_path_of xml). fold (paired w xml).
  rewrite Hpaired. cbn [negb]. by rewrite Hid, bind_lift_raise.
Qed.

Lemma last4 (digits : string) :
  (4 <= String.length digits)%nat ->
  exists a, digits = a +:+ last_chars 4 digits.
Proof.
  intros _. exists (take (String.length digits - 4) digits).
  unfold last_chars. by rewrite take_drop.
Qed.

End Flattener.

(** ** The manifests *)

Section Manifests.
Import Str StrFacts.
















Lemma concat_app (l1 l2 : list string) :
  String.concat "" (l1 ++ l2) = String.concat "" l1 +:+ String.concat "" l2.
Proof.
  induction l1 as [|x l1 IH]; [done|].
  change ((x :: l1) ++ l2) with (x :: (l1 ++ l2)).
  by rewrite !concat_cons, IH, app_assoc.
Qed.


End Manifests.

(** * The claims *)

Section Claims.
Import Str StrFacts.

(** C1. For a retained object (its class name is in the class map) with one
    bounding box whose coordinates satisfy [0 < xmin < xmax] and
    [0 < ymin < ymax], the loop body appends the line that the specification
    words: the class id, then x-center = (xmin + (xmax-xmin)/2) /
    image_width, y-center = (ymin + (ymax-ymin)/2) / image_height,
    rel_width = (xmax-xmin) / image_width and rel_height = (ymax-ymin) /
    image_height, separated by spaces; the line exists when the integers
    stay below [2^53]. For class [cat] with id 0, the box (xmin=10, xmax=50,
    ymin=20, ymax=60) and a 100 by 100 image the line is
    [0 0.3 0.4 0.4 0.4], and it is what [convert] writes for such a file. *)
Theorem C1_line_of_retained_object :
  (forall (classes : gmap string Z) (xml : string) (W H : Z)
          (obj_data : string) (obj : Element) (name : string) (class_id : Z)
          (bndbox : Element) (xmin xmax ymin ymax : Z) (w : World),
     object_name obj = Ok (Some name) -> classes !! name = Some class_id ->
     iter "bndbox" obj = [bndbox] ->
     int_field bndbox "xmin" = Ok xmin -> int_field bndbox "xmax" = Ok xmax ->
     int_field bndbox "ymin" = Ok ymin -> int_field bndbox "ymax" = Ok ymax ->
     0 < xmin -> xmin < xmax -> 0 < ymin -> ymin < ymax ->
     convert_object classes xml W H obj_data obj w =
     lift (line <- spec_line class_id xmin xmax ymin ymax W H ;;
           Ok (obj_data +:+ line))%result w) /\
  (forall class_id xmin xmax ymin ymax W H : Z,
     0 < xmin -> xmin < xmax -> xmax < exact_bound ->
     0 < ymin -> ymin < ymax -> ymax < exact_bound ->
     0 < W < exact_bound -> 0 < H < exact_bound ->
     exists line, spec_line class_id xmin xmax ymin ymax W H = Ok line) /\
  spec_line 0 10 50 20 60 100 100 = Ok ("0 0.3 0.4 0.4 0.4" +:+ Py.newline) /\
  (let w := Sample.world [("data/cat.xml", XmlFile Sample.cat_doc)]
              Sample.no_random in
   convert Sample.cat_dog "data/cat.xml" w =
   (Ok true,
    store w "data/cat.txt" (DataFile ("0 0.3 0.4 0.4 0.4" +:+ Py.newline)))).
Proof.
  split; [|split; [|split]].
  - intros classes xml W H obj_data obj name class_id bndbox xmin xmax ymin ymax w
      Hname Hclass Hbox Hx0 Hx1 Hy0 Hy1 ? ? ? ?.
    unfold convert_object. rewrite Hname, bind_lift_ok. cbn [class_of].
    rewrite Hclass, Hbox. cbn [for_each].
    rewrite (convert_bndbox_spec _ _ _ _ _ _ _ _ Hx0 Hx1 Hy0 Hy1) by done.
    by destruct (spec_line class_id xmin xmax ymin ymax W H).
  - intros. by apply spec_line_total.
  - by vm_compute.
  - by vm_compute.
Qed.

(** The cat of the sample file, through the loop body *)
Lemma C1_line_of_retained_object_witness :
  convert_object Sample.cat_dog "data/cat.xml" 100 100 ""
    (Sample.object "cat" Sample.cat_box) (Sample.world [] Sample.no_random) =
  (Ok ("0 0.3 0.4 0.4 0.4" +:+ Py.newline), Sample.world [] Sample.no_random).
Proof.
  etransitivity.
  - apply (proj1 C1_line_of_retained_object Sample.cat_dog "data/cat.xml" 100 100
             "" (Sample.object "cat" Sample.cat_box) "cat" 0 Sample.cat_box
             10 50 20 60);
      first [reflexivity | lia].
  - by vm_compute.
Defined.

(** C2. For every 3-digit frame id, [sanitize_id] returns the id with one
  [0] in front, and for every 4-digit frame id it returns the id as it is
  (the file being [frame<id>.xml], in any directory); whatever
  [sanitize_id] returns is exactly 4 characters that [isdigit] accepts,
  which are decimal digits when the file name is ASCII. *)
Theorem C2_sanitize_id_four_digits :
(forall dir d, String.length d = 3%nat -> isdigit d = true ->
   sanitize_id (dir +:+ "frame" +:+ d +:+ ".xml") = Ok ("0" +:+ d)) /\
(forall dir d, String.length d = 4%nat -> isdigit d = true ->
   sanitize_id (dir +:+ "frame" +:+ d +:+ ".xml") = Ok d) /\
(forall xml r, sanitize_id xml = Ok r ->
   String.length r = 4%nat /\ isdigit r = true /\
   (all is_ascii xml = true -> all is_decimal r = true)).
Proof.
split; [|split].
- intros dir d Hl Hd.
  change (dir +:+ "frame" +:+ d +:+ ".xml")
    with (dir +:+ "fram" +:+ String "e" d +:+ ".xml").
  rewrite <- app_assoc. by apply sanitize_id_digits3.
- intros dir d Hl Hd. rewrite <- app_assoc. by apply sanitize_id_digits4.
- intros xml r Hr. destruct (sanitize_id_ok _ _ Hr) as [Hd Hl].
  split; [done|]. split; [done|]. intros Hxml.
  pose proof (sanitize_id_ascii _ _ Hr Hxml) as Ha.
  apply isdigit_all in Hd. clear Hr Hl.
  induction r as [|c r IH]; [done|]. cbn [all] in *.
  apply andb_true_iff in Hd as [Hc Hd]. apply andb_true_iff in Ha as [Hac Ha].
  by rewrite (isdigit_ascii_decimal _ Hc Hac), (IH Hd Ha).
Qed.

(** [frame023.xml] and [movie7/frame1425.xml] *)
Lemma C2_sanitize_id_four_digits_witness :
sanitize_id "frame023.xml" = Ok "0023" /\
sanitize_id "movie7/frame1425.xml" = Ok "1425" /\
String.length "0023" = 4%nat.
Proof.
split; [|split].
- exact (proj1 C2_sanitize_id_four_digits "" "023" eq_refl eq_refl).
- exact (proj1 (proj2 C2_sanitize_id_four_digits) "movie7/" "1425" eq_refl eq_refl).
- exact (proj1 (proj2 (proj2 C2_sanitize_id_four_digits) "frame023.xml" "0023"
                  eq_refl)).
Defined.



(** C4, as the code has it. An invocation with a test fraction below 0.0 or
    above 1.0 (or not a number), or without the class list argument, is
    rejected when the arguments are parsed: the program ends with
    [SystemExit] and the world as it was, nothing copied, converted or
    printed. *)
Theorem C4_invalid_configuration_rejected
    (iglob : gmap string File -> string -> list string) (current_dir : string)
    (argv : Argv) (w : World) :
  arg_classes argv = None \/
  (exists v, arg_percent argv = Some v /\
     (Py.float_lt v Py.float_0 = true \/ Py.float_lt Py.float_1 v = true \/
      v = S754_nan)) ->
  parse_args argv = Raise SystemExit /\
  program iglob current_dir argv w = (Raise SystemExit, w).
Proof.
  intros Hbad. pose proof (parse_args_rejects argv Hbad) as Hparse.
  split; [exact Hparse|]. unfold program. by rewrite Hparse.
Qed.

(** A test fraction of 1.5 *)
Lemma C4_invalid_configuration_rejected_witness :
  parse_args (mkArgv (Some "cat,dog") None None None None
                (Some (S754_finite false 6755399441055744 (-52)))) =
  Raise SystemExit.
Proof.
  refine (proj1 (C4_invalid_configuration_rejected Sample.source_listing "/w"
                   _ (Sample.world [] Sample.no_random) _)).
  right. eexists. split; [reflexivity|]. right. left. reflexivity.
Defined.

(** C4, as stated, fails: an empty class list is not rejected when the
    arguments are parsed; it gives the class map with the empty name. *)
Lemma C4_empty_class_list_counterexample :
  parse_args (mkArgv (Some "") None None None None None) =
    Ok (mkConfig {[ "" := 0 ]} "source" "destination" "data" "sample"
          Py.float_0_1) /\
  ~ raises (parse_args (mkArgv (Some "") None None None None None)).
Proof. split; [reflexivity|]. by vm_compute. Qed.

(** C5. For an annotation file that follows the schema (one [size] block of
    depth 3 with positive dimensions, every object with a name, every
    recognized object with one valid bounding box): with no recognized
    object [convert] returns [False] and leaves the files as they are; with
    at least one it returns [True] and writes to the sibling [.txt] file
    the lines of the recognized objects, in document order, one line for
    each. *)
Theorem C5_one_line_per_recognized_object
    (classes : gmap string Z) (xml stem : string) (root : Element)
    (image_width image_height : Z) (w : World) :
  Path.splitext xml = (stem, ".xml") ->
  files w !! xml = Some (XmlFile root) ->
  valid_annotation classes root image_width image_height ->
  (recognized_objects classes root = [] ->
     fst (convert classes xml w) = Ok false /\
     files (snd (convert classes xml w)) = files w) /\
  (recognized_objects classes root <> [] ->
     exists lines,
       Forall2 (object_line classes image_width image_height)
               (recognized_objects classes root) lines /\
       fst (convert classes xml w) = Ok true /\
       files (snd (convert classes xml w)) =
         <[stem +:+ ".txt" := DataFile (String.concat "" lines)]> (files w) /\
       count_newlines (String.concat "" lines) =
         List.length (recognized_objects classes root)).
Proof.
  intros Hext Hfile (Htag & Hsize & HW & HH & Hobjs).
  destruct (valid_objects_lines classes _ _ _ HW HH Hobjs)
    as (Hnamed & lines & Hlines).
  fold (recognized_objects classes root) in Hlines.
  rewrite (convert_valid _ _ _ _ _ _ _ _ Hext Hfile Htag Hsize
             (proj1 HW) (proj1 HH) Hnamed Hlines).
  cbn zeta. split.
  - intros Hnone. rewrite Hnone in Hlines.
    by apply Forall2_nil_inv_l in Hlines as ->.
  - intros Hsome. exists lines. split; [exact Hlines|].
    assert (lines <> []) as Hne.
    { intros ->. by apply Forall2_nil_inv_r in Hlines. }
    destruct lines as [|line lines]; [done|]. cbn [fst snd store files].
    split; [done|]. split; [done|].
    rewrite (Forall2_length _ _ _ Hlines).
    apply count_newlines_concat.
    eapply Forall2_Forall_r; [exact Hlines|].
    apply Forall_forall. intros o _ l (_ & c & b & _ & _ & _ & Hl).
    by eapply convert_bndbox_one_line.
Qed.

(** The cat, the bird and the dog: two lines *)
Lemma C5_one_line_per_recognized_object_witness :
  let w := Sample.world [("data/f.xml", XmlFile Sample.cat_bird_dog_doc)]
             Sample.no_random in
  exists lines,
    fst (convert Sample.cat_dog "data/f.xml" w) = Ok true /\
    files (snd (convert Sample.cat_dog "data/f.xml" w)) =
      <["data/f.txt" := DataFile (String.concat "" lines)]> (files w) /\
    count_newlines (String.concat "" lines) = 2%nat.
Proof.
  cbn zeta.
  edestruct (C5_one_line_per_recognized_object Sample.cat_dog "data/f.xml" "data/f"
               Sample.cat_bird_dog_doc 100 100
               (Sample.world [("data/f.xml", XmlFile Sample.cat_bird_dog_doc)]
                  Sample.no_random))
    as [_ H].
  - reflexivity.
  - reflexivity.
  - split; [reflexivity|]. split; [eexists; repeat split; reflexivity|].
    split; [done|]. split; [done|].
    repeat constructor.
    + exists (Some "cat"). split; [reflexivity|]. intros _.
      exists Sample.cat_box. split; [reflexivity|].
      exists 10, 50, 20, 60. by repeat split.
    + exists (Some "bird"). split; [reflexivity|]. by intros [c Hc].
    + exists (Some "dog"). split; [reflexivity|]. intros _.
      exists Sample.dog_box. split; [reflexivity|].
      exists 1, 100, 1, 51. by repeat split.
  - destruct H as (lines & _ & H1 & H2 & H3); [discriminate|].
    exists lines. by repeat split.
Defined.



(** C7, as the code has it. An annotation file with a [size] block whose
    depth field does not read as 3, or with more than one [size] block, or with a
    coordinate that is not positive in a bounding box of an object whose
    class name is in the class map, makes [convert] raise an exception; no
    handler catches it, so [split] ends with it when the file is in its
    listing and has its image. *)
Theorem C7_malformed_annotation_is_fatal
    (iglob : gmap string File -> string -> list string)
    (self : TrainingData) (xml : string) (root : Element) (w : World) :
  files w !! xml = Some (XmlFile root) ->
  (exists size, In size (iter "size" root) /\ int_field size "depth" <> Ok 3) \/
  (2 <= List.length (iter "size" root))%nat \/
  (exists obj name class_id bndbox field v,
     In obj (iter "object" root) /\ object_name obj = Ok name /\
     class_of (td_classes self) name = Some class_id /\
     In bndbox (iter "bndbox" obj) /\
     In field ["xmin"; "xmax"; "ymin"; "ymax"] /\
     int_field bndbox field = Ok v /\ v <= 0) ->
  raises (fst (convert (td_classes self) xml w)) /\
  (In xml (annotation_files iglob self w) -> paired w xml = true ->
   raises (fst (split iglob self w))).
Proof.
  intros Hfile Hbad.
  assert (raises (fst (convert (td_classes self) xml w))) as Hraise.
  { destruct Hbad as [(size & Hin & Hne)|[Htwo|Hbox]].
    - eapply convert_raises_size; [exact Hfile|].
      eapply for_each_raises; [exact Hin|].
      intros st. by eapply convert_size_depth.
    - eapply convert_raises_size; [exact Hfile|].
      destruct (iter "size" root) as [|s1 [|s2 rest]]; cbn in Htwo; try lia.
      apply convert_size_again.
    - destruct Hbox as (obj & name & c & b & f & v & Ho & Hn & Hc & Hb & Hf & Hv & Hle).
      eapply convert_raises_objects; [exact Hfile|].
      intros W H d w'. eapply for_each_M_raises; [exact Ho|].
      intros d' w''. eapply convert_object_raises; [exact Hn|exact Hc|exact Hb|].
      intros W' H'. by eapply convert_bndbox_not_positive. }
  split; [exact Hraise|]. intros Hin Hpaired. by eapply split_raises.
Qed.

(** A depth of 1 *)
Lemma C7_malformed_annotation_is_fatal_witness :
  let doc := Sample.annotation (Sample.size "100" "100" "1")
               [Sample.object "cat" Sample.cat_box] in
  raises (fst (convert Sample.cat_dog "out/data/a.xml"
                 (Sample.world [("out/data/a.xml", XmlFile doc)] Sample.no_random))).
Proof.
  cbn zeta.
  refine (proj1 (C7_malformed_annotation_is_fatal Sample.flat_listing Sample.trainer
                   "out/data/a.xml"
                   (Sample.annotation (Sample.size "100" "100" "1")
                      [Sample.object "cat" Sample.cat_box])
                   (Sample.world
                      [("out/data/a.xml",
                        XmlFile (Sample.annotation (Sample.size "100" "100" "1")
                                   [Sample.object "cat" Sample.cat_box]))]
                      Sample.no_random)
                   eq_refl _)).
  left. exists (Sample.size "100" "100" "1").
  split.
  - cbn. tauto.
  - discriminate.
Defined.

(** C7, as stated, fails: a bounding box with [xmin = 0] in an object whose
    class name is not in the class map is never read; [convert] returns
    [False] and [split] runs to its end. *)
Lemma C7_skipped_box_counterexample :
  let w := Sample.world [("out/data/c.xml", XmlFile Sample.bird_doc);
                         ("out/data/c.jpg", Sample.jpg)] Sample.no_random in
  In Sample.edge_box (flat_map (iter "bndbox") (iter "object" Sample.bird_doc)) /\
  int_field Sample.edge_box "xmin" = Ok 0 /\
  fst (convert Sample.cat_dog "out/data/c.xml" w) = Ok false /\
  ~ raises (fst (convert Sample.cat_dog "out/data/c.xml" w)) /\
  ~ raises (fst (split (fun _ _ => ["out/data/c.xml"]) Sample.trainer w)).
Proof.
  cbn zeta. split; [|split; [|split; [|split]]].
  - cbn. tauto.
  - reflexivity.
  - by vm_compute.
  - by vm_compute.
  - by vm_compute.
Qed.

(** C8, as the code has it. The files [frame23.xml] and [frame23.jpg], with
  a frame id of 2 digits, are not accepted by the Flattener: the window
  [me23] is padded to [0e23], which is no digit string, so [sanitize_id]
  raises an assertion error and the loop over the directory stops without
  copying the pair. *)
Theorem C8_two_digit_frame_id_rejected (dir d : string) :
String.length d = 2%nat -> isdigit d = true ->
sanitize_id (dir +:+ "frame" +:+ d +:+ ".xml") = Raise AssertionError /\
forall (self : ImageData) (head : string) (count : Z) (xml : string)
       (rest : list string) (w : World),
  Path.basename xml = "frame" +:+ d +:+ ".xml" ->
  paired w xml = true ->
  for_each_M (sanitize_xml self head) count (xml :: rest) w =
  (Raise AssertionError, w).
Proof.
intros Hl Hd.
assert (forall pre, sanitize_id (pre +:+ "frame" +:+ d +:+ ".xml")
                    = Raise AssertionError) as Hid.
{ intros pre.
  change (pre +:+ "frame" +:+ d +:+ ".xml")
    with (pre +:+ "fra" +:+ (String "m" (String "e" d)) +:+ ".xml").
  rewrite <- app_assoc. apply sanitize_id_padded_not_digits.
  - cbn [String.length]. by rewrite Hl.
  - reflexivity. }
split; [apply Hid|]. intros self head count xml rest w Hname Hpaired.
apply sanitize_xml_raises; [done|]. rewrite Hname. apply (Hid "").
Qed.

(** [movie1/frame23.xml] *)
Lemma C8_two_digit_frame_id_rejected_witness :
sanitize_id "movie1/frame23.xml" = Raise AssertionError.
Proof.
exact (proj1 (C8_two_digit_frame_id_rejected "movie1/" "23" eq_refl eq_refl)).
Defined.

(** C8, as stated, fails: [frame23.xml] is not canonicalized to [0023]. *)
Lemma C8_frame23_counterexample :
sanitize_id "frame23.xml" <> Ok "0023" /\
sanitize_id "frame23.xml" = Raise AssertionError.
Proof. split; [discriminate|reflexivity]. Qed.

(** C9. When the 4 characters before [.xml] are not all digits after the
  first of them is replaced by [0], [sanitize_id] raises an assertion
  error, and the loop of the Flattener over the files of a directory stops
  at that file without copying it. *)
Theorem C9_unreadable_frame_id_is_fatal (name_head t : string) :
String.length t = 4%nat ->
isdigit ("0" +:+ drop 1 t) = false ->
sanitize_id (name_head +:+ t +:+ ".xml") = Raise AssertionError /\
forall (self : ImageData) (head : string) (count : Z) (xml : string)
       (rest : list string) (w : World),
  Path.basename xml = name_head +:+ t +:+ ".xml" ->
  paired w xml = true ->
  for_each_M (sanitize_xml self head) count (xml :: rest) w =
  (Raise AssertionError, w).
Proof.
intros Hl Hpad.
pose proof (sanitize_id_padded_not_digits name_head t Hl Hpad) as Hid.
split; [done|]. intros self head count xml rest w Hname Hpaired.
apply sanitize_xml_raises; [done|]. by rewrite Hname.
Qed.

(** [frame0a2b.xml] *)
Lemma C9_unreadable_frame_id_is_fatal_witness :
sanitize_id "frame0a2b.xml" = Raise AssertionError.
Proof.
exact (proj1 (C9_unreadable_frame_id_is_fatal "frame" "0a2b" eq_refl eq_refl)).
Defined.

(** C10. For every annotation file name whose stem ends in 4 or more
  digits, [sanitize_id] succeeds and returns the last 4 of them; the
  digits before are dropped. *)
Theorem C10_sanitize_id_keeps_last_four (head digits : string) :
isdigit digits = true -> (4 <= String.length digits)%nat ->
sanitize_id (head +:+ digits +:+ ".xml") = Ok (last_chars 4 digits).
Proof.
intros Hd Hl. destruct (last4 digits Hl) as [a Ha].
rewrite Ha at 1. rewrite app_assoc, <- (app_assoc head).
apply sanitize_id_digits4.
- by apply length_last_chars.
- assert (all isdigit_char (last_chars 4 digits) = true) as Hall.
  { unfold last_chars. by apply all_drop, isdigit_all. }
  pose proof (length_last_chars 4 digits Hl) as H4.
  by destruct (last_chars 4 digits).
Qed.

(** [frame12345.xml] *)
Lemma C10_sanitize_id_keeps_last_four_witness :
sanitize_id "frame12345.xml" = Ok "2345".
Proof.
apply (C10_sanitize_id_keeps_last_four "frame" "12345");
  [reflexivity|cbn; lia].
Defined.

End Claims.

(** * Further properties *)

(** ** The Flattener: names *)

Section FlattenerNames.
Import Str StrFacts.

Let not_m (c : ascii) : bool := negb (Ascii.eqb c "m").

Lemma last_chars_short (n : nat) (s : string) :
  (String.length s <= n)%nat -> last_chars n s = s.
Proof.
  intros H. unfold last_chars.
  by replace (String.length s - n)%nat with O by lia.
Qed.

Lemma prefix_app (s rest : string) : String.prefix s (s +:+ rest) = true.
Proof.
  induction s as [|c s IH]; [by destruct rest|]. rewrite app_cons. simpl.
  by destruct (ascii_dec c c).
Qed.

Lemma split_0_movie (a rest : string) :
  all not_m a = true -> split_0 "movie" (a +:+ "movie" +:+ rest) = a.
Proof.
  induction a as [|c a IH]; intros H.
  - change ("" +:+ "movie" +:+ rest) with ("movie" +:+ rest).
    pose proof (prefix_app "movie" rest) as P.
    rewrite app_cons in *. unfold split_0; fold split_0. by rewrite P.
  - simpl in H. apply andb_true_iff in H as [Hc Ha].
    rewrite app_cons. unfold split_0; fold split_0. unfold String.prefix.
    destruct (ascii_dec "m" c) as [<-|_]; [discriminate Hc|].
    by rewrite (IH Ha).
Qed.

Lemma split_0_no_movie (a : string) :
  all not_m a = true -> split_0 "movie" a = a.
Proof.
  induction a as [|c a IH]; intros H; [done|].
  simpl in H. apply andb_true_iff in H as [Hc Ha].
  unfold split_0; fold split_0. unfold String.prefix.
  destruct (ascii_dec "m" c) as [<-|_]; [discriminate Hc|].
  by rewrite (IH Ha).
Qed.

Lemma after_prefix (sep rest : string) :
  sep <> "" -> after sep (sep +:+ rest) = Some rest.
Proof.
  intros Hsep. pose proof (prefix_app sep rest) as P.
  pose proof (drop_length_app sep rest) as D.
  destruct sep as [|c sep]; [done|]. rewrite app_cons in *.
  unfold after; fold after. by rewrite P, D.
Qed.

Lemma digit_not_m (c : ascii) : isdigit_char c = true -> not_m c = true.
Proof.
  intros H. apply negb_true_iff, Ascii.eqb_neq. intros ->. discriminate H.
Qed.

(** X1. The padding of [sanitize_id] puts the 0 in the place of the
    character before the digits: a file name of one to three digits and
    .xml, with nothing before the digits, is rejected, whereas three
    digits after any one character that is no digit, a dot or a dash as
    well as a letter, are accepted and padded. *)
Theorem X1_sanitize_id_padding_replaces (d : string) :
  isdigit d = true -> (String.length d < 4)%nat ->
  sanitize_id (d +:+ ".xml") = Raise AssertionError /\
  forall pre c, isdigit_char c = false -> String.length d = 3%nat ->
    sanitize_id (pre +:+ String c d +:+ ".xml") = Ok ("0" +:+ d).
Proof.
  intros Hd Hl. split.
  - rewrite sanitize_id_eq, last_chars_short.
    2:{ rewrite length_app. cbn [String.length]. lia. }
    rewrite split_0_digits_xml by by apply isdigit_all.
    cbv zeta. rewrite Hd, Hd. cbn [andb].
    by destruct (Nat.eqb_spec (String.length d) 4); [lia|].
  - intros pre c Hc Hl3. destruct (ascii_dec c ".") as [->|Hdot].
    2:{ by apply (sanitize_id_digits3 pre c d). }
    rewrite sanitize_id_eq, last_chars_8.
    2:{ rewrite app_cons. cbn [String.length]. rewrite length_app.
        cbn [String.length]. lia. }
    destruct d as [|a d]; [done|].
    rewrite isdigit_cons in Hd. apply andb_true_iff in Hd as [Ha Hd'].
    assert (split_0 ".xml" (String "." (String a d) +:+ ".xml") =
            String "." (String a d)) as ->.
    { rewrite !app_cons. unfold split_0; fold split_0. unfold String.prefix.
      destruct (ascii_dec "." ".") as [_|?]; [|done].
      destruct (ascii_dec "x" a) as [<-|_]; [discriminate Ha|].
      destruct (ascii_dec "." a) as [<-|_]; [discriminate Ha|].
      by rewrite split_0_digits_xml. }
    cbv zeta. rewrite isdigit_cons. cbn [isdigit_char N_of_ascii andb drop].
    change (isdigit_char ".") with false. cbn [andb].
    change ("0" +:+ String a d) with (String "0" (String a d)).
    rewrite isdigit_cons. cbn [all]. rewrite Ha, Hd'. cbn [String.length] in *.
    by rewrite Hl3.
Qed.

(** [023.xml] and [movie1/-023.xml] *)
Lemma X1_sanitize_id_padding_replaces_witness :
  sanitize_id "023.xml" = Raise AssertionError /\
  sanitize_id "movie1/-023.xml" = Ok "0023".
Proof.
  destruct (X1_sanitize_id_padding_replaces "023" eq_refl) as [A B].
  - cbn. lia.
  - split; [exact A|]. exact (B "movie1/" "-"%char eq_refl eq_refl).
Defined.

(** X2. The session id of a directory named movie<digits> is <digits>,
    the empty string for a directory named movie; of a name in which
    movie occurs again only the digits up to there are kept, so that
    movie1 and movie1movie2 share the session id 1. *)
Theorem X2_session_id_of_directory (digits rest : string) :
  all isdigit_char digits = true ->
  split_1 "movie" ("movie" +:+ digits) = Ok digits /\
  split_1 "movie" ("movie" +:+ digits +:+ "movie" +:+ rest) = Ok digits.
Proof.
  intros H. apply (all_impl _ not_m) in H; [|apply digit_not_m].
  unfold split_1. rewrite !after_prefix by done.
  by rewrite split_0_movie, split_0_no_movie.
Qed.

(** [movie12] and [movie12movie3] *)
Lemma X2_session_id_of_directory_witness :
  split_1 "movie" "movie12" = Ok "12" /\
  split_1 "movie" "movie12movie3" = Ok "12".
Proof. exact (X2_session_id_of_directory "12" "3" eq_refl). Defined.

(** X3. Two annotation files get the same canonical name only when the
    session ids and the canonical frame ids are the same: for one header,
    the name <header><session id>_frame<frame id>.xml determines both. *)
Theorem X3_canonical_name_is_injective
    (header m1 m2 xml1 xml2 id1 id2 : string) :
  sanitize_id xml1 = Ok id1 -> sanitize_id xml2 = Ok id2 ->
  (header +:+ m1 +:+ "_" +:+ "frame") +:+ id1 +:+ ".xml" =
  (header +:+ m2 +:+ "_" +:+ "frame") +:+ id2 +:+ ".xml" ->
  m1 = m2 /\ id1 = id2.
Proof.
  intros [_ L1]%sanitize_id_ok [_ L2]%sanitize_id_ok E.
  rewrite !app_assoc in E. apply String.app_inj in E.
  assert (String.length m1 = String.length m2) as L.
  { apply (f_equal String.length) in E. rewrite !length_app in E. lia. }
  pose proof (app_inv_length _ _ _ _ E L) as ->.
  do 3 apply String.app_inj in E.
  split; [done|]. apply (app_inv_length _ _ _ _ E). by rewrite L1, L2.
Qed.

(** [frame023.xml] and [frame0023.xml] of one session *)
Lemma X3_canonical_name_is_injective_witness : "1" = "1" /\ "0023" = "0023".
Proof.
  exact (X3_canonical_name_is_injective "sample" "1" "1" "frame023.xml"
           "frame0023.xml" "0023" "0023" eq_refl eq_refl eq_refl).
Defined.

End FlattenerNames.

(** ** The Flattener: one annotation file *)

Section FlattenerStep.
Import Str StrFacts.

Lemma path_exists_eq (path : string) (w : World) :
  path_exists path w = (Ok (bool_decide (is_Some (files w !! path))), w).
Proof. done. Qed.

Lemma copyfile_ok (src dst : string) (f : File) (w : World) :
  src <> dst -> files w !! src = Some f ->
  copyfile src dst w = (Ok tt, store w dst f).
Proof.
  intros Hne Hsrc. unfold copyfile.
  destruct (String.eqb_spec src dst) as [E|_]; [done|]. by rewrite Hsrc.
Qed.

Lemma warn_eq {B : Type} (b : bool) (line : string) (k : unit -> M B)
    (w : World) :
  bind (if b then print line else ret tt) k w =
  k tt (log w (if b then [line] else [])).
Proof. destruct b; [done|]. by rewrite log_nil. Qed.

Lemma jpg_not_xml (a b : string) : a +:+ ".jpg" <> b +:+ ".xml".
Proof. by apply suffix_neq. Qed.

(** X4. For an annotation file that has its image and a readable frame
    id, one pass of the loop of [sanitize] copies the annotation and the
    image, contents unchanged, to <head><id>.xml and <head><id>.jpg in the
    output directory, replacing what is there, and adds one to the count;
    the existence check only adds messages. *)
Theorem X4_sanitize_xml_copies_the_pair (self : ImageData) (head : string)
    (n : Z) (xml xml_id : string) (fx fj : File) (w : World) :
  let dst_html := Path.join (id_output_dir self) (head +:+ xml_id +:+ ".xml") in
  let dst_jpg := Path.join (id_output_dir self) (head +:+ xml_id +:+ ".jpg") in
  files w !! xml = Some fx ->
  files w !! jpg_path_of xml = Some fj ->
  sanitize_id (Path.basename xml) = Ok xml_id ->
  xml <> dst_html -> jpg_path_of xml <> dst_jpg ->
  let r := sanitize_xml self head n xml w in
  fst r = Ok (n + 1) /\
  files (snd r) = <[dst_jpg := fj]> (<[dst_html := fx]> (files w)) /\
  (existence_check_when_copying self = false -> stdout (snd r) = stdout w).
Proof.
  intros dst_html dst_jpg Hxml Hjpg Hid Hne_xml Hne_jpg.
  assert (jpg_path_of xml <> dst_html) as Hne.
  { unfold dst_html. destruct (join_suffix (id_output_dir self)
      (head +:+ xml_id +:+ ".xml")) as [pre ->].
    unfold jpg_path_of. rewrite <- !app_assoc. apply jpg_not_xml. }
  unfold sanitize_xml. fold (jpg_path_of xml). fold dst_html dst_jpg.
  rewrite bind_eq, path_exists_eq, Hjpg.
  rewrite bool_decide_eq_true_2 by eauto. cbn [negb].
  rewrite Hid, bind_lift_ok, bind_eq, path_exists_eq, warn_eq.
  rewrite bind_eq, path_exists_eq, warn_eq.
  rewrite bind_eq, (copyfile_ok xml dst_html fx) by done.
  rewrite bind_eq, (copyfile_ok (jpg_path_of xml) dst_jpg fj); [|done|].
  2: { cbn. by rewrite lookup_insert_ne. }
  cbn. split; [done|]. split; [done|]. intros ->. cbn.
  by rewrite !List.app_nil_r.
Qed.

(** [movie1/frame001.xml] with its image, the existence check switched on *)
Lemma X4_sanitize_xml_copies_the_pair_witness :
  let w := Sample.world Sample.source_files Sample.no_random in
  let r := sanitize_xml Corner.flattener "sample1_frame" 0
             "/w/source/movie1/frame001.xml" w in
  fst r = Ok 1 /\
  files (snd r) !! "/w/destination/data/sample1_frame0001.xml" =
    Some (XmlFile Sample.cat_doc) /\
  files (snd r) !! "/w/destination/data/sample1_frame0001.jpg" =
    Some Sample.jpg /\
  files (snd r) !! "/w/source/movie1/frame001.xml" =
    Some (XmlFile Sample.cat_doc).
Proof.
  cbn zeta.
  destruct (X4_sanitize_xml_copies_the_pair Corner.flattener "sample1_frame" 0
              "/w/source/movie1/frame001.xml" "0001"
              (XmlFile Sample.cat_doc) Sample.jpg
              (Sample.world Sample.source_files Sample.no_random))
    as (A & B & _); try discriminate; try reflexivity.
  split; [exact A|]. rewrite B. by vm_compute.
Defined.

End FlattenerStep.

(** ** The Flattener: what a run writes *)

Section FlattenerFootprint.
Import Str StrFacts.

Variable self : ImageData.

Let keeps {A : Type} (m : M A) : Prop :=
  forall w, flattened_into self (files w) (files (snd (m w))).

Lemma flattened_into_refl (fs : gmap string File) : flattened_into self fs fs.
Proof. by split. Qed.

Lemma flattened_into_trans (fs1 fs2 fs3 : gmap string File) :
  flattened_into self fs1 fs2 -> flattened_into self fs2 fs3 ->
  flattened_into self fs1 fs3.
Proof.
  intros [A1 B1] [A2 B2]. split.
  - intros p Hp. by rewrite A2, A1.
  - intros p Hp. by apply B2, B1.
Qed.

Lemma flattened_into_insert (fs : gmap string File) (path : string) (f : File) :
  proper_path self path -> flattened_into self fs (<[path := f]> fs).
Proof.
  intros Hpath. split.
  - intros p Hp. rewrite lookup_insert_ne; [done|]. by intros <-.
  - intros p Hp. destruct (decide (path = p)) as [<-|N].
    + by rewrite lookup_insert_eq.
    + by rewrite lookup_insert_ne.
Qed.

Lemma keeps_ret {A : Type} (a : A) : keeps (ret a).
Proof. intros w. apply flattened_into_refl. Qed.

Lemma keeps_print (line : string) : keeps (print line).
Proof. intros w. apply flattened_into_refl. Qed.

Lemma keeps_path_exists (path : string) : keeps (path_exists path).
Proof. intros w. apply flattened_into_refl. Qed.

Lemma keeps_copyfile (src dst : string) :
  proper_path self dst -> keeps (copyfile src dst).
Proof.
  intros Hdst w. unfold copyfile.
  destruct (src =? dst)%string; [apply flattened_into_refl|].
  destruct (files w !! src); [|apply flattened_into_refl].
  by apply flattened_into_insert.
Qed.

Lemma keeps_bind {A B : Type} (m : M A) (k : A -> M B) :
  keeps m -> (forall a, keeps (k a)) -> keeps (bind m k).
Proof.
  intros Hm Hk w. rewrite bind_eq. specialize (Hm w).
  destruct (m w) as [[a|e] w1]; [|done].
  eapply flattened_into_trans; [exact Hm|apply Hk].
Qed.

Lemma keeps_bind_lift {A B : Type} (r : result A) (k : A -> M B) :
  (forall a, r = Ok a -> keeps (k a)) -> keeps (bind (lift r) k).
Proof.
  intros Hk w. destruct r as [a|e].
  - rewrite bind_lift_ok. by apply Hk.
  - rewrite bind_lift_raise. apply flattened_into_refl.
Qed.

Lemma keeps_for_each_M {S A : Type} (body : S -> A -> M S) (l : list A) :
  (forall s x, keeps (body s x)) -> forall s, keeps (for_each_M body s l).
Proof.
  intros Hbody. induction l as [|x l IH]; intros s.
  - apply keeps_ret.
  - cbn [for_each_M]. apply keeps_bind; [apply Hbody|apply IH].
Qed.

Lemma keeps_sanitize_xml (movie_dir_id : string) (count : Z) (xml : string) :
  keeps (sanitize_xml self
           (id_file_header self +:+ movie_dir_id +:+ "_" +:+ "frame") count xml).
Proof.
  unfold sanitize_xml.
  apply keeps_bind; [apply keeps_path_exists|]. intros jpg_exists.
  destruct jpg_exists; cbn [negb].
  2: { apply keeps_bind; [apply keeps_print|intros; apply keeps_ret]. }
  apply keeps_bind_lift. intros xml_id [Hdigits Hlen]%sanitize_id_ok.
  apply keeps_bind; [apply keeps_path_exists|]. intros xml_there.
  apply keeps_bind.
  { destruct (existence_check_when_copying self && xml_there);
      [apply keeps_print|apply keeps_ret]. }
  intros _. apply keeps_bind; [apply keeps_path_exists|]. intros jpg_there.
  apply keeps_bind.
  { destruct (existence_check_when_copying self && jpg_there);
      [apply keeps_print|apply keeps_ret]. }
  intros _. apply keeps_bind.
  { apply keeps_copyfile. exists movie_dir_id, xml_id, ".xml". eauto. }
  intros _. apply keeps_bind; [|intros; apply keeps_ret].
  apply keeps_copyfile. exists movie_dir_id, xml_id, ".jpg". eauto.
Qed.

(** X5. Whatever the directory listing is and however the run ends, with
    a count or with an exception, [sanitize] changes no path but those of
    the form <output_dir>/<header><id>_frame<4 digits>.xml or .jpg, and it
    removes no file: source files under other names keep their contents. *)
Theorem X5_sanitize_writes_canonical_names_only
    (iglob : gmap string File -> string -> list string) (w : World) :
  flattened_into self (files w) (files (snd (sanitize iglob self w))).
Proof.
  unfold sanitize.
  generalize (iglob (files w) (Path.join (id_input_dir self) "movie*")).
  intros dirs. revert w. apply keeps_for_each_M. intros count movie_dir.
  apply keeps_bind_lift. intros movie_dir_id _ w.
  apply keeps_for_each_M. intros n xml. apply keeps_sanitize_xml.
Qed.

End FlattenerFootprint.

Section FlattenerRun.
Import Str StrFacts.





Lemma log_files (w : World) (l : list string) : files (log w l) = files w.
Proof. done. Qed.

Lemma sanitize_xml_unpaired (self : ImageData) (head : string) (n : Z)
    (xmls : list string) (w : World) :
  Forall (fun xml => paired w xml = false) xmls ->
  for_each_M (sanitize_xml self head) n xmls w =
  (Ok n, log w (map jpg_missing_message xmls)).
Proof.
  revert w. induction xmls as [|xml xmls IH]; intros w Hall.
  - cbn. by rewrite log_nil.
  - inversion Hall as [|? ? Hxml Hrest]; subst.
    cbn [for_each_M]. rewrite bind_eq. unfold sanitize_xml at 1.
    rewrite bind_eq. unfold path_exists at 1. fold (jpg_path_of xml).
    fold (paired w xml). rewrite Hxml. cbn [negb]. rewrite bind_eq.
    unfold print at 1. unfold ret at 1. rewrite IH by done.
    by rewrite log_log.
Qed.

(** X7. When none of the annotation files that are listed has its image,
    in particular when there is no session directory or no annotation
    file, [sanitize] copies nothing and returns the count 0: it prints one
    message for each annotation file, in the order of the listing, and does
    not look at the frame ids, so unreadable file names do not stop it. *)
Theorem X7_sanitize_without_images
    (iglob : gmap string File -> string -> list string) (self : ImageData)
    (w : World) :
  let dirs := iglob (files w) (Path.join (id_input_dir self) "movie*") in
  let xmls_of dir := iglob (files w) (Path.join dir "*.xml") in
  Forall (fun dir => exists movie_dir_id,
            Str.split_1 "movie" (Path.basename dir) = Ok movie_dir_id) dirs ->
  Forall (fun dir => Forall (fun xml => paired w xml = false) (xmls_of dir)) dirs ->
  sanitize iglob self w =
  (Ok 0, log w (map jpg_missing_message (flat_map xmls_of dirs))).
Proof.
  intros dirs xmls_of. unfold sanitize. fold dirs. clearbody dirs.
  intros Hnames Hxmls.
  assert (forall msgs,
    for_each_M
      (fun copied_pairs_count movie_dir =>
         bind (lift (Str.split_1 "movie" (Path.basename movie_dir)))
           (fun movie_dir_id w' =>
              for_each_M
                (sanitize_xml self
                   (id_file_header self +:+ movie_dir_id +:+ "_" +:+ "frame"))
                copied_pairs_count
                (iglob (files w') (Path.join movie_dir "*.xml")) w'))
      0 dirs (log w msgs) =
    (Ok 0, log w (msgs ++ map jpg_missing_message (flat_map xmls_of dirs))))
    as Hloop.
  { induction dirs as [|dir dirs IH]; intros msgs.
    - cbn. by rewrite List.app_nil_r.
    - inversion Hnames as [|? ? [id Hid] Hnames']; subst.
      inversion Hxmls as [|? ? Hdir Hxmls']; subst.
      cbn [for_each_M]. rewrite bind_eq, Hid, bind_lift_ok, log_files.
      fold (xmls_of dir). rewrite sanitize_xml_unpaired.
      + rewrite log_log, IH by done. cbn [flat_map].
        by rewrite List.map_app, List.app_assoc.
      + eapply Forall_impl; [exact Hdir|]. by intros xml Hxml. }
  specialize (Hloop []). by rewrite log_nil in Hloop.
Qed.

(** A session directory whose only annotation file has no image *)
Lemma X7_sanitize_without_images_witness :
  let w := Sample.world Corner.lonely_files Sample.no_random in
  sanitize Sample.source_listing Corner.flattener w =
  (Ok 0, log w ["***** JPG is missing: /w/source/movie1/frame001.jpg"]).
Proof.
  cbn zeta.
  apply (X7_sanitize_without_images Sample.source_listing Corner.flattener
           (Sample.world Corner.lonely_files Sample.no_random)).
  - repeat constructor. by exists "1".
  - repeat constructor.
Defined.

End FlattenerRun.

(** ** The Annotation Converter: checks *)

Section ConverterChecks.
Import Str StrFacts.

(** X8. [convert] looks at the path before it opens the file: a path
    that does not end in .xml is refused with an AssertionError, whether
    the file exists or not; so is a file whose root element is not
    annotation. In both cases nothing is printed or written. *)
Theorem X8_convert_checks_path_and_root (classes : gmap string Z)
    (xml stem ext : string) (w : World) :
  Path.splitext xml = (stem, ext) ->
  (ext <> ".xml" -> convert classes xml w = (Raise AssertionError, w)) /\
  (forall root,
     ext = ".xml" -> files w !! xml = Some (XmlFile root) ->
     tag root <> "annotation" ->
     convert classes xml w = (Raise AssertionError, w)).
Proof.
  intros Hext. unfold convert. rewrite Hext. split.
  - intros Hne. by destruct (String.eqb_spec ext ".xml").
  - intros root -> Hfile Htag.
    cbn [String.eqb Ascii.eqb Bool.eqb assert]. rewrite bind_lift_ok.
    replace (stem =? "")%string with false.
    2:{ symmetry. apply String.eqb_neq. by eapply splitext_stem. }
    cbn [negb assert]. rewrite bind_lift_ok.
    rewrite bind_eq. unfold ET_parse at 1. rewrite Hfile.
    by destruct (String.eqb_spec (tag root) "annotation").
Qed.

(** A text file that is not there, and a size element as a document *)
Lemma X8_convert_checks_path_and_root_witness :
  let w := Sample.world [("data/s.xml", XmlFile (Sample.size "1" "1" "3"))]
             Sample.no_random in
  convert Sample.cat_dog "data/a.txt" w = (Raise AssertionError, w) /\
  convert Sample.cat_dog "data/s.xml" w = (Raise AssertionError, w).
Proof.
  cbn zeta. split.
  - apply (proj1 (X8_convert_checks_path_and_root Sample.cat_dog "data/a.txt"
                    "data/a" ".txt" _ eq_refl)).
    discriminate.
  - apply (proj2 (X8_convert_checks_path_and_root Sample.cat_dog "data/s.xml"
                    "data/s" ".xml" _ eq_refl) (Sample.size "1" "1" "3"));
      [reflexivity|reflexivity|discriminate].
Defined.

(** X9. The image dimensions: an annotation without a size block is
    refused with a TypeError, because the width is still None when it is
    compared with 0; a width or a height that is not positive is refused
    with an AssertionError. Nothing is printed or written, and the objects
    are not read. *)
Theorem X9_convert_checks_dimensions (classes : gmap string Z)
    (xml stem : string) (root : Element) (w : World) :
  Path.splitext xml = (stem, ".xml") ->
  files w !! xml = Some (XmlFile root) ->
  tag root = "annotation" ->
  (iter "size" root = [] -> convert classes xml w = (Raise TypeError, w)) /\
  (forall W H, size_of root W H -> W <= 0 \/ H <= 0 ->
               convert classes xml w = (Raise AssertionError, w)).
Proof.
  intros Hext Hfile Htag.
  split; [intros Hnone|intros W H Hsize Hneg].
  all: unfold convert; rewrite Hext;
    cbn [String.eqb Ascii.eqb Bool.eqb assert]; rewrite bind_lift_ok;
    replace (stem =? "")%string with false
      by (symmetry; apply String.eqb_neq; by eapply splitext_stem);
    cbn [negb assert]; rewrite bind_lift_ok, bind_eq; unfold ET_parse at 1;
    rewrite Hfile, Htag; cbn [String.eqb Ascii.eqb Bool.eqb assert];
    rewrite bind_lift_ok.
  - rewrite Hnone. cbn [for_each]. by rewrite bind_lift_ok.
  - rewrite (convert_size_of _ _ _ Hsize), bind_lift_ok.
    cbn [fst snd assert_positive].
    destruct (Z.ltb_spec 0 W) as [HW|HW]; [|done].
    cbn [assert rbind]. rewrite bind_lift_ok.
    destruct (Z.ltb_spec 0 H) as [HH|HH]; [lia|done].
Qed.

(** A cat without a size block, and a cat in an image of height 0 *)
Lemma X9_convert_checks_dimensions_witness :
  convert Sample.cat_dog "data/n.xml" Corner.odd_world =
    (Raise TypeError, Corner.odd_world) /\
  convert Sample.cat_dog "data/f.xml" Corner.odd_world =
    (Raise AssertionError, Corner.odd_world).
Proof.
  split.
  - apply (proj1 (X9_convert_checks_dimensions Sample.cat_dog "data/n.xml"
                    "data/n" Corner.no_size_doc Corner.odd_world
                    eq_refl eq_refl eq_refl)).
    reflexivity.
  - apply (proj2 (X9_convert_checks_dimensions Sample.cat_dog "data/f.xml"
                    "data/f" Corner.flat_doc Corner.odd_world
                    eq_refl eq_refl eq_refl) 100 0).
    + eexists. repeat split; reflexivity.
    + right. lia.
Defined.

End ConverterChecks.

(** ** The Annotation Converter: the lines *)

Section ConverterBoxes.
Import Str StrFacts.

Variable classes : gmap string Z.
Variable xml : string.

Lemma convert_boxes (c W H : Z) (boxes : list Element) (lines : list string)
    (d : string) :
  Forall2 (fun b line => convert_bndbox c W H b = Ok line) boxes lines ->
  for_each (fun obj_data bndbox =>
              rbind (convert_bndbox c W H bndbox)
                (fun line => Ok (obj_data +:+ line)))
    d boxes = Ok (d +:+ String.concat "" lines).
Proof.
  intros Hlines. revert d.
  induction Hlines as [|b line boxes lines Hline _ IH]; intros d.
  - cbn. by rewrite app_nil_r.
  - cbn [for_each]. rewrite Hline. cbn [rbind]. rewrite IH.
    by rewrite concat_cons, app_assoc.
Qed.

Lemma convert_object_lines (W H : Z) (d : string) (o : Element)
    (lines : list string) (w : World) :
  object_lines classes W H o lines ->
  convert_object classes xml W H d o w = (Ok (d +:+ String.concat "" lines), w).
Proof.
  intros (name & c & Hn & Hc & Hl). unfold convert_object.
  rewrite Hn, bind_lift_ok, Hc. unfold lift.
  by rewrite (convert_boxes _ _ _ _ _ _ Hl).
Qed.

Lemma convert_objects_lines (W H : Z) (objs : list Element)
    (liness : list (list string)) (d : string) (w : World) :
  Forall (fun o => exists name, object_name o = Ok name) objs ->
  Forall2 (object_lines classes W H) (List.filter (recognized classes) objs) liness ->
  for_each_M (convert_object classes xml W H) d objs w =
  (Ok (d +:+ String.concat "" (List.concat liness)),
   log w (wrong_class_messages classes xml objs)).
Proof.
  revert liness d w.
  induction objs as [|o objs IH]; intros liness d w Hnamed Hlines.
  - apply Forall2_nil_inv_l in Hlines as ->.
    cbn. by rewrite app_nil_r, log_nil.
  - apply Forall_cons in Hnamed as [[name Hname] Hnamed].
    cbn [for_each_M List.filter wrong_class_messages flat_map] in *.
    rewrite bind_eq, Hname.
    destruct (recognized classes o) eqn:Hrec.
    + apply Forall2_cons_inv_l in Hlines as (lines & liness' & Hline & Hlines & ->).
      rewrite (convert_object_lines _ _ _ _ _ _ Hline).
      rewrite (IH _ _ _ Hnamed Hlines).
      destruct Hline as (name' & c & Hn & Hc & _).
      assert (name' = name) as -> by congruence. rewrite Hc.
      cbn [List.concat]. by rewrite concat_app, app_assoc.
    + pose proof (recognized_false _ _ _ Hname Hrec) as Hc.
      rewrite (convert_object_skip _ _ _ _ _ _ _ _ Hname Hc), Hc.
      rewrite (IH _ _ _ Hnamed Hlines). by rewrite log_log.
Qed.

Lemma object_lines_count (W H : Z) (objs : list Element)
    (liness : list (list string)) :
  Forall2 (object_lines classes W H) objs liness ->
  List.length (List.concat liness) = List.length (flat_map (iter "bndbox") objs) /\
  Forall (fun line => count_newlines line = 1%nat) (List.concat liness).
Proof.
  induction 1 as [|o lines objs liness (name & c & _ & _ & Hl) _ [IH1 IH2]].
  - by split.
  - cbn [List.concat flat_map]. rewrite !List.length_app, IH1.
    rewrite (Forall2_length _ _ _ Hl). split; [done|].
    apply Forall_app. split; [|done].
    clear -Hl. induction Hl as [|b line bs ls Hb _ IH]; constructor; [|done].
    by eapply convert_bndbox_one_line.
Qed.

Lemma one_line_not_empty (line rest : string) :
  count_newlines line = 1%nat -> line +:+ rest <> "".
Proof. by destruct line. Qed.

End ConverterBoxes.

Section ConverterLines.
Import Str StrFacts.

(** X10. [convert] writes one line for each bounding box, not for each
    object: a recognized object with several boxes gives as many lines,
    all with its class id, and one without a box gives none and no
    message. The file gets the lines of all boxes of the recognized
    objects in document order; when there is none, also when objects were
    recognized, [convert] prints the message and returns False. *)
Theorem X10_convert_one_line_per_box (classes : gmap string Z)
    (xml stem : string) (root : Element) (W H : Z)
    (liness : list (list string)) (w : World) :
  Path.splitext xml = (stem, ".xml") ->
  files w !! xml = Some (XmlFile root) ->
  tag root = "annotation" ->
  size_of root W H -> 0 < W -> 0 < H ->
  Forall (fun o => exists name, object_name o = Ok name) (iter "object" root) ->
  Forall2 (object_lines classes W H) (recognized_objects classes root) liness ->
  let boxes := flat_map (iter "bndbox") (recognized_objects classes root) in
  let data := String.concat "" (List.concat liness) in
  let w' := log w (wrong_class_messages classes xml (iter "object" root)) in
  count_newlines data = List.length boxes /\
  convert classes xml w =
  match boxes with
  | [] => (Ok false, log w' [empty_message xml])
  | _ => (Ok true, store w' (stem +:+ ".txt") (DataFile data))
  end.
Proof.
  intros Hext Hfile Htag Hsize HW HH Hnamed Hlines boxes data w'.
  destruct (object_lines_count _ _ _ _ _ Hlines) as [Hlen Hone].
  split.
  { unfold data. by rewrite count_newlines_concat, Hlen. }
  unfold convert. rewrite Hext. cbn [String.eqb Ascii.eqb Bool.eqb assert].
  rewrite bind_lift_ok.
  replace (stem =? "")%string with false.
  2:{ symmetry. apply String.eqb_neq. by eapply splitext_stem. }
  cbn [negb assert]. rewrite bind_lift_ok.
  rewrite bind_eq. unfold ET_parse at 1. rewrite Hfile, Htag.
  cbn [String.eqb Ascii.eqb Bool.eqb assert]. rewrite bind_lift_ok.
  rewrite (convert_size_of _ _ _ Hsize), bind_lift_ok.
  cbn [fst snd assert_positive].
  apply Z.ltb_lt in HW as ->. apply Z.ltb_lt in HH as ->.
  cbn [assert rbind]. rewrite !bind_lift_ok.
  rewrite bind_eq, (convert_objects_lines _ _ _ _ _ _ _ _ Hnamed Hlines).
  fold data w'. change ("" +:+ data) with data.
  fold boxes in Hlen. unfold data.
  destruct (List.concat liness) as [|line lines]; destruct boxes; try done.
  apply Forall_cons in Hone as [Hline _]. rewrite concat_cons.
  by destruct (String.eqb_spec (line +:+ String.concat "" lines) "")
    as [E%one_line_not_empty|_].
Qed.

(** A cat with two boxes and a dog with none: two lines, both of class 0 *)
Lemma X10_convert_one_line_per_box_witness :
  let w := Sample.world [("data/b.xml", XmlFile Corner.boxes_doc)]
             Sample.no_random in
  convert Sample.cat_dog "data/b.xml" w =
  (Ok true,
   store w "data/b.txt"
     (DataFile (Sample.cat_line +:+ Corner.cat_dog_box_line))).
Proof.
  cbn zeta.
  destruct (X10_convert_one_line_per_box Sample.cat_dog "data/b.xml" "data/b"
              Corner.boxes_doc 100 100
              [[Sample.cat_line; Corner.cat_dog_box_line]; []]
              (Sample.world [("data/b.xml", XmlFile Corner.boxes_doc)]
                 Sample.no_random)) as [_ E];
    [reflexivity|reflexivity|reflexivity| |reflexivity|reflexivity| | |].
  - eexists. repeat split; reflexivity.
  - repeat constructor; eexists; reflexivity.
  - repeat constructor.
    + exists (Some "cat"), 0. split; [reflexivity|]. split; [reflexivity|].
      repeat constructor; by vm_compute.
    + exists (Some "dog"), 1. split; [reflexivity|]. split; [reflexivity|].
      constructor.
  - exact E.
Defined.

End ConverterLines.

Section Fields.
Import Str StrFacts.

Let field (c : ascii) : bool := negb (Ascii.eqb c " ").

Lemma count_char_app (c : ascii) (s t : string) :
  count_char c (s +:+ t) = (count_char c s + count_char c t)%nat.
Proof.
  induction s as [|a s IH]; [done|].
  rewrite app_cons. cbn [count_char]. rewrite IH. lia.
Qed.

Lemma count_char_field (s : string) :
  all field s = true -> count_char " " s = O.
Proof.
  induction s as [|c s IH]; [done|]. cbn [all count_char].
  intros [Hc Hs]%andb_true_iff. rewrite (IH Hs).
  unfold field in Hc. by destruct (Ascii.eqb c " ").
Qed.

Lemma field_uint (d : Decimal.uint) :
  all field (NilEmpty.string_of_uint d) = true.
Proof. induction d; cbn; auto. Qed.

Lemma field_uint0 (d : Decimal.uint) :
  all field (NilZero.string_of_uint d) = true.
Proof. destruct d; try done; apply (field_uint (_ d)). Qed.

Lemma field_str_of_int (z : Z) : all field (Py.str_of_int z) = true.
Proof.
  unfold Py.str_of_int, NilZero.string_of_int.
  destruct (Z.to_int z) as [d|d]; [apply field_uint0|].
  cbn [all]. by rewrite field_uint0.
Qed.

Lemma field_zeros (n : nat) : all field (Py.zeros n) = true.
Proof. induction n as [|n IH]; [done|]. cbn [Py.zeros all]. by rewrite IH. Qed.

Lemma field_digits_of (d : Z) : all field (Py.digits_of d) = true.
Proof. apply field_uint0. Qed.

Lemma field_format_short (digits : string) (decpt : Z) :
  all field digits = true -> all field (Py.format_short digits decpt) = true.
Proof.
  intros Hd. unfold Py.format_short.
  assert (all field
            match digits with
            | String c "" => String c ""
            | String c rest => String c ("." +:+ rest)
            | "" => ""
            end = true) as Hmant.
  { destruct digits as [|c [|c' rest]]; [done|done|].
    change ("." +:+ String c' rest) with (String "." (String c' rest)).
    revert Hd. cbn [all]. rewrite !andb_true_iff. tauto. }
  repeat match goal with
         | |- context [if ?b then _ else _] => destruct b
         end;
    rewrite ?all_app, ?Hmant, ?field_zeros, ?field_digits_of, ?Hd,
      ?(all_take _ _ _ Hd), ?(all_drop _ _ _ Hd); done.
Qed.

Lemma field_str_of_float (f : spec_float) : all field (Py.str_of_float f) = true.
Proof.
  destruct f as [[]|[]| |s m e]; try done.
  unfold Py.str_of_float.
  destruct (Py.shortest _ _ _ _ _ _ _ _) as [d k].
  destruct (Py.strip_zeros _ _ _) as [d' k'].
  rewrite all_app, field_format_short by apply field_digits_of.
  by destruct s.
Qed.

(** X11. Every line that [convert] writes for a bounding box has five
    fields: it holds four spaces, none of them inside the class id or a
    number, and one line end, which is its last character. *)
Theorem X11_line_has_five_fields (c W H : Z) (b : Element) (line : string) :
  convert_bndbox c W H b = Ok line ->
  count_char " " line = 4%nat /\ count_newlines line = 1%nat /\
  exists body, line = body +:+ Py.newline.
Proof.
  intros E. split; [|split].
  - revert E. unfold convert_bndbox. intros E.
    repeat (apply rbind_ok in E as (? & _ & E)).
    injection E as <-.
    rewrite !count_char_app.
    rewrite (count_char_field (Py.str_of_int _)) by apply field_str_of_int.
    by rewrite !(count_char_field (Py.str_of_float _))
      by apply field_str_of_float.
  - by eapply convert_bndbox_one_line.
  - by eapply convert_bndbox_newline.
Qed.

(** The line of the cat *)
Lemma X11_line_has_five_fields_witness :
  count_char " " Sample.cat_line = 4%nat /\
  count_newlines Sample.cat_line = 1%nat /\
  exists body, Sample.cat_line = body +:+ Py.newline.
Proof.
  apply (X11_line_has_five_fields 0 100 100 Sample.cat_box). by vm_compute.
Defined.

End Fields.

Section BoxOrder.

Lemma binary_round_aux_exact (s : bool) (m : positive) (e : Z) :
  Z.pos (digits2_pos m) = 53 -> -1074 <= e <= 971 ->
  binary_round_aux Py.prec Py.emax s (Z.pos m) e loc_Exact =
  S754_finite s m e.
Proof.
  intros Hd He.
  assert (forall x, Zdigits2 x = 53 ->
            shr_fexp Py.prec Py.emax x e loc_Exact =
            (Build_shr_record x false false, e)) as Hshr.
  { intros x Hx. unfold shr_fexp, fexp, emin, Py.prec, Py.emax.
    rewrite Hx.
    replace (Z.max (53 + e - 53) (3 - 1024 - 53) - e) with 0 by lia.
    reflexivity. }
  unfold binary_round_aux.
  rewrite (Hshr (Z.pos m) Hd). cbn [shr_m loc_of_shr_record round_nearest_even].
  rewrite (Hshr (Z.pos m) Hd). cbn [shr_m].
  unfold Py.prec, Py.emax.
  by replace (e <=? 1024 - 53) with true by (symmetry; apply Z.leb_le; lia).
Qed.

Lemma binary_round_exact (s : bool) (p : positive) :
  Z.pos p < 2 ^ 53 ->
  exists m e, binary_round Py.prec Py.emax s p 0 = S754_finite s m e.
Proof.
  intros Hlt. pose proof (digits2_pos_small p Hlt) as Hd.
  unfold binary_round.
  unfold fexp at 1. unfold emin, Py.prec at 1 2, Py.emax at 1.
  rewrite Z.add_0_r.
  replace (Z.max (Z.pos (digits2_pos p) - 53) (3 - 1024 - 53))
    with (Z.pos (digits2_pos p) - 53) by lia.
  unfold shl_align.
  destruct (Z.pos (digits2_pos p) - 53 - 0) as [|k|k] eqn:Ek; try lia.
  - rewrite binary_round_aux_exact by lia. eauto.
  - rewrite binary_round_aux_exact; [eauto| |lia].
    rewrite digits2_pos_iter. lia.
Qed.

(** An integer between [-2^53] and [2^53] converts to a float; only 0
    converts to a zero. *)
Lemma float_of_int_exact (z : Z) :
  - exact_bound < z < exact_bound ->
  exists f, Py.float_of_int z = Ok f /\
            (z <> 0 -> exists s m e, f = S754_finite s m e).
Proof.
  unfold exact_bound. intros [Hlo Hhi].
  unfold Py.float_of_int, binary_normalize. destruct z as [|p|p].
  - eexists. split; [done|]. done.
  - destruct (binary_round_exact false p) as (m & e & ->); [lia|]. eauto 6.
  - destruct (binary_round_exact true p) as (m & e & ->); [lia|]. eauto 6.
Qed.

Lemma div_float_int_exact (x : spec_float) (n : Z) :
  0 < n < exact_bound -> exists y, Py.div_float_int x n = Ok y.
Proof.
  intros Hn. unfold Py.div_float_int.
  destruct (float_of_int_exact n) as (f & -> & Hf); [unfold exact_bound in *; lia|].
  destruct Hf as (s & m & e & ->); [lia|]. cbn [rbind]. eauto.
Qed.

Lemma add_float_int_exact (x : spec_float) (n : Z) :
  0 < n < exact_bound -> exists y, Py.add_float_int x n = Ok y.
Proof.
  intros Hn. unfold Py.add_float_int.
  destruct (float_of_int_exact n) as (f & -> & _); [unfold exact_bound in *; lia|].
  cbn [rbind]. eauto.
Qed.

(** X12. [convert] checks that the four coordinates of a box are
    positive and nothing else: it compares neither xmin with xmax nor ymin
    with ymax, nor the box with the image. A box with xmax at or below
    xmin, or one that reaches beyond the image, gets its line like any
    other. *)
Theorem X12_box_order_is_not_checked (class_id W H : Z) (b : Element)
    (xmin xmax ymin ymax : Z) :
  int_field b "xmin" = Ok xmin -> int_field b "xmax" = Ok xmax ->
  int_field b "ymin" = Ok ymin -> int_field b "ymax" = Ok ymax ->
  0 < xmin < exact_bound -> 0 < xmax < exact_bound ->
  0 < ymin < exact_bound -> 0 < ymax < exact_bound ->
  0 < W < exact_bound -> 0 < H < exact_bound ->
  exists line, convert_bndbox class_id W H b = Ok line.
Proof.
  intros Hx0 Hx1 Hy0 Hy1 ? ? ? ? HW HH.
  unfold convert_bndbox. rewrite Hx0, Hx1, Hy0, Hy1. cbn [rbind].
  rewrite !(proj2 (Z.ltb_lt 0 _)) by lia. cbn [assert rbind].
  assert (0 < 2 < exact_bound) as Htwo by done.
  destruct (float_of_int_exact (xmax - xmin)) as (fw & -> & _); [lia|].
  destruct (float_of_int_exact (ymax - ymin)) as (fh & -> & _); [lia|].
  cbn [rbind].
  destruct (div_float_int_exact fw 2 Htwo) as [hw ->]. cbn [rbind].
  destruct (add_float_int_exact hw xmin) as [lf ->]; [lia|]. cbn [rbind].
  destruct (div_float_int_exact lf W HW) as [xc ->]. cbn [rbind].
  destruct (div_float_int_exact fh 2 Htwo) as [hh ->]. cbn [rbind].
  destruct (add_float_int_exact hh ymin) as [tp ->]; [lia|]. cbn [rbind].
  destruct (div_float_int_exact tp H HH) as [yc ->]. cbn [rbind].
  destruct (div_float_int_exact fw W HW) as [rw ->]. cbn [rbind].
  destruct (div_float_int_exact fh H HH) as [rh ->]. cbn [rbind]. eauto.
Qed.

(** A box from x = 50 back to x = 10 in a 100 by 100 image *)
Lemma X12_box_order_is_not_checked_witness :
  exists line, convert_bndbox 0 100 100 Corner.reversed_box = Ok line.
Proof.
  apply (X12_box_order_is_not_checked 0 100 100 Corner.reversed_box 50 10 20 60);
    first [reflexivity | done].
Defined.

End BoxOrder.

(** ** The Annotation Converter: what a call leaves behind *)

Section ConverterFootprint.
Import Str StrFacts.

Variable classes : gmap string Z.
Variable xml : string.

(** The outcome of [convert] for a given annotation file, with what it
    writes: nothing, or a text that is not empty, next to a path that
    ends in .xml, and then it returns True. *)
Lemma convert_written (file : option File) :
  exists r msgs (out : option string),
    match out with
    | Some data => r = Ok true /\ data <> "" /\
                   exists stem, Path.splitext xml = (stem, ".xml")
    | None => r <> Ok true
    end /\
    forall w, files w !! xml = file ->
      convert classes xml w =
      (r, match out with
          | None => log w msgs
          | Some data =>
              store (log w msgs) ((Path.splitext xml).1 +:+ ".txt") (DataFile data)
          end).
Proof.
  unfold convert. destruct (Path.splitext xml) as [stem ext].
  destruct (String.eqb_spec ext ".xml") as [->|Hext].
  2:{ exists (Raise AssertionError), [], None. split; [done|].
      intros w _. by rewrite log_nil. }
  cbn [assert].
  destruct (stem =? "")%string.
  { exists (Raise AssertionError), [], None. split; [done|].
    intros w _. by rewrite log_nil. }
  cbn [negb assert].
  destruct file as [[root|data]|].
  2:{ exists (Raise ParseError), [], None. split; [done|].
      intros w Hf. rewrite !bind_lift_ok, bind_eq. unfold ET_parse.
      by rewrite Hf, log_nil. }
  2:{ exists (Raise FileNotFoundError), [], None. split; [done|].
      intros w Hf. rewrite !bind_lift_ok, bind_eq. unfold ET_parse.
      by rewrite Hf, log_nil. }
  destruct (assert (tag root =? "annotation")%string) as [[]|e] eqn:Htag.
  2:{ exists (Raise e), [], None. split; [done|].
      intros w Hf. rewrite !bind_lift_ok, bind_eq. unfold ET_parse at 1.
      by rewrite Hf, Htag, bind_lift_raise, log_nil. }
  destruct (for_each convert_size (None, None) (iter "size" root))
    as [size|e] eqn:Hsize.
  2:{ exists (Raise e), [], None. split; [done|].
      intros w Hf. rewrite !bind_lift_ok, bind_eq. unfold ET_parse at 1.
      by rewrite Hf, Htag, bind_lift_ok, Hsize, bind_lift_raise, log_nil. }
  destruct (assert_positive size.1) as [W|e] eqn:HW.
  2:{ exists (Raise e), [], None. split; [done|].
      intros w Hf. rewrite !bind_lift_ok, bind_eq. unfold ET_parse at 1.
      by rewrite Hf, Htag, bind_lift_ok, Hsize, bind_lift_ok, HW,
        bind_lift_raise, log_nil. }
  destruct (assert_positive size.2) as [H|e] eqn:HH.
  2:{ exists (Raise e), [], None. split; [done|].
      intros w Hf. rewrite !bind_lift_ok, bind_eq. unfold ET_parse at 1.
      by rewrite Hf, Htag, bind_lift_ok, Hsize, bind_lift_ok, HW,
        bind_lift_ok, HH, bind_lift_raise, log_nil. }
  destruct (convert_objects_shape classes xml W H "" (iter "object" root))
    as ([obj_data|e] & msgs & Hobjs).
  2:{ exists (Raise e), msgs, None. split; [done|].
      intros w Hf. rewrite !bind_lift_ok, bind_eq. unfold ET_parse at 1.
      by rewrite Hf, Htag, bind_lift_ok, Hsize, bind_lift_ok, HW,
        bind_lift_ok, HH, bind_lift_ok, bind_eq, Hobjs. }
  destruct (String.eqb_spec obj_data "") as [Hdata|Hdata].
  - exists (Ok false), (msgs ++ [empty_message xml]), None. split; [done|].
    intros w Hf. rewrite !bind_lift_ok, bind_eq. unfold ET_parse at 1.
    rewrite Hf, Htag, bind_lift_ok, Hsize, bind_lift_ok, HW,
      bind_lift_ok, HH, bind_lift_ok, bind_eq, Hobjs.
    subst obj_data. cbn [String.eqb]. by rewrite <- log_log.
  - exists (Ok true), msgs, (Some obj_data). split; [eauto|].
    intros w Hf. rewrite !bind_lift_ok, bind_eq. unfold ET_parse at 1.
    rewrite Hf, Htag, bind_lift_ok, Hsize, bind_lift_ok, HW,
      bind_lift_ok, HH, bind_lift_ok, bind_eq, Hobjs.
    by destruct (String.eqb_spec obj_data "").
Qed.

(** The loop over the objects returns the same for two names of the
    file; only the messages differ. *)
Lemma convert_objects_renamed (xml2 : string) (W H : Z) (d : string)
    (objs : list Element) :
  exists r msgs1 msgs2, forall w,
    for_each_M (convert_object classes xml W H) d objs w = (r, log w msgs1) /\
    for_each_M (convert_object classes xml2 W H) d objs w = (r, log w msgs2).
Proof.
  revert d. induction objs as [|o objs IH]; intros d.
  - exists (Ok d), [], []. intros w. by rewrite log_nil.
  - assert (exists r msgs1 msgs2, forall w,
              convert_object classes xml W H d o w = (r, log w msgs1) /\
              convert_object classes xml2 W H d o w = (r, log w msgs2))
      as ([d'|e] & m1 & m2 & Ho).
    { unfold convert_object. destruct (object_name o) as [name|e].
      - destruct (class_of classes name) as [c|] eqn:Hc.
        + eexists _, [], []. intros w. by rewrite !bind_lift_ok, Hc, log_nil.
        + eexists _, [_], [_]. intros w. by rewrite !bind_lift_ok, Hc.
      - exists (Raise e), [], []. intros w.
        by rewrite !bind_lift_raise, log_nil. }
    + destruct (IH d') as (r & n1 & n2 & Hr).
      exists r, (m1 ++ n1), (m2 ++ n2). intros w.
      destruct (Ho w) as [E1 E2]. cbn [for_each_M].
      rewrite !bind_eq, E1, E2.
      destruct (Hr (log w m1)) as [-> _]. destruct (Hr (log w m2)) as [_ ->].
      by rewrite !log_log.
    + exists (Raise e), m1, m2. intros w. destruct (Ho w) as [E1 E2].
      cbn [for_each_M]. by rewrite !bind_eq, E1, E2.
Qed.

(** [convert] on a path that ends in .xml, as a function of what the
    file holds. *)
Lemma convert_by_contents (stem : string) (w : World) :
  Path.splitext xml = (stem, ".xml") ->
  convert classes xml w =
  match files w !! xml with
  | None => (Raise FileNotFoundError, w)
  | Some (DataFile _) => (Raise ParseError, w)
  | Some (XmlFile root) =>
      match (assert (tag root =? "annotation")%string ;;;
             size <- for_each convert_size (None, None) (iter "size" root) ;;
             img_width <- assert_positive size.1 ;;
             img_height <- assert_positive size.2 ;;
             Ok (img_width, img_height))%result with
      | Raise e => (Raise e, w)
      | Ok (img_width, img_height) =>
          match for_each_M (convert_object classes xml img_width img_height)
                  "" (iter "object" root) w with
          | (Raise e, w') => (Raise e, w')
          | (Ok obj_data, w') =>
              if (obj_data =? "")%string
              then (Ok false, log w' [empty_message xml])
              else (Ok true, store w' (stem +:+ ".txt") (DataFile obj_data))
          end
      end
  end.
Proof.
  intros Hext. unfold convert. rewrite Hext.
  cbn [String.eqb Ascii.eqb Bool.eqb assert]. rewrite bind_lift_ok.
  replace (stem =? "")%string with false
    by (symmetry; apply String.eqb_neq; by eapply splitext_stem).
  cbn [negb assert]. rewrite bind_lift_ok, bind_eq. unfold ET_parse at 1.
  destruct (files w !! xml) as [[root|data]|]; [|done|done].
  destruct (assert (tag root =? "annotation")%string) as [[]|e];
    [rewrite bind_lift_ok|by rewrite bind_lift_raise].
  cbn [rbind].
  destruct (for_each convert_size (None, None) (iter "size" root)) as [size|e];
    [rewrite bind_lift_ok|by rewrite bind_lift_raise].
  cbn [rbind].
  destruct (assert_positive size.1) as [W|e];
    [rewrite bind_lift_ok|by rewrite bind_lift_raise].
  cbn [rbind].
  destruct (assert_positive size.2) as [H|e];
    [rewrite bind_lift_ok|by rewrite bind_lift_raise].
  cbn [rbind]. rewrite bind_eq.
  destruct (for_each_M _ _ _ _) as [[obj_data|e] w']; [|done].
  by destruct (obj_data =? "")%string.
Qed.

End ConverterFootprint.

Section ConverterCalls.
Import Str StrFacts.

(** X13. [convert] writes at most one file, and only when it returns
    True: then the path of the annotation ends in .xml and the file with
    .txt in its place gets a text that is not empty. When it returns
    False or raises, no file is created or changed. The random source is
    never used. *)
Theorem X13_convert_writes_only_its_text_file (classes : gmap string Z)
    (xml : string) (w : World) :
  let r := convert classes xml w in
  match r.1 with
  | Ok true =>
      exists stem data,
        Path.splitext xml = (stem, ".xml") /\ data <> "" /\
        files r.2 = <[stem +:+ ".txt" := DataFile data]> (files w)
  | _ => files r.2 = files w
  end /\
  random_calls r.2 = random_calls w.
Proof.
  destruct (convert_written classes xml (files w !! xml))
    as (r & msgs & out & Hout & Hrun).
  cbv zeta. rewrite (Hrun w eq_refl). cbn [fst snd].
  destruct out as [data|].
  - destruct Hout as (-> & Hdata & stem & E). split; [|done].
    exists stem, data. by rewrite E.
  - split; [|done]. by destruct r as [[]|].
Qed.

(** X14. Converting a file again changes nothing: the second call of
    [convert] returns what the first returned, or raises what it raised,
    and leaves the files as the first call left them. *)
Theorem X14_convert_again (classes : gmap string Z) (xml : string) (w : World) :
  let w1 := (convert classes xml w).2 in
  (convert classes xml w1).1 = (convert classes xml w).1 /\
  files (convert classes xml w1).2 = files w1.
Proof.
  destruct (convert_written classes xml (files w !! xml))
    as (r & msgs & out & Hout & Hrun).
  cbv zeta. rewrite (Hrun w eq_refl). cbn [fst snd].
  destruct out as [data|].
  - destruct Hout as (-> & Hdata & stem & E).
    rewrite Hrun.
    + cbn [fst snd store files]. split; [done|]. apply insert_insert_eq.
    + cbn [store files]. rewrite lookup_insert_ne; [done|].
      rewrite E. cbn [fst]. apply splitext_app in E. rewrite E.
      by apply suffix_neq.
  - by rewrite Hrun.
Qed.

(** X15. What [convert] returns and what it writes depend on the
    contents of the annotation file, not on its name: two files with the
    same contents, under any two paths that end in .xml, give the same
    result, the same exception when one is raised, and text files with the
    same contents. So the copy that the Flattener makes converts as the
    original would. *)
Theorem X15_convert_does_not_depend_on_the_name (classes : gmap string Z)
    (xml1 xml2 stem1 stem2 : string) (w1 w2 : World) :
  Path.splitext xml1 = (stem1, ".xml") ->
  Path.splitext xml2 = (stem2, ".xml") ->
  files w1 !! xml1 = files w2 !! xml2 ->
  let r1 := convert classes xml1 w1 in
  let r2 := convert classes xml2 w2 in
  r1.1 = r2.1 /\
  (r1.1 = Ok true ->
   exists data, files r1.2 !! (stem1 +:+ ".txt") = Some (DataFile data) /\
                files r2.2 !! (stem2 +:+ ".txt") = Some (DataFile data)).
Proof.
  intros Hext1 Hext2 Hfile. cbv zeta.
  rewrite (convert_by_contents _ _ _ _ Hext1), (convert_by_contents _ _ _ _ Hext2).
  rewrite Hfile. destruct (files w2 !! xml2) as [[root|data]|]; [|done|done].
  destruct (rbind _ _) as [[W H]|e]; [|done].
  destruct (convert_objects_renamed classes xml1 xml2 W H "" (iter "object" root))
    as (r & m1 & m2 & Hr).
  destruct (Hr w1) as [-> _]. destruct (Hr w2) as [_ ->].
  destruct r as [obj_data|e]; [|done].
  destruct (obj_data =? "")%string; [done|].
  cbn. split; [done|]. intros _. exists obj_data.
  by rewrite !lookup_insert_eq.
Qed.

(** The cat in the source directory and its copy in the output directory *)
Lemma X15_convert_does_not_depend_on_the_name_witness :
  let w1 := Sample.world Sample.source_files Sample.no_random in
  let w2 := Sample.world Sample.flat_files Sample.no_random in
  (convert Sample.cat_dog "/w/source/movie1/frame001.xml" w1).1 =
  (convert Sample.cat_dog "out/data/a.xml" w2).1.
Proof.
  cbn zeta.
  apply (X15_convert_does_not_depend_on_the_name Sample.cat_dog
           "/w/source/movie1/frame001.xml" "out/data/a.xml"
           "/w/source/movie1/frame001" "out/data/a"
           (Sample.world Sample.source_files Sample.no_random)
           (Sample.world Sample.flat_files Sample.no_random));
    reflexivity.
Defined.

End ConverterCalls.

(** ** The Splitter *)

Section SplitterLoop.
Import Str StrFacts.

Variable self : TrainingData.





End SplitterLoop.

Section SplitterRun.
Import Str StrFacts.






End SplitterRun.

(** ** The command line and the program *)

Section Fraction.

(** Below a positive float: the strict comparisons fail where the
    others fail, at a zero and at the float itself. *)
Lemma between_strict (v : spec_float) (m1 : positive) (e1 : Z) :
  (SFltb (S754_zero false) v && SFltb v (S754_finite false m1 e1) = false) <->
  (SFleb (S754_zero false) v && SFleb v (S754_finite false m1 e1) = false \/
   v = S754_zero false \/ v = S754_zero true \/ v = S754_finite false m1 e1).
Proof.
  unfold SFltb, SFleb.
  destruct v as [[]|[]| |[] m e]; cbn [SFcompare andb]; try (split; [auto|done]).
  destruct (Z.compare_spec e e1) as [->|Hlt|Hgt].
  - destruct (Pos.compare_cont Eq m m1) eqn:Hm.
    + apply Pos.compare_eq in Hm as ->. split; [auto|done].
    + split; [done|]. intros [|[|[|[= ->]]]]; try done.
      by rewrite Pos.compare_cont_refl in Hm.
    + split; [by left|done].
  - split; [done|]. intros [|[|[|[= -> ->]]]]; try done; lia.
  - split; [by left|done].
Qed.

(** X19. [TrainingData.__init__] refuses what [Range.__eq__] refuses
    and three values more, 0.0, -0.0 and 1.0: these are the test fractions
    that pass the command line and fail the assertion afterwards. *)
Theorem X19_fractions_refused_after_parsing
    (input_dir output_dir file_header : string) (classes : gmap string Z)
    (v : spec_float) :
  raises (TrainingData_init input_dir output_dir file_header classes v) <->
  Range_eq (mkRange Py.float_0 Py.float_1) v = false \/
  v = S754_zero false \/ v = S754_zero true \/ v = Py.float_1.
Proof.
  rewrite <- (between_strict v 4503599627370496 (-52)).
  unfold TrainingData_init, Py.float_lt, Py.float_0, Py.float_1.
  by destruct (SFltb _ _ && SFltb _ _).
Qed.

End Fraction.

Section ClassMap.
Import Str StrFacts.

Let clean (c : ascii) : bool := negb (class_list_char c).

Lemma enumerate_into_other (l : list string) (m : gmap string Z) (i : Z)
    (name : string) :
  ~ In name l -> enumerate_into m i l !! name = m !! name.
Proof.
  revert m i. induction l as [|v l IH]; intros m i Hnot; [done|].
  cbn [enumerate_into]. rewrite IH.
  - apply lookup_insert_ne. intros ->. apply Hnot. by left.
  - intros Hin. apply Hnot. by right.
Qed.

Lemma enumerate_into_last (l : list string) (m : gmap string Z) (i : Z)
    (k : nat) (name : string) :
  l !! k = Some name ->
  (forall j, (k < j)%nat -> l !! j <> Some name) ->
  enumerate_into m i l !! name = Some (i + Z.of_nat k).
Proof.
  revert m i k. induction l as [|v l IH]; intros m i k Hk Hlast; [done|].
  cbn [enumerate_into]. destruct k as [|k].
  - injection Hk as ->. rewrite enumerate_into_other.
    + rewrite lookup_insert_eq. f_equal. lia.
    + intros [j Hj]%list_elem_of_In%list_elem_of_lookup_1.
      apply (Hlast (S j)); [lia|done].
  - rewrite (IH _ _ k); [f_equal; lia|done|].
    intros j Hj. apply (Hlast (S j)). lia.
Qed.

Lemma last_occurrence (l : list string) (name : string) :
  In name l ->
  exists k, l !! k = Some name /\ forall j, (k < j)%nat -> l !! j <> Some name.
Proof.
  induction l as [|v l IH]; [done|]. intros Hin.
  destruct (in_dec string_dec name l) as [Hl|Hl].
  - destruct (IH Hl) as (k & Hk & Hlast). exists (S k). split; [done|].
    intros [|j] Hj; [lia|]. apply Hlast. lia.
  - destruct Hin as [->|Hin]; [|done]. exists O. split; [done|].
    intros [|j] Hj; [lia|]. cbn. intros Hj'. apply Hl.
    apply list_elem_of_In. by eapply list_elem_of_lookup_2.
Qed.

Lemma split_comma_from_not_nil (cur s : string) : split_comma_from cur s <> [].
Proof.
  revert cur. induction s as [|c s IH]; intros cur; [done|].
  cbn [split_comma_from]. by destruct (Ascii.eqb c ",").
Qed.

Lemma all_rev_app (p : ascii -> bool) (s acc : string) :
  all p s = true -> all p acc = true -> all p (String.rev_app s acc) = true.
Proof.
  revert acc. induction s as [|c s IH]; intros acc Hs Hacc; [done|].
  cbn [all] in Hs. apply andb_true_iff in Hs as [Hc Hs].
  cbn [String.rev_app]. apply IH; [done|]. cbn [all]. by rewrite Hc, Hacc.
Qed.

Lemma all_rev (p : ascii -> bool) (s : string) :
  all p s = true -> all p (String.rev s) = true.
Proof. intros H. by apply all_rev_app. Qed.

Lemma split_comma_from_clean (cur s : string) :
  all (fun c => negb (re_space c || Ascii.eqb c "+")) s = true ->
  all clean cur = true ->
  Forall (fun piece => all clean piece = true) (split_comma_from cur s).
Proof.
  revert cur. induction s as [|c s IH]; intros cur Hs Hcur.
  - constructor; [|done]. by apply all_rev.
  - cbn [all] in Hs. apply andb_true_iff in Hs as [Hc Hs].
    cbn [split_comma_from]. destruct (Ascii.eqb c ",") eqn:Hcomma.
    + constructor; [by apply all_rev|]. by apply IH.
    + apply IH; [done|]. cbn [all]. rewrite Hcur.
      unfold clean, class_list_char. rewrite Hcomma.
      rewrite orb_false_r, andb_true_r. exact Hc.
Qed.

Lemma remove_space_plus_clean (s : string) :
  all (fun c => negb (re_space c || Ascii.eqb c "+")) (remove_space_plus s) = true.
Proof.
  induction s as [|c s IH]; [done|]. cbn [remove_space_plus].
  destruct (re_space c || Ascii.eqb c "+") eqn:E; [done|].
  cbn [all]. by rewrite E, IH.
Qed.

Lemma parse_args_classes (argv : Argv) (cfg : Config) :
  parse_args argv = Ok cfg ->
  exists s, arg_classes argv = Some s /\
    classes cfg = enumerate_into ∅ 0 (split_comma (remove_space_plus s)).
Proof.
  unfold parse_args. destruct (arg_classes argv) as [s|]; [|done].
  intros [percent [_ [= <-]]]%rbind_ok. by exists s.
Qed.

(** X20. The class map that [parse_args] builds holds exactly the
    pieces of the class list, after white space and plus signs are taken
    out and the list is cut at the commas. The id of a name is its
    position in that list, counted from 0; for a name that occurs more
    than once it is the last position. There is always a first piece, so
    the map is never empty. *)
Theorem X20_class_ids_are_positions (argv : Argv) (cfg : Config) (s : string) :
  parse_args argv = Ok cfg ->
  arg_classes argv = Some s ->
  let names := split_comma (remove_space_plus s) in
  names <> [] /\
  forall (name : string) (i : Z),
    classes cfg !! name = Some i <->
    exists k, i = Z.of_nat k /\ names !! k = Some name /\
              forall j, (k < j)%nat -> names !! j <> Some name.
Proof.
  intros [s' [Hs ->]]%parse_args_classes Hs'.
  assert (s' = s) as -> by congruence. clear Hs Hs'.
  intros names. split; [apply split_comma_from_not_nil|].
  intros name i. split.
  - intros Hi. destruct (in_dec string_dec name names) as [Hin|Hnot].
    + destruct (last_occurrence _ _ Hin) as (k & Hk & Hlast).
      exists k. split; [|done].
      rewrite (enumerate_into_last _ _ _ _ _ Hk Hlast) in Hi.
      injection Hi as <-. lia.
    + by rewrite enumerate_into_other in Hi.
  - intros (k & -> & Hk & Hlast).
    by rewrite (enumerate_into_last _ _ _ _ _ Hk Hlast).
Qed.

(** [cat, dog, c++, cat]: the pieces are cat, dog, c and cat, so cat gets
    the id 3 *)
Lemma X20_class_ids_are_positions_witness :
  match parse_args Corner.four_names with
  | Ok cfg => classes cfg !! "cat" = Some 3 /\ classes cfg !! "c" = Some 2
  | Raise _ => False
  end.
Proof.
  destruct (parse_args Corner.four_names) as [cfg|e] eqn:Hargs.
  - destruct (X20_class_ids_are_positions Corner.four_names cfg
                "cat, dog, c++, cat" Hargs eq_refl) as [_ H].
    split.
    + apply H. exists 3%nat. split; [reflexivity|]. split; [reflexivity|].
      intros [|[|[|[|j]]]] Hj; try lia; discriminate.
    + apply H. exists 2%nat. split; [reflexivity|]. split; [reflexivity|].
      intros [|[|[|[|j]]]] Hj; try lia; discriminate.
  - vm_compute in Hargs. discriminate Hargs.
Defined.

(** X21. No class name of the map that [parse_args] builds holds white
    space, a plus sign or a comma, since these are taken out of the class
    list or cut it. An object whose name in the annotation file holds one
    of them, a blank for one, is therefore never recognized. *)
Theorem X21_class_names_are_stripped (argv : Argv) (cfg : Config) (name : string) :
  parse_args argv = Ok cfg ->
  (is_Some (classes cfg !! name) ->
   all (fun c => negb (class_list_char c)) name = true) /\
  (all (fun c => negb (class_list_char c)) name = false ->
   forall obj, object_name obj = Ok (Some name) ->
               recognized (classes cfg) obj = false).
Proof.
  intros [s [_ ->]]%parse_args_classes.
  assert (is_Some (enumerate_into ∅ 0 (split_comma (remove_space_plus s)) !! name) ->
          all clean name = true) as Hclean.
  { intros [i Hi].
    destruct (in_dec string_dec name (split_comma (remove_space_plus s)))
      as [Hin|Hnot].
    - pose proof (split_comma_from_clean "" (remove_space_plus s)
                    (remove_space_plus_clean s) eq_refl) as Hall.
      rewrite Forall_forall in Hall. apply Hall. by apply list_elem_of_In.
    - by rewrite enumerate_into_other in Hi. }
  split; [exact Hclean|].
  intros Hname obj Hobj. unfold recognized. rewrite Hobj. cbn [class_of].
  apply bool_decide_eq_false. intros H%Hclean. unfold clean in H. congruence.
Qed.

(** With the class list [traffic light], an object named traffic light is
    not recognized. *)
Lemma X21_class_names_are_stripped_witness :
  match parse_args (mkArgv (Some "traffic light") None None None None None) with
  | Ok cfg =>
      recognized (classes cfg)
        (Sample.object "traffic light" Sample.cat_box) = false
  | Raise _ => False
  end.
Proof.
  destruct (parse_args (mkArgv (Some "traffic light") None None None None None))
    as [cfg|e] eqn:Hargs.
  - apply (proj2 (X21_class_names_are_stripped _ cfg "traffic light" Hargs));
      reflexivity.
  - vm_compute in Hargs. discriminate Hargs.
Defined.

End ClassMap.

Section MainRun.

(** X22. The test fraction is checked by [TrainingData.__init__] only
    after [sanitize] has run: with a fraction that passes [parse_args]
    and fails the assertion, 0.0 or 1.0, the program copies the pairs,
    prints their number and then stops with an AssertionError, before any
    annotation is converted. *)
Theorem X22_fraction_is_checked_after_flattening
    (iglob : gmap string File -> string -> list string) (current_dir : string)
    (argv : Argv) (cfg : Config) (w w1 : World) (n : Z) :
  parse_args argv = Ok cfg ->
  let output_dir :=
    Path.join current_dir (Path.join (destination_dir cfg) (dest_subdir cfg)) in
  let imageData :=
    mkImageData (Path.join current_dir (source_dir cfg)) output_dir
      (dest_file_name_header cfg) false in
  sanitize iglob imageData w = (Ok n, w1) ->
  raises (TrainingData_init output_dir (Path.join current_dir (destination_dir cfg))
            (dest_subdir cfg) (classes cfg) (percentage_test cfg)) ->
  program iglob current_dir argv w =
  (Raise AssertionError,
   log w1 ["_____ " +:+ Py.str_of_int n +:+ " xml/jpg pairs have been copied."]).
Proof.
  intros Hargs output_dir imageData Hflat Hinit.
  unfold program. rewrite Hargs, bind_lift_ok. unfold main.
  fold output_dir. fold imageData. rewrite bind_eq, Hflat, bind_eq.
  unfold print at 1. revert Hinit. unfold TrainingData_init.
  destruct (Py.float_lt _ _ && Py.float_lt _ _); [done|]. intros _.
  cbn [assert rbind]. by rewrite bind_lift_raise.
Qed.

(** [cat,dog -p 0.0] on a source directory with one pair *)
Lemma X22_fraction_is_checked_after_flattening_witness :
  program Sample.source_listing "/w" Corner.fraction_zero Corner.source_world =
  (Raise AssertionError,
   log Corner.flattened_world ["_____ 1 xml/jpg pairs have been copied."]).
Proof.
  etransitivity.
  - apply (X22_fraction_is_checked_after_flattening Sample.source_listing "/w"
             Corner.fraction_zero Corner.fraction_zero_cfg Corner.source_world
             Corner.flattened_world 1).
    + vm_compute. reflexivity.
    + vm_compute. reflexivity.
    + vm_compute. exact I.
  - vm_compute. reflexivity.
Defined.

(** X23. When [main] ends without an exception, the test fraction is
    strictly between 0 and 1 and both manifests exist: they are in the
    destination directory and named after the sub-directory,
    <subdir>-train.txt and <subdir>-test.txt, not after the header of
    the file names. *)
Theorem X23_main_leaves_both_manifests
    (iglob : gmap string File -> string -> list string) (current_dir : string)
    (cfg : Config) (w w' : World) :
  main iglob current_dir cfg w = (Ok tt, w') ->
  let dir := Path.join current_dir (destination_dir cfg) in
  Py.float_lt Py.float_0 (percentage_test cfg) &&
    Py.float_lt (percentage_test cfg) Py.float_1 = true /\
  exists train test,
    files w' !! Path.join dir (dest_subdir cfg +:+ "-train.txt") =
      Some (DataFile train) /\
    files w' !! Path.join dir (dest_subdir cfg +:+ "-test.txt") =
      Some (DataFile test).
Proof.
  unfold main. rewrite bind_eq.
  destruct (sanitize _ _ _) as [[n|e] w1]; [|done].
  rewrite bind_eq. unfold print at 1. unfold TrainingData_init.
  destruct (Py.float_lt _ _ && Py.float_lt _ _); cbn [assert rbind];
    [|by rewrite bind_lift_raise].
  rewrite bind_lift_ok, bind_eq.
  destruct (split _ _ _) as [[st|e] w2] eqn:Hsplit; [|done].
  destruct (split_ok _ _ _ _ _ Hsplit) as (Htrain & Htest & _).
  rewrite bind_eq. unfold print at 1. rewrite bind_eq.
  destruct (n =? detected_pairs_count st); unfold print; intros [= <-];
    cbn zeta; (split; [done|]);
    exists (String.concat "" (file_train st)), (String.concat "" (file_test st));
    by split.
Qed.

(** [cat,dog] with the defaults on a source directory with one pair *)
Lemma X23_main_leaves_both_manifests_witness :
  match main Sample.source_listing "/w" Corner.defaults_cfg
          Corner.source_world with
  | (Ok _, w') =>
      exists train test,
        files w' !! "/w/destination/data-train.txt" = Some (DataFile train) /\
        files w' !! "/w/destination/data-test.txt" = Some (DataFile test)
  | (Raise _, _) => False
  end.
Proof.
  destruct (main Sample.source_listing "/w" Corner.defaults_cfg
              Corner.source_world) as [[[]|e] w'] eqn:Hrun.
  - exact (proj2 (X23_main_leaves_both_manifests _ _ _ _ _ Hrun)).
  - vm_compute in Hrun. discriminate Hrun.
Defined.

End MainRun.
